(** * webOS update server: the SyncML / OMA DM protocol engine

    A shallow embedding of the Python sources
    (wbxml/tokens.py, wbxml/codec.py, syncml/parser.py, syncml/builder.py,
    syncml/auth.py, syncml/session.py, dm/update.py, server.py) and the
    properties of the protocol engine stated over it.

    Conventions of the embedding:
    - a Python [bytes] value is a [list Z], each element a byte;
    - a Python [str] is a [string], read as its UTF-8 encoding, so that
      [str.encode()] maps characters to their codes and [bytes.decode()]
      checks UTF-8 well-formedness and maps back;
    - the class [\d] of [re], the white space of [strip] and the
      literals of [int] are read on the characters of the text, with the
      tables of the interpreter for the characters from U+0080 on;
      [lower] changes the ASCII letters only;
    - integers are unbounded ([Z]); the limit an interpreter puts on the
      number of digits [int] and [str] convert is a field of
      [Interpreter];
    - Python exceptions are the constructors of [PyError]; a method that
      may raise returns [Result];
    - objects mutated in place ([WBXMLDecoder], [WBXMLEncoder],
      [SyncMLBuilder], [Session]) are records threaded through the calls. *)

From Stdlib Require Import ZArith Lia List Bool Ascii String DecimalString.
From stdpp Require Import base option list gmap strings.
Import ListNotations.

Local Open Scope string_scope.
Local Open Scope list_scope.
Local Open Scope Z_scope.

(** ** Python values *)

Module Py.

Abbreviation bytes := (list Z).

(** The exceptions the modelled code can raise.
    [EndOfData pos] is [ValueError("Unexpected end of data at position
    pos")] of [WBXMLDecoder.read_byte]; [InvalidLiteral s] is the
    [ValueError] of [int(s)] on a text that is no literal and
    [DigitLimit] the [ValueError] of [int] and [str] on a number of more
    digits than the interpreter converts; [OutOfFuel] is not a Python
    exception: it marks a loop of the model that was given too little
    fuel. *)
Inductive PyError :=
| EndOfData (pos : nat)
| InvalidLiteral (s : string)
| DigitLimit
| IndexError
| UnicodeDecodeError
| AttributeError
| BinasciiError
| OutOfFuel.

Definition Result (A : Type) : Type := PyError + A.

Definition ok {A} (a : A) : Result A := inr a.
Definition raise {A} (e : PyError) : Result A := inl e.

Definition bind {A B} (m : Result A) (k : A -> Result B) : Result B :=
  match m with
  | inl e => inl e
  | inr a => k a
  end.

(** A loop that calls [f] on the elements of a list in order and
    collects what it returns; the first exception ends the loop. *)
Fixpoint traverse {A B} (f : A -> Result B) (l : list A) : Result (list B) :=
  match l with
  | [] => ok []
  | x :: r =>
    match f x with
    | inl e => inl e
    | inr y =>
      match traverse f r with
      | inl e => inl e
      | inr ys => inr (y :: ys)
      end
    end
  end.

(** [str.encode()] and the inverse direction, character by character. *)
Definition byte_of_ascii (c : ascii) : Z := Z.of_N (N_of_ascii c).
Definition ascii_of_byte (b : Z) : ascii := ascii_of_N (Z.to_N b).

Definition encode (s : string) : bytes :=
  map byte_of_ascii (list_ascii_of_string s).

Definition chars (b : bytes) : string :=
  string_of_list_ascii (map ascii_of_byte b).

Definition in_range (lo hi b : Z) : bool := (lo <=? b) && (b <=? hi).

(** Well-formed UTF-8 (no overlong forms, no surrogates, at most
    U+10FFFF), as the [utf-8] codec accepts it. *)
Fixpoint utf8_valid (b : bytes) : bool :=
  match b with
  | [] => true
  | b0 :: r0 =>
    if in_range 0 127 b0 then utf8_valid r0 else
    match r0 with
    | [] => false
    | b1 :: r1 =>
      if in_range 194 223 b0 then in_range 128 191 b1 && utf8_valid r1 else
      match r1 with
      | [] => false
      | b2 :: r2 =>
        if in_range 224 239 b0 then
          (if b0 =? 224 then in_range 160 191 b1
           else if b0 =? 237 then in_range 128 159 b1
           else in_range 128 191 b1)
          && in_range 128 191 b2 && utf8_valid r2
        else
        match r2 with
        | [] => false
        | b3 :: r3 =>
          in_range 240 244 b0
          && (if b0 =? 240 then in_range 144 191 b1
              else if b0 =? 244 then in_range 128 143 b1
              else in_range 128 191 b1)
          && in_range 128 191 b2 && in_range 128 191 b3 && utf8_valid r3
        end
      end
    end
  end.

(** [bytes.decode('utf-8')] *)
Definition decode (b : bytes) : Result string :=
  if utf8_valid b then ok (chars b) else raise UnicodeDecodeError.

(** [data[lo:hi]] with non-negative bounds: out-of-range bounds are
    clipped, never an error. *)
Definition slice {A} (l : list A) (lo hi : nat) : list A :=
  take (hi - lo) (drop lo l).

(** Truthiness of a [str]: the empty string is falsy. *)
Definition truthy (s : string) : bool :=
  match s with EmptyString => false | _ => true end.

(** Truthiness of an [Optional[str]]: [None] and [''] are falsy. *)
Definition otruthy (s : option string) : bool :=
  match s with Some t => truthy t | None => false end.

(** [x or d] on an [Optional[str]]. *)
Definition or_else (s : option string) (d : string) : string :=
  match s with
  | Some t => if truthy t then t else d
  | None => d
  end.

(** *** The interpreter

    What the embedding takes from the interpreter that runs the server:
    two tables of its Unicode database, which differ between versions
    of Python, and its limit on the conversions between [int] and [str].
    A character below U+0080 never consults the tables. *)

Record Interpreter := mkInterpreter {
  (** [Py_UNICODE_TODECIMAL] on a code point from U+0080 on: the value of
      a decimal digit (category [Nd]), [None] for any other character *)
  decimal : Z -> option Z;
  (** [Py_UNICODE_ISSPACE] on a code point from U+0080 on *)
  space : Z -> bool;
  (** [sys.get_int_max_str_digits()]: 0 when the interpreter has no
      limit (before Python 3.11, or the limit switched off), at least
      640 otherwise *)
  max_str_digits : Z
}.

(** The conversions of a number of more than 640 digits raise when the
    limit is set and exceeded. *)
Definition over_limit (py : Interpreter) (digits : nat) : bool :=
  (640 <? Z.of_nat digits) && (0 <? max_str_digits py)
  && (max_str_digits py <? Z.of_nat digits).

(** *** Characters

    The first character of a [str] in its UTF-8 encoding: its code
    point and the number of bytes it takes. *)

Definition first_char (s : string) : option (Z * nat) :=
  match s with
  | EmptyString => None
  | String c0 r0 =>
    let b0 := byte_of_ascii c0 in
    if b0 <? 128 then Some (b0, 1%nat) else
    match r0 with
    | EmptyString => None
    | String c1 r1 =>
      let b1 := byte_of_ascii c1 in
      if negb (in_range 128 191 b1) then None else
      if in_range 194 223 b0 then
        Some ((b0 - 192) * 64 + (b1 - 128), 2%nat)
      else
      match r1 with
      | EmptyString => None
      | String c2 r2 =>
        let b2 := byte_of_ascii c2 in
        if negb (in_range 128 191 b2) then None else
        if in_range 224 239 b0 then
          Some ((b0 - 224) * 4096 + (b1 - 128) * 64 + (b2 - 128), 3%nat)
        else
        match r2 with
        | EmptyString => None
        | String c3 r3 =>
          let b3 := byte_of_ascii c3 in
          if negb (in_range 128 191 b3) then None else
          if in_range 240 244 b0 then
            Some ((b0 - 240) * 262144 + (b1 - 128) * 4096
                  + (b2 - 128) * 64 + (b3 - 128), 4%nat)
          else None
        end
      end
    end
  end.

(** The value of a decimal digit: [0] to [9] below U+0080, the table of
    the interpreter from there on. *)
Definition decimal_value (py : Interpreter) (cp : Z) : option Z :=
  if cp <? 128 then
    (if in_range 48 57 cp then Some (cp - 48) else None)
  else
    match decimal py cp with
    | Some v => if in_range 0 9 v then Some v else None
    | None => None
    end.

(** [Py_UNICODE_ISSPACE]: below U+0080 the characters 9 to 13 and 28 to
    32. *)
Definition is_space_code (py : Interpreter) (cp : Z) : bool :=
  if cp <? 128 then in_range 9 13 cp || in_range 28 32 cp
  else space py cp.

(** The value and the length in bytes of the decimal digit a string
    starts with, if it starts with one: the class [\d] of [re] on a
    [str]. *)
Definition digit_at (py : Interpreter) (s : string) : option (Z * nat) :=
  match first_char s with
  | Some (cp, n) =>
    match decimal_value py cp with
    | Some v => Some (v, n)
    | None => None
    end
  | None => None
  end.

(** The length in bytes of the white-space character a string starts
    with, if it starts with one. *)
Definition space_at (py : Interpreter) (s : string) : option nat :=
  match first_char s with
  | Some (cp, n) => if is_space_code py cp then Some n else None
  | None => None
  end.

(** *** String methods *)

Definition lower_char (c : ascii) : ascii :=
  let n := byte_of_ascii c in
  if in_range 65 90 n then ascii_of_byte (n + 32) else c.

(** [s.lower()] (on the ASCII letters) *)
Fixpoint lower (s : string) : string :=
  match s with
  | EmptyString => EmptyString
  | String c r => String (lower_char c) (lower r)
  end.

(** [needle in hay] *)
Fixpoint contains (needle hay : string) : bool :=
  String.prefix needle hay
  || match hay with
     | EmptyString => false
     | String _ r => contains needle r
     end.

(** [re.findall(r'\d+', s)]: the maximal runs of decimal digits, left
    to right.  [cur] is the run being read and [skip] the number of
    bytes left of the digit read last. *)
Fixpoint digit_runs (py : Interpreter) (skip : nat) (cur : string)
         (s : string) : list string :=
  match s with
  | EmptyString => if truthy cur then [cur] else []
  | String c r =>
    match skip with
    | S k => digit_runs py k (cur +:+ String c EmptyString) r
    | O =>
      match digit_at py s with
      | Some (_, n) =>
        digit_runs py (n - 1) (cur +:+ String c EmptyString) r
      | None =>
        (if truthy cur then [cur] else []) ++ digit_runs py 0 EmptyString r
      end
    end
  end.

Definition re_findall_digits (py : Interpreter) (s : string) : list string :=
  digit_runs py 0 EmptyString s.

(** [s.lstrip()] *)
Fixpoint lstrip (py : Interpreter) (skip : nat) (s : string) : string :=
  match s with
  | EmptyString => EmptyString
  | String c r =>
    match skip with
    | S k => lstrip py k r
    | O =>
      match space_at py s with
      | Some n => lstrip py (n - 1) r
      | None => s
      end
    end
  end.

(** The string holds white space only. *)
Definition all_space (py : Interpreter) (s : string) : bool :=
  match lstrip py 0 s with
  | EmptyString => true
  | _ => false
  end.

(** [s.rstrip()]: the text before the trailing white space. *)
Fixpoint rstrip (py : Interpreter) (s : string) : string :=
  match s with
  | EmptyString => EmptyString
  | String c r => if all_space py s then EmptyString
                  else String c (rstrip py r)
  end.

(** [s.strip()] *)
Definition strip (py : Interpreter) (s : string) : string :=
  rstrip py (lstrip py 0 s).

(** *** [int(s)] on a [str], base 10

    The interpreter first rewrites the text in ASCII: a character below
    U+007F stays, white space from there on becomes a blank and a
    decimal digit its ASCII digit; at any other character it writes [?]
    and drops the rest. *)
Fixpoint to_ascii (py : Interpreter) (skip : nat) (s : string) : string :=
  match s with
  | EmptyString => EmptyString
  | String c r =>
    match skip with
    | S k => to_ascii py k r
    | O =>
      if byte_of_ascii c <? 127 then String c (to_ascii py 0 r) else
      match first_char s with
      | Some (cp, n) =>
        if (128 <=? cp) && space py cp then
          String " " (to_ascii py (n - 1) r)
        else
          match (if 128 <=? cp then decimal_value py cp else None) with
          | Some v => String (ascii_of_byte (48 + v)) (to_ascii py (n - 1) r)
          | None => "?"
          end
      | None => "?"
      end
    end
  end.

(** The white space of the literal: [Py_ISSPACE], the characters 9 to 13
    and the blank. *)
Definition is_literal_space (c : ascii) : bool :=
  let n := byte_of_ascii c in in_range 9 13 n || (n =? 32).

Fixpoint skip_literal_space (s : string) : string :=
  match s with
  | String c r => if is_literal_space c then skip_literal_space r else s
  | EmptyString => EmptyString
  end.

(** An ASCII digit, in the text [to_ascii] wrote. *)
Definition is_digit (c : ascii) : bool :=
  let n := byte_of_ascii c in in_range 48 57 n.

(** The scan of the digits: decimal digits with single underscores
    between two of them.  It returns the number of digits, their value
    and the text left; [prev] tells that no digit was read yet or that
    the previous character was an underscore. *)
Fixpoint scan_digits (prev : bool) (count : nat) (acc : Z) (s : string)
  : option (nat * Z * string) :=
  match s with
  | EmptyString => if prev then None else Some (count, acc, s)
  | String c r =>
    if is_digit c then
      scan_digits false (S count) (10 * acc + (byte_of_ascii c - 48)) r
    else if Ascii.eqb c "_" then
      (if prev then None else scan_digits true count acc r)
    else if prev then None else Some (count, acc, s)
  end.

(** [int(s)]: white space around the literal is dropped and one sign is
    allowed; a literal of too many digits raises the [ValueError] of the
    limit, before the text after the digits is looked at; anything else
    that is not a literal raises the [ValueError] of [int]. *)
Definition int (py : Interpreter) (s : string) : Result Z :=
  let t := skip_literal_space (to_ascii py 0 s) in
  let '(neg, body) :=
    match t with
    | String "-" r => (true, r)
    | String "+" r => (false, r)
    | _ => (false, t)
    end in
  match scan_digits true 0 0 body with
  | Some (count, n, rest) =>
    if over_limit py count then raise DigitLimit
    else match skip_literal_space rest with
         | EmptyString => ok (if neg : bool then - n else n)
         | _ => raise (InvalidLiteral s)
         end
  | None => raise (InvalidLiteral s)
  end.

(** The number of decimal digits of a natural number. *)
Definition digits_of (n : Z) : nat :=
  String.length (DecimalString.NilZero.string_of_uint (N.to_uint (Z.abs_N n))).

(** [str(n)] on an [int] of at most 640 digits, which no limit of the
    interpreter touches: the counters and the status codes of the
    builder. *)
Definition str (n : Z) : string :=
  DecimalString.NilZero.string_of_int (Z.to_int n).

(** [str(n)] on any [int]: the conversion of a number of too many
    digits raises. *)
Definition str_of_int (py : Interpreter) (n : Z) : Result string :=
  if over_limit py (digits_of n) then raise DigitLimit else ok (str n).

(** *** CPython 3.11

    The tables of Unicode 14.0, which CPython 3.11 carries: the decimal
    digits from U+0080 on come in runs that count from [0] to [9], and
    the white space is the list below.  The limit is the default of
    4300 digits. *)
Definition decimal_runs : list (Z * Z) :=
  [(0x660, 0x669); (0x6F0, 0x6F9); (0x7C0, 0x7C9); (0x966, 0x96F);
    (0x9E6, 0x9EF); (0xA66, 0xA6F); (0xAE6, 0xAEF); (0xB66, 0xB6F);
    (0xBE6, 0xBEF); (0xC66, 0xC6F); (0xCE6, 0xCEF); (0xD66, 0xD6F);
    (0xDE6, 0xDEF); (0xE50, 0xE59); (0xED0, 0xED9); (0xF20, 0xF29);
    (0x1040, 0x1049); (0x1090, 0x1099); (0x17E0, 0x17E9); (0x1810, 0x1819);
    (0x1946, 0x194F); (0x19D0, 0x19D9); (0x1A80, 0x1A89); (0x1A90, 0x1A99);
    (0x1B50, 0x1B59); (0x1BB0, 0x1BB9); (0x1C40, 0x1C49); (0x1C50, 0x1C59);
    (0xA620, 0xA629); (0xA8D0, 0xA8D9); (0xA900, 0xA909); (0xA9D0, 0xA9D9);
    (0xA9F0, 0xA9F9); (0xAA50, 0xAA59); (0xABF0, 0xABF9); (0xFF10, 0xFF19);
    (0x104A0, 0x104A9); (0x10D30, 0x10D39); (0x11066, 0x1106F);
    (0x110F0, 0x110F9); (0x11136, 0x1113F); (0x111D0, 0x111D9);
    (0x112F0, 0x112F9); (0x11450, 0x11459); (0x114D0, 0x114D9);
    (0x11650, 0x11659); (0x116C0, 0x116C9); (0x11730, 0x11739);
    (0x118E0, 0x118E9); (0x11950, 0x11959); (0x11C50, 0x11C59);
    (0x11D50, 0x11D59); (0x11DA0, 0x11DA9); (0x16A60, 0x16A69);
    (0x16AC0, 0x16AC9); (0x16B50, 0x16B59); (0x1D7CE, 0x1D7FF);
    (0x1E140, 0x1E149); (0x1E2F0, 0x1E2F9); (0x1E950, 0x1E959);
    (0x1FBF0, 0x1FBF9) ].

Definition cpython_decimal (cp : Z) : option Z :=
  match List.find (fun r => in_range (fst r) (snd r) cp) decimal_runs with
  | Some r => Some ((cp - fst r) mod 10)
  | None => None
  end.

Definition cpython_space (cp : Z) : bool :=
  (cp =? 0x85) || (cp =? 0xA0) || (cp =? 0x1680) || in_range 0x2000 0x200A cp
  || (cp =? 0x2028) || (cp =? 0x2029) || (cp =? 0x202F) || (cp =? 0x205F)
  || (cp =? 0x3000).

Definition cpython_3_11 : Interpreter :=
  mkInterpreter cpython_decimal cpython_space 4300.

(** [s.split(sep)] for a one-character separator; [cur] is the piece
    being read. *)
Fixpoint split_from (sep : ascii) (cur : string) (s : string) : list string :=
  match s with
  | EmptyString => [cur]
  | String c r =>
    if Ascii.eqb c sep then cur :: split_from sep EmptyString r
    else split_from sep (cur +:+ String c EmptyString) r
  end.

Definition split (sep : ascii) (s : string) : list string :=
  split_from sep EmptyString s.

(** [s.split(sep, 1)] when [sep] occurs in [s]: the text before the first
    separator and the text after it. *)
Fixpoint split_once (sep : ascii) (s : string) : option (string * string) :=
  match s with
  | EmptyString => None
  | String c r =>
    if Ascii.eqb c sep then Some (EmptyString, r)
    else match split_once sep r with
         | Some (a, b) => Some (String c a, b)
         | None => None
         end
  end.

(** [f"{x}"] of an [Optional[str]] *)
Definition format_opt (s : option string) : string :=
  match s with Some t => t | None => "None" end.

End Py.

Export Py.

Declare Scope py_scope.
Notation "'let*' x ':=' m 'in' k" := (Py.bind m (fun x => k))
  (at level 10, x name, m at level 100, k at level 200) : py_scope.
Notation "'let*' ' p ':=' m 'in' k" :=
  (Py.bind m (fun x => let 'p := x in k))
  (at level 10, p pattern, m at level 100, k at level 200) : py_scope.
Local Open Scope py_scope.

(** ** wbxml/tokens.py *)

Module Tokens.

Definition SWITCH_PAGE : Z := 0x00.
Definition END : Z := 0x01.
Definition ENTITY : Z := 0x02.
Definition STR_I : Z := 0x03.
Definition LITERAL : Z := 0x04.
Definition STR_T : Z := 0x83.
Definition OPAQUE : Z := 0xC3.

Definition TAG_HAS_CONTENT : Z := 0x40.
Definition TAG_HAS_ATTRS : Z := 0x80.

Definition SYNCML_1_2_PUBLIC_ID : Z := 0x1201.

(** Code page 0x00 *)
Definition SYNCML_TAGS : list (Z * string) :=
  [ (0x05, "Add"); (0x06, "Alert"); (0x07, "Archive"); (0x08, "Atomic");
    (0x09, "Chal"); (0x0A, "Cmd"); (0x0B, "CmdID"); (0x0C, "CmdRef");
    (0x0D, "Copy"); (0x0E, "Cred"); (0x0F, "Data"); (0x10, "Delete");
    (0x11, "Exec"); (0x12, "Final"); (0x13, "Get"); (0x14, "Item");
    (0x15, "Lang"); (0x16, "LocName"); (0x17, "LocURI"); (0x18, "Map");
    (0x19, "MapItem"); (0x1A, "Meta"); (0x1B, "MsgID"); (0x1C, "MsgRef");
    (0x1D, "NoResp"); (0x1E, "NoResults"); (0x1F, "Put");
    (0x20, "Replace"); (0x21, "RespURI"); (0x22, "Results");
    (0x23, "Search"); (0x24, "Sequence"); (0x25, "SessionID");
    (0x26, "SftDel"); (0x27, "Source"); (0x28, "SourceRef");
    (0x29, "Status"); (0x2A, "Sync"); (0x2B, "SyncBody");
    (0x2C, "SyncHdr"); (0x2D, "SyncML"); (0x2E, "Target");
    (0x2F, "TargetRef"); (0x30, "Reserved"); (0x31, "VerDTD");
    (0x32, "VerProto"); (0x33, "NumberOfChanges"); (0x34, "MoreData");
    (0x35, "Field"); (0x36, "Filter"); (0x37, "Record");
    (0x38, "FilterType"); (0x39, "SourceParent"); (0x3A, "TargetParent");
    (0x3B, "Move"); (0x3C, "Correlator") ].

(** Code page 0x01 *)
Definition METINF_TAGS : list (Z * string) :=
  [ (0x05, "Anchor"); (0x06, "EMI"); (0x07, "Format"); (0x08, "FreeID");
    (0x09, "FreeMem"); (0x0A, "Last"); (0x0B, "Mark");
    (0x0C, "MaxMsgSize"); (0x0D, "Mem"); (0x0E, "MetInf"); (0x0F, "Next");
    (0x10, "NextNonce"); (0x11, "SharedMem"); (0x12, "Size");
    (0x13, "Type"); (0x14, "Version"); (0x15, "MaxObjSize");
    (0x16, "FieldLevel") ].

(** [tags.get(token)] on a forward table. *)
Fixpoint tag_get (tags : list (Z * string)) (token : Z) : option string :=
  match tags with
  | [] => None
  | (k, v) :: r => if k =? token then Some v else tag_get r token
  end.

(** [{v: k for k, v in tags.items()}.get(name)]: a later entry of the
    forward table overrides an earlier one with the same name. *)
Fixpoint rev_get (tags : list (Z * string)) (name : string) : option Z :=
  match tags with
  | [] => None
  | (k, v) :: r =>
    match rev_get r name with
    | Some k' => Some k'
    | None => if String.eqb v name then Some k else None
    end
  end.

(** [CODE_PAGES.get(page, SYNCML_TAGS)] *)
Definition CODE_PAGES_get (page : Z) : list (Z * string) :=
  if page =? 0 then SYNCML_TAGS
  else if page =? 1 then METINF_TAGS
  else SYNCML_TAGS.

End Tokens.


(** ** The library functions the server calls

    [base64.b64encode], [hashlib.md5] (RFC 1321) and [hmac.new(key, msg,
    hashlib.md5)] (RFC 2104), written out so that the authentication code
    computes. *)

Module Lib.

Definition b64_alphabet : string :=
  "ABCDEFGHIJKLMNOPQRSTUVWXYZabcdefghijklmnopqrstuvwxyz0123456789+/".

Definition b64_char (i : Z) : string :=
  String.substring (Z.to_nat i) 1 b64_alphabet.

(** [base64.b64encode(d).decode()] *)
Fixpoint b64encode (d : bytes) : string :=
  match d with
  | [] => ""
  | [a] =>
    b64_char (Z.shiftr a 2) +:+ b64_char (Z.shiftl (Z.land a 3) 4) +:+ "=="
  | [a; b] =>
    b64_char (Z.shiftr a 2)
    +:+ b64_char (Z.lor (Z.shiftl (Z.land a 3) 4) (Z.shiftr b 4))
    +:+ b64_char (Z.shiftl (Z.land b 15) 2) +:+ "="
  | a :: b :: c :: r =>
    b64_char (Z.shiftr a 2)
    +:+ b64_char (Z.lor (Z.shiftl (Z.land a 3) 4) (Z.shiftr b 4))
    +:+ b64_char (Z.lor (Z.shiftl (Z.land b 15) 2) (Z.shiftr c 6))
    +:+ b64_char (Z.land c 63) +:+ b64encode r
  end.

(** *** MD5 *)

Definition w32 (x : Z) : Z := x mod 2 ^ 32.

Definition rotl (x c : Z) : Z :=
  w32 (Z.lor (Z.shiftl x c) (Z.shiftr x (32 - c))).

Definition not32 (x : Z) : Z := Z.lxor x 0xffffffff.

Definition md5_K : list Z :=
  [ 0xd76aa478; 0xe8c7b756; 0x242070db; 0xc1bdceee;
    0xf57c0faf; 0x4787c62a; 0xa8304613; 0xfd469501;
    0x698098d8; 0x8b44f7af; 0xffff5bb1; 0x895cd7be;
    0x6b901122; 0xfd987193; 0xa679438e; 0x49b40821;
    0xf61e2562; 0xc040b340; 0x265e5a51; 0xe9b6c7aa;
    0xd62f105d; 0x02441453; 0xd8a1e681; 0xe7d3fbc8;
    0x21e1cde6; 0xc33707d6; 0xf4d50d87; 0x455a14ed;
    0xa9e3e905; 0xfcefa3f8; 0x676f02d9; 0x8d2a4c8a;
    0xfffa3942; 0x8771f681; 0x6d9d6122; 0xfde5380c;
    0xa4beea44; 0x4bdecfa9; 0xf6bb4b60; 0xbebfbc70;
    0x289b7ec6; 0xeaa127fa; 0xd4ef3085; 0x04881d05;
    0xd9d4d039; 0xe6db99e5; 0x1fa27cf8; 0xc4ac5665;
    0xf4292244; 0x432aff97; 0xab9423a7; 0xfc93a039;
    0x655b59c3; 0x8f0ccc92; 0xffeff47d; 0x85845dd1;
    0x6fa87e4f; 0xfe2ce6e0; 0xa3014314; 0x4e0811a1;
    0xf7537e82; 0xbd3af235; 0x2ad7d2bb; 0xeb86d391 ].

Definition md5_s : list Z :=
  [ 7; 12; 17; 22; 7; 12; 17; 22; 7; 12; 17; 22; 7; 12; 17; 22;
    5; 9; 14; 20; 5; 9; 14; 20; 5; 9; 14; 20; 5; 9; 14; 20;
    4; 11; 16; 23; 4; 11; 16; 23; 4; 11; 16; 23; 4; 11; 16; 23;
    6; 10; 15; 21; 6; 10; 15; 21; 6; 10; 15; 21; 6; 10; 15; 21 ].

(** Little-endian bytes of a word, and back. *)
Fixpoint le_bytes (n : nat) (x : Z) : bytes :=
  match n with
  | O => []
  | S n' => Z.land x 255 :: le_bytes n' (Z.shiftr x 8)
  end.

Fixpoint le_words (n : nat) (d : bytes) : list Z :=
  match n with
  | O => []
  | S n' =>
    match d with
    | a :: b :: c :: e :: r =>
      (a + Z.shiftl b 8 + Z.shiftl c 16 + Z.shiftl e 24) :: le_words n' r
    | _ => []
    end
  end.

Definition md5_pad (d : bytes) : bytes :=
  let len := Z.of_nat (length d) in
  d ++ [0x80] ++ repeat 0 (Z.to_nat ((55 - len) mod 64))
    ++ le_bytes 8 (8 * len).

Definition md5_step (M : list Z) (st : Z * Z * Z * Z) (i : nat)
  : Z * Z * Z * Z :=
  let '(A, B, C, D) := st in
  let iz := Z.of_nat i in
  let '(F, g) :=
    if iz <? 16 then (Z.lor (Z.land B C) (Z.land (not32 B) D), iz)
    else if iz <? 32 then
      (Z.lor (Z.land D B) (Z.land (not32 D) C), (5 * iz + 1) mod 16)
    else if iz <? 48 then (Z.lxor (Z.lxor B C) D, (3 * iz + 5) mod 16)
    else (Z.lxor C (Z.lor B (not32 D)), (7 * iz) mod 16) in
  let F' := w32 (F + A + nth i md5_K 0 + nth (Z.to_nat g) M 0) in
  (D, w32 (B + rotl F' (nth i md5_s 0)), B, C).

Definition md5_block (h : Z * Z * Z * Z) (blk : bytes) : Z * Z * Z * Z :=
  let M := le_words 16 blk in
  let '(a0, b0, c0, d0) := h in
  let '(A, B, C, D) := fold_left (md5_step M) (seq 0 64) h in
  (w32 (a0 + A), w32 (b0 + B), w32 (c0 + C), w32 (d0 + D)).

Fixpoint md5_blocks (n : nat) (h : Z * Z * Z * Z) (d : bytes)
  : Z * Z * Z * Z :=
  match n with
  | O => h
  | S n' => md5_blocks n' (md5_block h (take 64 d)) (drop 64 d)
  end.

(** [hashlib.md5(d).digest()] *)
Definition md5 (d : bytes) : bytes :=
  let p := md5_pad d in
  let '(a, b, c, e) :=
    md5_blocks (length p / 64)
               (0x67452301, 0xefcdab89, 0x98badcfe, 0x10325476) p in
  le_bytes 4 a ++ le_bytes 4 b ++ le_bytes 4 c ++ le_bytes 4 e.

(** [hmac.new(key, msg, hashlib.md5).digest()] *)
Definition hmac_md5 (key msg : bytes) : bytes :=
  let k0 := if (64 <? length key)%nat then md5 key else key in
  let k := k0 ++ repeat 0 (64 - length k0) in
  md5 (map (Z.lxor 0x5c) k ++ md5 (map (Z.lxor 0x36) k ++ msg)).

(** [digest.hex()] *)
Definition hex (d : bytes) : string :=
  String.concat ""
    (map (fun b => String.substring (Z.to_nat (b / 16)) 1 "0123456789abcdef"
                   +:+ String.substring (Z.to_nat (b mod 16)) 1
                        "0123456789abcdef") d).

End Lib.

(** ** The element tree ([xml.etree.ElementTree.Element]) *)

#[warnings="-register-all"]
Inductive Element := mkElement {
  tag : string;
  attrib : list (string * string);
  text : option string;
  children : list Element;
  tail : option string
}.

(** [ET.Element(tag)] *)
Definition new_element (t : string) : Element :=
  mkElement t [] None [] None.

(** [ET.Element(tag)] followed by [.text = s] *)
Definition text_element (t s : string) : Element :=
  mkElement t [] (Some s) [] None.

(** [elem.append(child)] *)
Definition append_child (e c : Element) : Element :=
  mkElement (tag e) (attrib e) (text e) (children e ++ [c]) (tail e).

Definition set_text (e : Element) (s : string) : Element :=
  mkElement (tag e) (attrib e) (Some s) (children e) (tail e).

(** ** wbxml/codec.py *)

Module Codec.
Import Tokens.

(** *** The decoder *)

Record WBXMLDecoder := mkDecoder {
  data : bytes;
  pos : nat;
  string_table : bytes;
  current_page : Z
}.

Definition init_decoder (d : bytes) : WBXMLDecoder := mkDecoder d 0 [] 0.

Definition set_pos (st : WBXMLDecoder) (p : nat) : WBXMLDecoder :=
  mkDecoder (data st) p (string_table st) (current_page st).

Definition set_page (st : WBXMLDecoder) (pg : Z) : WBXMLDecoder :=
  mkDecoder (data st) (pos st) (string_table st) pg.

Definition set_string_table (st : WBXMLDecoder) (t : bytes) : WBXMLDecoder :=
  mkDecoder (data st) (pos st) t (current_page st).

Definition read_byte (st : WBXMLDecoder) : Result (Z * WBXMLDecoder) :=
  match data st !! pos st with
  | None => raise (EndOfData (pos st))
  | Some b => ok (b, set_pos st (S (pos st)))
  end.

(** The [while True] loop of [read_mb_uint32]; every iteration reads a
    byte, so [length data - pos + 1] iterations are never exceeded. *)
Fixpoint read_mb_loop (fuel : nat) (result : Z) (st : WBXMLDecoder)
  : Result (Z * WBXMLDecoder) :=
  match fuel with
  | O => raise OutOfFuel
  | S fuel' =>
    let* '(b, st1) := read_byte st in
    let result' := Z.lor (Z.shiftl result 7) (Z.land b 0x7F) in
    if Z.land b 0x80 =? 0 then ok (result', st1)
    else read_mb_loop fuel' result' st1
  end.

Definition read_mb_uint32 (st : WBXMLDecoder) : Result (Z * WBXMLDecoder) :=
  read_mb_loop (S (length (data st) - pos st)) 0 st.

(** Index of the first zero byte of [l], counted from [i]. *)
Fixpoint find_nul (l : bytes) (i : nat) : option nat :=
  match l with
  | [] => None
  | b :: r => if b =? 0 then Some i else find_nul r (S i)
  end.

(** [read_string]: [self.data[self.pos]] raises [IndexError] when the
    terminator is missing. *)
Definition read_string (st : WBXMLDecoder) : Result (string * WBXMLDecoder) :=
  let start := pos st in
  match find_nul (drop start (data st)) start with
  | None => raise IndexError
  | Some p =>
    let* s := decode (slice (data st) start p) in
    ok (s, set_pos st (S p))
  end.

Definition read_opaque (st : WBXMLDecoder) : Result (bytes * WBXMLDecoder) :=
  let* '(len, st1) := read_mb_uint32 st in
  let n := Z.to_nat len in
  ok (slice (data st1) (pos st1) (pos st1 + n), set_pos st1 (pos st1 + n)).

Definition get_string_from_table (st : WBXMLDecoder) (offset : Z)
  : Result string :=
  let off := Z.to_nat offset in
  let e := match find_nul (drop off (string_table st)) off with
           | Some e => e
           | None => length (string_table st)
           end in
  decode (slice (string_table st) off e).

Definition hex_digit (d : Z) : string :=
  String.substring (Z.to_nat d) 1 "0123456789ABCDEF".

(** [f"Unknown_0x{tag_token:02X}"] for a token below 256 *)
Definition unknown_tag (tag_token : Z) : string :=
  "Unknown_0x" +:+ hex_digit (tag_token / 16) +:+ hex_digit (tag_token mod 16).

Definition get_tag_name (st : WBXMLDecoder) (token : Z) : string :=
  let tag_token := Z.land token 0x3F in
  let tags := CODE_PAGES_get (current_page st) in
  match tag_get tags tag_token with
  | Some n => n
  | None => unknown_tag tag_token
  end.

(** [parse_attributes]: skip to the next [END]. *)
Fixpoint parse_attributes (fuel : nat) (st : WBXMLDecoder)
  : Result WBXMLDecoder :=
  match fuel with
  | O => raise OutOfFuel
  | S fuel' =>
    let* '(token, st1) := read_byte st in
    if token =? END then ok st1 else parse_attributes fuel' st1
  end.

(** The [while token == SWITCH_PAGE] loop at the head of
    [parse_element]. *)
Fixpoint skip_switch_pages (fuel : nat) (token : Z) (st : WBXMLDecoder)
  : Result (Z * WBXMLDecoder) :=
  if token =? SWITCH_PAGE then
    match fuel with
    | O => raise OutOfFuel
    | S fuel' =>
      let* '(pg, st1) := read_byte st in
      let* '(token', st2) := read_byte (set_page st1 pg) in
      skip_switch_pages fuel' token' st2
    end
  else ok (token, st).

(** The text of an opaque payload: UTF-8 if it decodes, Base64
    otherwise. *)
Definition opaque_text (d : bytes) : string :=
  match decode d with
  | inr s => s
  | inl _ => Lib.b64encode d
  end.

(** [parse_element] and the loop of [parse_content].  [parse_content]
    carries the element under construction and [text_parts]. *)
Fixpoint parse_element (fuel : nat) (st : WBXMLDecoder)
  : Result (option Element * WBXMLDecoder) :=
  match fuel with
  | O => raise OutOfFuel
  | S fuel' =>
    let* '(token0, st0) := read_byte st in
    let* '(token, st1) := skip_switch_pages fuel' token0 st0 in
    if token =? END then ok (None, st1) else
    let has_content := negb (Z.land token TAG_HAS_CONTENT =? 0) in
    let has_attrs := negb (Z.land token TAG_HAS_ATTRS =? 0) in
    let* '(tag_name, st2) :=
      if Z.land token 0x3F =? 0x04 then
        let* '(tag_index, st') := read_mb_uint32 st1 in
        let* n := get_string_from_table st' tag_index in
        ok (n, st')
      else ok (get_tag_name st1 token, st1) in
    let elem := new_element tag_name in
    let* st3 := if has_attrs then parse_attributes fuel' st2 else ok st2 in
    if has_content then
      let* '(elem', st4) := parse_content fuel' elem [] st3 in
      ok (Some elem', st4)
    else ok (Some elem, st3)
  end
with parse_content (fuel : nat) (elem : Element) (text_parts : list string)
                   (st : WBXMLDecoder)
  : Result (Element * WBXMLDecoder) :=
  match fuel with
  | O => raise OutOfFuel
  | S fuel' =>
    let* '(token, st1) := read_byte st in
    if token =? END then
      ok (match text_parts with
          | [] => elem
          | _ => set_text elem (String.concat "" text_parts)
          end, st1)
    else if token =? SWITCH_PAGE then
      let* '(pg, st2) := read_byte st1 in
      parse_content fuel' elem text_parts (set_page st2 pg)
    else if token =? STR_I then
      let* '(s, st2) := read_string st1 in
      parse_content fuel' elem (text_parts ++ [s]) st2
    else if token =? STR_T then
      let* '(offset, st2) := read_mb_uint32 st1 in
      let* s := get_string_from_table st2 offset in
      parse_content fuel' elem (text_parts ++ [s]) st2
    else if token =? OPAQUE then
      let* '(d, st2) := read_opaque st1 in
      parse_content fuel' elem (text_parts ++ [opaque_text d]) st2
    else
      let* '(child, st2) := parse_element fuel' (set_pos st1 (pos st1 - 1)) in
      parse_content fuel'
        (match child with Some c => append_child elem c | None => elem end)
        text_parts st2
  end.

(** [decode] with an explicit bound on the nesting of its loops. *)
Definition decode_with (fuel : nat) (st : WBXMLDecoder)
  : Result (option Element) :=
  let* '(version, st1) := read_byte st in
  let* '(public_id, st2) := read_mb_uint32 st1 in
  let* st3 :=
    if public_id =? 0 then
      let* '(public_id_index, st') := read_mb_uint32 st2 in ok st'
    else ok st2 in
  let* '(charset, st4) := read_mb_uint32 st3 in
  let* '(str_table_len, st5) := read_mb_uint32 st4 in
  let st6 :=
    if 0 <? str_table_len then
      let n := Z.to_nat str_table_len in
      set_pos (set_string_table st5 (slice (data st5) (pos st5) (pos st5 + n)))
              (pos st5 + n)
    else st5 in
  let* '(root, _) := parse_element fuel st6 in
  ok root.

(** Every call of [parse_element] and every iteration of
    [parse_content] reads at least one byte, and between two reads the
    fuel drops at most twice. *)
Definition decode_fuel (d : bytes) : nat := 2 * length d + 2.

(** [decode_wbxml(data)] *)
Definition decode_wbxml (d : bytes) : Result (option Element) :=
  decode_with (decode_fuel d) (init_decoder d).

(** *** The encoder *)

Record WBXMLEncoder := mkEncoder {
  output : bytes;
  enc_string_table : bytes;
  string_table_index : gmap string Z;
  enc_current_page : Z
}.

Definition init_encoder : WBXMLEncoder := mkEncoder [] [] ∅ 0.

Definition write_byte (b : Z) (st : WBXMLEncoder) : WBXMLEncoder :=
  mkEncoder (output st ++ [b]) (enc_string_table st)
            (string_table_index st) (enc_current_page st).

Definition write_bytes (d : bytes) (st : WBXMLEncoder) : WBXMLEncoder :=
  mkEncoder (output st ++ d) (enc_string_table st)
            (string_table_index st) (enc_current_page st).

(** The loop [while value > 0: bytes_list.insert(0, value & 0x7F);
    value >>= 7]. *)
Fixpoint mb_split (fuel : nat) (value : Z) (bytes_list : list Z) : list Z :=
  if 0 <? value then
    match fuel with
    | O => bytes_list
    | S fuel' =>
      mb_split fuel' (Z.shiftr value 7) (Z.land value 0x7F :: bytes_list)
    end
  else bytes_list.

(** The loop over [enumerate(bytes_list)]: every byte but the last gets
    the continuation bit. *)
Definition mb_flag (bytes_list : list Z) : list Z :=
  imap (fun i b => if (i <? length bytes_list - 1)%nat
                   then Z.lor b 0x80 else b) bytes_list.

(** The bytes [write_mb_uint32(value)] and [write_mb_uint32_to(stream,
    value)] emit.  A positive value loses at least one bit per
    iteration, so [log2 value + 1] iterations empty it. *)
Definition mb_uint32_bytes (value : Z) : bytes :=
  if value =? 0 then [0]
  else mb_flag (mb_split (S (Z.to_nat (Z.log2 value))) value []).

(** The number a list of 7-bit groups denotes, most significant group
    first, on top of the groups [r] already read. *)
Definition mb_value (r : Z) (groups : list Z) : Z :=
  fold_left (fun r d => Z.lor (Z.shiftl r 7) d) groups r.

Definition write_mb_uint32 (value : Z) (st : WBXMLEncoder) : WBXMLEncoder :=
  write_bytes (mb_uint32_bytes value) st.

Definition write_mb_uint32_to (stream : bytes) (value : Z) : bytes :=
  stream ++ mb_uint32_bytes value.

Definition write_string (s : string) (st : WBXMLEncoder) : WBXMLEncoder :=
  write_byte 0 (write_bytes (encode s) (write_byte STR_I st)).

Definition write_opaque (d : bytes) (st : WBXMLEncoder) : WBXMLEncoder :=
  write_bytes d (write_mb_uint32 (Z.of_nat (length d)) (write_byte OPAQUE st)).

Definition add_to_string_table (s : string) (st : WBXMLEncoder)
  : Z * WBXMLEncoder :=
  match string_table_index st !! s with
  | Some off => (off, st)
  | None =>
    let offset := Z.of_nat (length (enc_string_table st)) in
    (offset,
     mkEncoder (output st) (enc_string_table st ++ encode s ++ [0])
               (<[s := offset]> (string_table_index st))
               (enc_current_page st))
  end.

(** [CODE_PAGES_REV.get(page, SYNCML_TAGS_REV).get(tag_name)] *)
Definition get_tag_token (tag_name : string) (page : Z) : option Z :=
  rev_get (CODE_PAGES_get page) tag_name.

Definition switch_page (page : Z) (st : WBXMLEncoder) : WBXMLEncoder :=
  if page =? enc_current_page st then st
  else
    let st1 := write_byte page (write_byte SWITCH_PAGE st) in
    mkEncoder (output st1) (enc_string_table st1)
              (string_table_index st1) page.

Fixpoint build_string_table (elem : Element) (st : WBXMLEncoder)
  : WBXMLEncoder :=
  let st1 :=
    match get_tag_token (tag elem) 0, get_tag_token (tag elem) 1 with
    | None, None => snd (add_to_string_table (tag elem) st)
    | _, _ => st
    end in
  (fix each (cs : list Element) (st : WBXMLEncoder) : WBXMLEncoder :=
     match cs with
     | [] => st
     | child :: r => each r (build_string_table child st)
     end) (children elem) st1.

(** [bool(elem.text or len(elem) > 0)] *)
Definition has_content (elem : Element) : bool :=
  otruthy (text elem) || (0 <? length (children elem))%nat.

Fixpoint encode_element (elem : Element) (st : WBXMLEncoder)
  : WBXMLEncoder :=
  let tag_name := tag elem in
  let '(token, page) :=
    match get_tag_token tag_name 0 with
    | Some t => (Some t, 0)
    | None => (get_tag_token tag_name 1, 1)
    end in
  let st1 :=
    match token with
    | None =>
      let st' := switch_page 0 st in
      let literal_token :=
        if has_content elem then Z.lor LITERAL TAG_HAS_CONTENT
        else LITERAL in
      let st'' := write_byte literal_token st' in
      let offset := default 0 (string_table_index st'' !! tag_name) in
      write_mb_uint32 offset st''
    | Some t =>
      let st' := switch_page page st in
      write_byte (if has_content elem then Z.lor t TAG_HAS_CONTENT else t) st'
    end in
  if has_content elem then
    let st2 :=
      match text elem with
      | Some s => if truthy s then write_string s st1 else st1
      | None => st1
      end in
    let st3 :=
      (fix each (cs : list Element) (st : WBXMLEncoder) : WBXMLEncoder :=
         match cs with
         | [] => st
         | child :: r =>
           let st' := encode_element child st in
           each r (match tail child with
                   | Some s => if truthy s then write_string s st' else st'
                   | None => st'
                   end)
         end) (children elem) st2 in
    write_byte END st3
  else st1.

(** [WBXMLEncoder().encode(root)] *)
Definition encode_wbxml (root : Element) : bytes :=
  let st := encode_element root (build_string_table root init_encoder) in
  let body := output st in
  let string_table := enc_string_table st in
  let final := [0x03] in
  let final := write_mb_uint32_to final SYNCML_1_2_PUBLIC_ID in
  let final := write_mb_uint32_to final 106 in
  let final := write_mb_uint32_to final (Z.of_nat (length string_table)) in
  final ++ string_table ++ body.

End Codec.


(** ** config.py *)

Module Config.

(** The deployment settings of [config.py]; the module is not part of
    the sources, so its string settings are taken as a parameter. *)
Record Settings := mkSettings {
  SERVER_ID : string;
  SERVER_URL : string;
  DEFAULT_USERNAME : string;
  DEFAULT_PASSWORD : string;
  SERVER_USERNAME : string;
  SERVER_PASSWORD : string
}.

(** Modelled from the spec: the numeric alert and status codes of
    [config.py], with the values the configuration list of the
    specification gives. *)
Definition ALERT_CLIENT_INITIATED : Z := 1201.
Definition ALERT_SERVER_INITIATED : Z := 1200.
Definition ALERT_DISPLAY : Z := 1100.
Definition ALERT_CONFIRM : Z := 1101.
Definition ALERT_USER_INPUT : Z := 1102.
Definition STATUS_OK : Z := 200.
Definition STATUS_ACCEPTED_FOR_PROCESSING : Z := 202.
Definition STATUS_AUTH_ACCEPTED : Z := 212.
Definition STATUS_CREDENTIALS_MISSING : Z := 401.

End Config.

(** ** dm/update.py *)

Module Update.

Record UpdatePackage := mkUpdatePackage {
  name : string;
  version : string;
  filename : string;
  size : Z;
  md5 : string;
  description : string;
  min_version : string;
  target_build : string;
  install_notify_url : string
}.

(** [UpdateManager.packages]: a [dict] from package name to package; a
    [dict] iterates in insertion order, which the list keeps. *)
Record UpdateManager := mkUpdateManager {
  packages : list (string * UpdatePackage)
}.

(** [self.packages.values()] *)
Definition values (um : UpdateManager) : list UpdatePackage :=
  map snd (packages um).

(** The [while len(numbers) < 4: numbers.append('0')] loop. *)
Fixpoint pad_numbers (fuel : nat) (numbers : list string) : list string :=
  if (length numbers <? 4)%nat then
    match fuel with
    | O => numbers
    | S fuel' => pad_numbers fuel' (numbers ++ ["0"%string])
    end
  else numbers.

(** Comparison of tuples of integers: lexicographic, a proper prefix
    being smaller. *)
Fixpoint tuple_compare (a b : list Z) : comparison :=
  match a, b with
  | [], [] => Eq
  | [], _ :: _ => Lt
  | _ :: _, [] => Gt
  | x :: a', y :: b' =>
    match x ?= y with
    | Eq => tuple_compare a' b'
    | c => c
    end
  end.

(** [a < b] and [a >= b] on tuples *)
Definition tuple_ltb (a b : list Z) : bool :=
  match tuple_compare a b with Lt => true | _ => false end.

Definition tuple_geb (a b : list Z) : bool := negb (tuple_ltb a b).

(** [candidates.sort(key=..., reverse=True)] once the keys are
    computed: the sort is stable, so among equal keys the original order
    is kept and bigger keys come first.  Each element is put in front of
    the first element whose key is not bigger. *)
Fixpoint insert_desc (x : list Z * UpdatePackage)
         (sorted : list (list Z * UpdatePackage))
  : list (list Z * UpdatePackage) :=
  match sorted with
  | [] => [x]
  | y :: r =>
    if tuple_ltb (fst x) (fst y) then y :: insert_desc x r
    else x :: sorted
  end.

Definition sort_desc (l : list (list Z * UpdatePackage))
  : list (list Z * UpdatePackage) :=
  fold_right insert_desc [] l.

Section WithInterpreter.

Variable py : Interpreter.

(** [_parse_build_version]; the tuple is a list of integers.  [int]
    is called on the first four numbers in order and may raise. *)
Definition _parse_build_version (build : string) : Result (list Z) :=
  let numbers := re_findall_digits py build in
  match numbers with
  | [] => ok [0; 0; 0; 0]
  | _ =>
    let numbers := pad_numbers 4 numbers in
    traverse (Py.int py) (take 4 numbers)
  end.

(** The body of the loop over [self.packages.values()]: [false] where
    the loop [continue]s, [true] where the package is appended to
    [candidates]. *)
Definition is_candidate (device_version : list Z) (pkg : UpdatePackage)
  : Result bool :=
  let* below_min :=
    if truthy (min_version pkg) then
      let* min_ver := _parse_build_version (min_version pkg) in
      ok (tuple_ltb device_version min_ver)
    else ok false in
  if below_min : bool then ok false else
  let* at_target :=
    if truthy (target_build pkg) then
      let* target_ver := _parse_build_version (target_build pkg) in
      ok (tuple_geb device_version target_ver)
    else ok false in
  ok (negb at_target).

(** The loop over [self.packages.values()] *)
Fixpoint candidates_of (device_version : list Z) (pkgs : list UpdatePackage)
  : Result (list UpdatePackage) :=
  match pkgs with
  | [] => ok []
  | pkg :: r =>
    let* keep := is_candidate device_version pkg in
    let* rest := candidates_of device_version r in
    ok (if keep : bool then pkg :: rest else rest)
  end.

(** The sort key [lambda p: self._parse_build_version(p.target_build or
    p.version)] *)
Definition sort_key (p : UpdatePackage) : Result (list Z) :=
  _parse_build_version
    (if truthy (target_build p) then target_build p else version p).

(** [list.sort] computes the key of every element, in order, before it
    compares any. *)
Definition keyed (p : UpdatePackage) : Result (list Z * UpdatePackage) :=
  let* k := sort_key p in ok (k, p).

Definition check_update_available (um : UpdateManager)
           (device_build : string) : Result (option UpdatePackage) :=
  match packages um with
  | [] => ok None
  | _ =>
    let* device_version := _parse_build_version device_build in
    let* candidates := candidates_of device_version (values um) in
    match candidates with
    | [] => ok None
    | _ =>
      let* keys := traverse keyed candidates in
      ok (head (map snd (sort_desc keys)))
    end
  end.

End WithInterpreter.

(** [get_package_url] with [base_url = config.SERVER_URL] *)
Definition get_package_url (cfg : Config.Settings) (package : UpdatePackage)
  : string :=
  Config.SERVER_URL cfg +:+ "/packages/" +:+ filename package.

(** *** The words of the specification *)

Section Specification.

Variable py : Interpreter.

(** "tuples extracted by running the regex [\d+] over the build string,
    taking the first four numbers, padding with zeros to length 4": the
    numbers are what [int] makes of the matches. *)
Definition version_spec (build : string) : Result (list Z) :=
  let* numbers := traverse (Py.int py) (take 4 (re_findall_digits py build)) in
  ok (take 4 (numbers ++ [0; 0; 0; 0])).

(** "a package P is applicable iff (P.min_version unset or
    version(build) >= version(P.min_version)) and (P.target_build unset
    or version(build) < version(P.target_build))", for a build and
    packages that have versions. *)
Definition applicable (build : string) (p : UpdatePackage) : Prop :=
  exists d,
    version_spec build = ok d
    /\ (min_version p = ""
        \/ exists m, version_spec (min_version p) = ok m
                     /\ tuple_compare d m <> Lt)
    /\ (target_build p = ""
        \/ exists t, version_spec (target_build p) = ok t
                     /\ tuple_compare d t = Lt).

(** "version(P.target_build or P.version)" *)
Definition spec_key (p : UpdatePackage) : Result (list Z) :=
  version_spec (if truthy (target_build p) then target_build p
                else version p).

(** The key of [p] is smaller than the key of [q]. *)
Definition key_lt (p q : UpdatePackage) : Prop :=
  exists kp kq,
    spec_key p = ok kp /\ spec_key q = ok kq /\ tuple_compare kp kq = Lt.

(** The strings of a package [int] is run on convert. *)
Definition converts (s : string) : Prop :=
  exists v, version_spec s = ok v.

Definition package_converts (p : UpdatePackage) : Prop :=
  converts (min_version p) /\ converts (target_build p)
  /\ converts (version p).

End Specification.

End Update.

(** ** syncml/session.py *)

Module SessionM.

Inductive SessionState :=
| INIT | AUTHENTICATED | MANAGEMENT | UPDATE_AVAILABLE
| DOWNLOADING | COMPLETE | ERROR.

(** [SessionState.value] *)
Definition state_value (s : SessionState) : string :=
  match s with
  | INIT => "init"
  | AUTHENTICATED => "authenticated"
  | MANAGEMENT => "management"
  | UPDATE_AVAILABLE => "update_available"
  | DOWNLOADING => "downloading"
  | COMPLETE => "complete"
  | ERROR => "error"
  end.

Record DeviceInfo := mkDeviceInfo {
  device_id : string;
  manufacturer : string;
  model : string;
  firmware_version : string;
  software_version : string;
  hardware_version : string;
  current_build : string;
  dm_version : string;
  language : string
}.

Definition empty_device_info : DeviceInfo :=
  mkDeviceInfo "" "" "" "" "" "" "" "" "".

(** An entry of [Session.command_results] *)
Record CommandResult := mkCommandResult {
  cr_cmd : option string;
  cr_status : Z;
  cr_target : string
}.

(** Clock readings ([time.time()]) are integers here. *)
Record Session := mkSession {
  session_id : string;
  s_device_id : string;
  state : SessionState;
  msg_id : Z;
  created_at : Z;
  last_activity : Z;
  device_info : DeviceInfo;
  authenticated : bool;
  username : string;
  client_nonce : bytes;
  server_nonce : bytes;
  command_results : gmap string CommandResult
}.

Definition set_device_info (s : Session) (d : DeviceInfo) : Session :=
  mkSession (session_id s) (s_device_id s) (state s) (msg_id s)
            (created_at s) (last_activity s) d (authenticated s)
            (username s) (client_nonce s) (server_nonce s)
            (command_results s).

Definition set_state (s : Session) (st : SessionState) : Session :=
  mkSession (session_id s) (s_device_id s) st (msg_id s)
            (created_at s) (last_activity s) (device_info s)
            (authenticated s) (username s) (client_nonce s)
            (server_nonce s) (command_results s).

Definition set_authenticated (s : Session) (a : bool) : Session :=
  mkSession (session_id s) (s_device_id s) (state s) (msg_id s)
            (created_at s) (last_activity s) (device_info s) a
            (username s) (client_nonce s) (server_nonce s)
            (command_results s).

Definition set_username (s : Session) (u : string) : Session :=
  mkSession (session_id s) (s_device_id s) (state s) (msg_id s)
            (created_at s) (last_activity s) (device_info s)
            (authenticated s) u (client_nonce s) (server_nonce s)
            (command_results s).

Definition set_client_nonce (s : Session) (n : bytes) : Session :=
  mkSession (session_id s) (s_device_id s) (state s) (msg_id s)
            (created_at s) (last_activity s) (device_info s)
            (authenticated s) (username s) n (server_nonce s)
            (command_results s).

Definition set_command_results (s : Session)
           (r : gmap string CommandResult) : Session :=
  mkSession (session_id s) (s_device_id s) (state s) (msg_id s)
            (created_at s) (last_activity s) (device_info s)
            (authenticated s) (username s) (client_nonce s)
            (server_nonce s) r.

(** [next_msg_id]; [now] is the reading of [time.time()]. *)
Definition next_msg_id (now : Z) (s : Session) : string * Session :=
  let m := msg_id s + 1 in
  (Py.str m,
   mkSession (session_id s) (s_device_id s) (state s) m
             (created_at s) now (device_info s) (authenticated s)
             (username s) (client_nonce s) (server_nonce s)
             (command_results s)).

(** The [if]/[elif] chain of [update_device_info], on the device
    information. *)
Definition update_info (path value : string) (d : DeviceInfo) : DeviceInfo :=
  let path_lower := lower path in
  if contains "devid" path_lower then
    mkDeviceInfo value (manufacturer d) (model d) (firmware_version d)
                 (software_version d) (hardware_version d)
                 (current_build d) (dm_version d) (language d)
  else if contains "man" path_lower && negb (contains "command" path_lower)
  then
    mkDeviceInfo (device_id d) value (model d) (firmware_version d)
                 (software_version d) (hardware_version d)
                 (current_build d) (dm_version d) (language d)
  else if contains "mod" path_lower then
    mkDeviceInfo (device_id d) (manufacturer d) value (firmware_version d)
                 (software_version d) (hardware_version d)
                 (current_build d) (dm_version d) (language d)
  else if contains "fwv" path_lower || contains "fmv" path_lower then
    mkDeviceInfo (device_id d) (manufacturer d) (model d) value
                 (software_version d) (hardware_version d)
                 (current_build d) (dm_version d) (language d)
  else if contains "swv" path_lower then
    mkDeviceInfo (device_id d) (manufacturer d) (model d)
                 (firmware_version d) value (hardware_version d)
                 (current_build d) (dm_version d) (language d)
  else if contains "hwv" path_lower then
    mkDeviceInfo (device_id d) (manufacturer d) (model d)
                 (firmware_version d) (software_version d) value
                 (current_build d) (dm_version d) (language d)
  else if contains "build" path_lower then
    mkDeviceInfo (device_id d) (manufacturer d) (model d)
                 (firmware_version d) (software_version d)
                 (hardware_version d) value (dm_version d) (language d)
  else if contains "dmv" path_lower then
    mkDeviceInfo (device_id d) (manufacturer d) (model d)
                 (firmware_version d) (software_version d)
                 (hardware_version d) (current_build d) value (language d)
  else if contains "lang" path_lower then
    mkDeviceInfo (device_id d) (manufacturer d) (model d)
                 (firmware_version d) (software_version d)
                 (hardware_version d) (current_build d) (dm_version d) value
  else d.

(** [Session.update_device_info(path, value)] *)
Definition update_device_info (path value : string) (s : Session) : Session :=
  set_device_info s (update_info path value (device_info s)).

(** *** The words of the specification *)

Inductive Field :=
| F_device_id | F_manufacturer | F_model | F_firmware_version
| F_software_version | F_hardware_version | F_current_build
| F_dm_version | F_language.

Definition Field_eqb (a b : Field) : bool :=
  match a, b with
  | F_device_id, F_device_id | F_manufacturer, F_manufacturer
  | F_model, F_model | F_firmware_version, F_firmware_version
  | F_software_version, F_software_version
  | F_hardware_version, F_hardware_version
  | F_current_build, F_current_build | F_dm_version, F_dm_version
  | F_language, F_language => true
  | _, _ => false
  end.

Definition get_field (f : Field) (d : DeviceInfo) : string :=
  match f with
  | F_device_id => device_id d
  | F_manufacturer => manufacturer d
  | F_model => model d
  | F_firmware_version => firmware_version d
  | F_software_version => software_version d
  | F_hardware_version => hardware_version d
  | F_current_build => current_build d
  | F_dm_version => dm_version d
  | F_language => language d
  end.

(** The final segment of a path: what follows its last ['/']. *)
Fixpoint final_segment (path : string) : string :=
  match path with
  | EmptyString => EmptyString
  | String c r =>
    if contains "/" r then final_segment r
    else if Ascii.eqb c "/" then r else path
  end.

(** The table of the specification, in the order it lists the keys:
    the keys of a row, whether the row needs ['command'] to be absent
    from the path, and the field the row selects. *)
Definition spec_table : list (list string * bool * Field) :=
  [ (["devid"], false, F_device_id);
    (["mod"], false, F_model);
    (["man"], true, F_manufacturer);
    (["fwv"; "fmv"], false, F_firmware_version);
    (["swv"], false, F_software_version);
    (["hwv"], false, F_hardware_version);
    (["build"], false, F_current_build);
    (["dmv"], false, F_dm_version);
    (["lang"], false, F_language) ]%string.

(** The table in the order the code tests the keys. *)
Definition code_table : list (list string * bool * Field) :=
  [ (["devid"], false, F_device_id);
    (["man"], true, F_manufacturer);
    (["mod"], false, F_model);
    (["fwv"; "fmv"], false, F_firmware_version);
    (["swv"], false, F_software_version);
    (["hwv"], false, F_hardware_version);
    (["build"], false, F_current_build);
    (["dmv"], false, F_dm_version);
    (["lang"], false, F_language) ]%string.

(** The field the first matching row of [table] selects, the keys being
    looked for in [subject] and ['command'] in [whole]. *)
Fixpoint select (table : list (list string * bool * Field))
         (subject whole : string) : option Field :=
  match table with
  | [] => None
  | (keys, no_command, f) :: r =>
    if existsb (fun k => contains k subject) keys
       && (negb no_command || negb (contains "command" whole))
    then Some f
    else select r subject whole
  end.

(** The claim: the match is on the final path segment only, per the
    table. *)
Definition selected_by_final_segment (path : string) : option Field :=
  select spec_table (lower (final_segment path)) (lower path).

(** What the code does: the match is on the whole path, in the order
    of the [elif] chain. *)
Definition selected_by_path (path : string) : option Field :=
  select code_table (lower path) (lower path).

(** The claim as a whole: the field selected by the final segment is
    the one field that changes. *)
Definition the_claimed_selection : Prop :=
  forall (path value : string) (d : DeviceInfo) (f : Field),
    get_field f (update_info path value d)
    = match selected_by_final_segment path with
      | Some g => if Field_eqb f g then value else get_field f d
      | None => get_field f d
      end.

End SessionM.


(** ** The ElementTree calls of the parser and the builder *)

Module ET.

(** [elem.find(tag)]: the first child with that tag. *)
Definition find (t : string) (e : Element) : option Element :=
  List.find (fun c => String.eqb (tag c) t) (children e).

(** [elem.findall(tag)]: the children with that tag, in order. *)
Definition findall (t : string) (e : Element) : list Element :=
  List.filter (fun c => String.eqb (tag c) t) (children e).

(** [elem.find('.//' + tag)]: the first descendant with that tag, in
    document order. *)
Fixpoint find_descendant (t : string) (e : Element) : option Element :=
  (fix each (cs : list Element) : option Element :=
     match cs with
     | [] => None
     | c :: r =>
       if String.eqb (tag c) t then Some c
       else match find_descendant t c with
            | Some d => Some d
            | None => each r
            end
     end) (children e).

(** [ET.SubElement(parent, tag)] with no text *)
Definition SubElement (parent : Element) (t : string) : Element :=
  append_child parent (new_element t).

(** [ET.SubElement(parent, tag).text = s] *)
Definition SubElement_text (parent : Element) (t s : string) : Element :=
  append_child parent (text_element t s).

(** [elem.set(key, value)] on an element without that key *)
Definition set (e : Element) (k v : string) : Element :=
  mkElement (tag e) (attrib e ++ [(k, v)]) (text e) (children e) (tail e).

(** *** Serialisation

    [ET.tostring(root, encoding='unicode', xml_declaration=True)] of the
    standard library, for trees whose tags and attribute names are plain
    names. *)

Fixpoint escape_cdata (s : string) : string :=
  match s with
  | EmptyString => EmptyString
  | String c r =>
    (if Ascii.eqb c "&" then "&amp;"
     else if Ascii.eqb c "<" then "&lt;"
     else if Ascii.eqb c ">" then "&gt;"
     else String c EmptyString) +:+ escape_cdata r
  end.

Fixpoint escape_attrib (s : string) : string :=
  match s with
  | EmptyString => EmptyString
  | String c r =>
    (if Ascii.eqb c "&" then "&amp;"
     else if Ascii.eqb c "<" then "&lt;"
     else if Ascii.eqb c ">" then "&gt;"
     else if Ascii.eqb c "034" then "&quot;"
     else if Ascii.eqb c "013" then "&#13;"
     else if Ascii.eqb c "010" then "&#10;"
     else if Ascii.eqb c "009" then "&#09;"
     else String c EmptyString) +:+ escape_attrib r
  end.

Definition dquote : string := String "034" EmptyString.

Definition serialize_attrib (a : list (string * string)) : string :=
  String.concat EmptyString
    (map (fun kv => " " +:+ fst kv +:+ "=" +:+ dquote
                    +:+ escape_attrib (snd kv) +:+ dquote) a).

Fixpoint serialize (e : Element) : string :=
  let inner :=
    (fix each (cs : list Element) : string :=
       match cs with
       | [] => EmptyString
       | c :: r => serialize c +:+ each r
       end) (children e) in
  (if otruthy (text e) || (0 <? length (children e))%nat then
     "<" +:+ tag e +:+ serialize_attrib (attrib e) +:+ ">"
     +:+ escape_cdata (or_else (text e) "") +:+ inner
     +:+ "</" +:+ tag e +:+ ">"
   else "<" +:+ tag e +:+ serialize_attrib (attrib e) +:+ " />")
  +:+ escape_cdata (or_else (tail e) "").

Definition tostring (root : Element) : string :=
  "<?xml version='1.0' encoding='utf-8'?>" +:+ String "010" EmptyString
  +:+ serialize root.

(** *** Reading the serialisation back

    [ET.fromstring(ET.tostring(root))] of the standard library, on the
    tree itself, for the trees [readable] describes: there the
    serialisation is well-formed and the parser returns a tree.  The
    parser resolves the default namespace an [xmlns] attribute declares:
    the attribute is dropped and the tag of the element and of every
    descendant is qualified as [{uri}tag], until an [xmlns] with an
    empty value takes the namespace away again.  An empty text is read
    back as no text. *)

(** A plain XML name: an ASCII letter or an underscore, then letters,
    digits, dots, hyphens and underscores. *)
Definition name_start (c : ascii) : bool :=
  let n := byte_of_ascii c in
  in_range 65 90 n || in_range 97 122 n || (n =? 95).

Definition name_char (c : ascii) : bool :=
  let n := byte_of_ascii c in
  name_start c || in_range 48 57 n || (n =? 45) || (n =? 46).

Definition xml_name (s : string) : bool :=
  match s with
  | String c r => name_start c && forallb name_char (list_ascii_of_string r)
  | EmptyString => false
  end.

(** Text the parser reads back as it was written: printable ASCII
    characters, tabs and line feeds (a carriage return is read back as a
    line feed, and XML carries no other control character). *)
Definition xml_char (c : ascii) : bool :=
  let n := byte_of_ascii c in
  in_range 32 126 n || (n =? 9) || (n =? 10).

Definition xml_text (s : option string) : bool :=
  match s with
  | Some t => forallb xml_char (list_ascii_of_string t)
  | None => true
  end.

(** An element without attributes, with a plain name and texts XML
    carries, and so all its descendants. *)
Fixpoint plain (e : Element) : bool :=
  match attrib e with [] => true | _ :: _ => false end
  && xml_name (tag e) && xml_text (text e) && xml_text (tail e)
  && (fix each (cs : list Element) : bool :=
        match cs with
        | [] => true
        | c :: r => plain c && each r
        end) (children e).

(** The trees whose serialisation is read back: a root with a plain
    name, no attribute or the declaration of a default namespace only,
    and plain elements below it. *)
Definition readable (root : Element) : bool :=
  xml_name (tag root) && xml_text (text root)
  && match tail root with None => true | Some _ => false end
  && match attrib root with
     | [] => true
     | [(k, v)] => String.eqb k "xmlns" && xml_text (Some v)
     | _ => false
     end
  && forallb plain (children root).

Definition qualify (ns : option string) (t : string) : string :=
  match ns with
  | Some uri => "{" +:+ uri +:+ "}" +:+ t
  | None => t
  end.

Definition read_text (s : option string) : option string :=
  if otruthy s then s else None.

Fixpoint reread_in (ns : option string) (e : Element) : Element :=
  let ns' :=
    match List.find (fun kv => String.eqb (fst kv) "xmlns") (attrib e) with
    | Some kv => if truthy (snd kv) then Some (snd kv) else None
    | None => ns
    end in
  mkElement (qualify ns' (tag e))
            (List.filter (fun kv => negb (String.eqb (fst kv) "xmlns"))
                         (attrib e))
            (read_text (text e))
            ((fix each (cs : list Element) : list Element :=
                match cs with
                | [] => []
                | c :: r => reread_in ns' c :: each r
                end) (children e))
            (read_text (tail e)).

Definition fromstring_tostring (root : Element) : Element :=
  reread_in None root.

End ET.

(** ** syncml/parser.py *)

Module Parser.

Record SyncMLHeader := mkHeader {
  ver_dtd : string;
  ver_proto : string;
  session_id : string;
  msg_id : string;
  target : string;
  source : string;
  cred_type : option string;
  cred_data : option string;
  cred_format : option string;
  meta : gmap string string
}.

Definition default_header : SyncMLHeader :=
  mkHeader "1.2" "DM/1.2" "" "" "" "" None None None ∅.

Record SyncMLItem := mkItem {
  i_target : option string;
  i_source : option string;
  i_data : option string;
  i_meta : gmap string string
}.

Record SyncMLCommand := mkCommand {
  name : string;
  cmd_id : string;
  msg_ref : option string;
  cmd_ref : option string;
  cmd : option string;
  target_ref : option string;
  source_ref : option string;
  data : option string;
  items : list SyncMLItem;
  c_meta : gmap string string;
  no_resp : bool
}.

Record SyncMLMessage := mkMessage {
  header : SyncMLHeader;
  commands : list SyncMLCommand;
  is_final : bool
}.

Definition default_message : SyncMLMessage :=
  mkMessage default_header [] false.

(** [_get_text(elem, tag, default)] with [default=None] *)
Definition _get_text (elem : Element) (t : string) : option string :=
  match ET.find t elem with
  | Some child => if otruthy (text child) then text child else None
  | None => None
  end.

(** [_get_text(elem, tag, default)] with a string default *)
Definition _get_text_or (elem : Element) (t default : string) : string :=
  match _get_text elem t with
  | Some s => s
  | None => default
  end.

Definition _parse_meta (meta : Element) : gmap string string :=
  fold_left (fun result child =>
               match text child with
               | Some s => if truthy s then <[tag child := s]> result
                           else result
               | None => result
               end)
            (children meta) ∅.

Definition _parse_item (elem : Element) : SyncMLItem :=
  mkItem
    (match ET.find "Target" elem with
     | Some t => Some (_get_text_or t "LocURI" "")
     | None => None
     end)
    (match ET.find "Source" elem with
     | Some t => Some (_get_text_or t "LocURI" "")
     | None => None
     end)
    (_get_text elem "Data")
    (match ET.find "Meta" elem with
     | Some m => _parse_meta m
     | None => ∅
     end).

Definition _parse_command (elem : Element) : SyncMLCommand :=
  mkCommand
    (tag elem)
    (_get_text_or elem "CmdID" "")
    (_get_text elem "MsgRef")
    (_get_text elem "CmdRef")
    (_get_text elem "Cmd")
    (_get_text elem "TargetRef")
    (_get_text elem "SourceRef")
    (_get_text elem "Data")
    (map _parse_item (ET.findall "Item" elem))
    (match ET.find "Meta" elem with
     | Some m => _parse_meta m
     | None => ∅
     end)
    (match ET.find "NoResp" elem with Some _ => true | None => false end).

Definition _parse_body (body : Element) : list SyncMLCommand :=
  map _parse_command
      (List.filter (fun child => negb (String.eqb (tag child) "Final"))
                   (children body)).

Definition _parse_header (hdr : Element) : SyncMLHeader :=
  let cred := ET.find "Cred" hdr in
  let cred_meta := match cred with
                   | Some c => ET.find "Meta" c
                   | None => None
                   end in
  mkHeader
    (_get_text_or hdr "VerDTD" "1.2")
    (_get_text_or hdr "VerProto" "DM/1.2")
    (_get_text_or hdr "SessionID" "")
    (_get_text_or hdr "MsgID" "")
    (match ET.find "Target" hdr with
     | Some t => _get_text_or t "LocURI" ""
     | None => ""
     end)
    (match ET.find "Source" hdr with
     | Some t => _get_text_or t "LocURI" ""
     | None => ""
     end)
    (match cred_meta with
     | Some m => Some (_get_text_or m "Type" "")
     | None => None
     end)
    (match cred with
     | Some c => Some (_get_text_or c "Data" "")
     | None => None
     end)
    (match cred_meta with
     | Some m => Some (_get_text_or m "Format" "")
     | None => None
     end)
    (match ET.find "Meta" hdr with
     | Some m => _parse_meta m
     | None => ∅
     end).

(** [root.find('.//X')], and [root.find('X')] when that finds nothing *)
Definition find_part (t : string) (root : Element) : option Element :=
  match ET.find_descendant t root with
  | Some e => Some e
  | None => ET.find t root
  end.

Definition _parse_syncml (root : Element) : SyncMLMessage :=
  let sync_body := find_part "SyncBody" root in
  mkMessage
    (match find_part "SyncHdr" root with
     | Some h => _parse_header h
     | None => default_header
     end)
    (match sync_body with
     | Some b => _parse_body b
     | None => []
     end)
    (match sync_body with
     | Some b => match ET.find "Final" b with Some _ => true | None => false end
     | None => false
     end).

(** [parse(data, content_type)] on WBXML input: [decode] may return
    [None], on which [root.find] raises [AttributeError]. *)
Definition parse_wbxml (d : bytes) : Result SyncMLMessage :=
  let* root := Codec.decode_wbxml d in
  match root with
  | Some r => ok (_parse_syncml r)
  | None => raise AttributeError
  end.

(** [parse(to_xml_string(root).encode('utf-8'))]: the XML branch of
    [parse], on the serialisation of a tree the parser reads back
    ([ET.readable]); on other trees [ET.fromstring] may raise
    [ParseError]. *)
Definition parse_xml_of (root : Element) : SyncMLMessage :=
  _parse_syncml (ET.fromstring_tostring root).

End Parser.


(** ** syncml/builder.py *)

Module Builder.

Record StatusBuilder := mkStatus {
  sb_cmd_id : string;
  sb_msg_ref : string;
  sb_cmd_ref : string;
  sb_cmd : string;
  sb_data : Z;
  sb_target_ref : option string;
  sb_source_ref : option string;
  sb_items : list (gmap string string)
}.

Record ItemBuilder := mkItemBuilder {
  ib_target : option string;
  ib_source : option string;
  ib_data : option string;
  ib_meta : list (string * string)
}.

Record SyncMLBuilder := mkBuilder {
  server_id : string;
  cmd_id_counter : Z
}.

(** [SyncMLBuilder()] *)
Definition new_builder (cfg : Config.Settings) : SyncMLBuilder :=
  mkBuilder (Config.SERVER_ID cfg) 0.

Definition next_cmd_id (b : SyncMLBuilder) : string * SyncMLBuilder :=
  let c := cmd_id_counter b + 1 in
  (Py.str c, mkBuilder (server_id b) c).

Definition reset_cmd_id (b : SyncMLBuilder) : SyncMLBuilder :=
  mkBuilder (server_id b) 0.

(** [ET.SubElement(ET.SubElement(parent, outer), 'LocURI').text = uri] *)
Definition add_loc_uri (parent : Element) (outer uri : string) : Element :=
  append_child parent
               (ET.SubElement_text (new_element outer) "LocURI" uri).

(** The same, when the optional string is truthy. *)
Definition add_loc_uri_if (parent : Element) (outer : string)
           (uri : option string) : Element :=
  match uri with
  | Some u => if truthy u then add_loc_uri parent outer u else parent
  | None => parent
  end.

Definition add_text_if (parent : Element) (t : string) (s : option string)
  : Element :=
  match s with
  | Some u => if truthy u then ET.SubElement_text parent t u else parent
  | None => parent
  end.

(** [if x is not None: ET.SubElement(parent, t).text = x] *)
Definition add_text_if_some (parent : Element) (t : string)
           (s : option string) : Element :=
  match s with
  | Some u => ET.SubElement_text parent t u
  | None => parent
  end.

(** The [Meta] child of an item, when [item_data.meta] is not empty. *)
Definition add_meta (item : Element) (meta : list (string * string))
  : Element :=
  match meta with
  | [] => item
  | _ =>
    append_child item
      (fold_left (fun m kv => ET.SubElement_text m (fst kv) (snd kv))
                 meta (new_element "Meta"))
  end.

Definition _build_header (b : SyncMLBuilder)
           (session_id msg_id target : string) (source : option string)
  : Element :=
  let hdr := new_element "SyncHdr" in
  let hdr := ET.SubElement_text hdr "VerDTD" "1.2" in
  let hdr := ET.SubElement_text hdr "VerProto" "DM/1.2" in
  let hdr := ET.SubElement_text hdr "SessionID" session_id in
  let hdr := ET.SubElement_text hdr "MsgID" msg_id in
  let hdr := add_loc_uri hdr "Target" target in
  add_loc_uri hdr "Source" (or_else source (server_id b)).

Definition status_item (item_data : gmap string string) : Element :=
  let item := new_element "Item" in
  let item := match item_data !! "target" with
              | Some t => add_loc_uri item "Target" t
              | None => item
              end in
  match item_data !! "data" with
  | Some d => ET.SubElement_text item "Data" d
  | None => item
  end.

Definition _build_status (status : StatusBuilder) (b : SyncMLBuilder)
  : Element * SyncMLBuilder :=
  let '(id, b') := next_cmd_id b in
  let elem := new_element "Status" in
  let elem := ET.SubElement_text elem "CmdID" id in
  let elem := ET.SubElement_text elem "MsgRef" (sb_msg_ref status) in
  let elem := ET.SubElement_text elem "CmdRef" (sb_cmd_ref status) in
  let elem := ET.SubElement_text elem "Cmd" (sb_cmd status) in
  let elem := ET.SubElement_text elem "Data" (Py.str (sb_data status)) in
  let elem := add_text_if elem "TargetRef" (sb_target_ref status) in
  let elem := add_text_if elem "SourceRef" (sb_source_ref status) in
  (fold_left (fun e item_data => append_child e (status_item item_data))
             (sb_items status) elem,
   b').

Definition build_get (targets : list string) (b : SyncMLBuilder)
  : Element * SyncMLBuilder :=
  let '(id, b') := next_cmd_id b in
  let elem := ET.SubElement_text (new_element "Get") "CmdID" id in
  (fold_left (fun e target =>
                append_child e (add_loc_uri (new_element "Item")
                                            "Target" target))
             targets elem,
   b').

Definition build_replace (items : list ItemBuilder) (b : SyncMLBuilder)
  : Element * SyncMLBuilder :=
  let '(id, b') := next_cmd_id b in
  let elem := ET.SubElement_text (new_element "Replace") "CmdID" id in
  (fold_left (fun e item_data =>
                let item := new_element "Item" in
                let item := add_loc_uri_if item "Target" (ib_target item_data) in
                let item := add_loc_uri_if item "Source" (ib_source item_data) in
                let item := add_meta item (ib_meta item_data) in
                append_child e (add_text_if_some item "Data"
                                                 (ib_data item_data)))
             items elem,
   b').

Definition build_exec (target : string) (data : option string)
           (b : SyncMLBuilder) : Element * SyncMLBuilder :=
  let '(id, b') := next_cmd_id b in
  let elem := ET.SubElement_text (new_element "Exec") "CmdID" id in
  let item := add_loc_uri (new_element "Item") "Target" target in
  (append_child elem (add_text_if item "Data" data), b').

Definition build_results (msg_ref cmd_ref : string)
           (items : list ItemBuilder) (b : SyncMLBuilder)
  : Element * SyncMLBuilder :=
  let '(id, b') := next_cmd_id b in
  let elem := ET.SubElement_text (new_element "Results") "CmdID" id in
  let elem := ET.SubElement_text elem "MsgRef" msg_ref in
  let elem := ET.SubElement_text elem "CmdRef" cmd_ref in
  (fold_left (fun e item_data =>
                let item := new_element "Item" in
                let item := add_loc_uri_if item "Source" (ib_source item_data) in
                let item := add_meta item (ib_meta item_data) in
                append_child e (add_text_if_some item "Data"
                                                 (ib_data item_data)))
             items elem,
   b').

(** The loop [for status in statuses: sync_body.append(
    self._build_status(status))] *)
Fixpoint build_statuses (statuses : list StatusBuilder) (body : Element)
         (b : SyncMLBuilder) : Element * SyncMLBuilder :=
  match statuses with
  | [] => (body, b)
  | status :: r =>
    let '(e, b') := _build_status status b in
    build_statuses r (append_child body e) b'
  end.

Definition build_response (b : SyncMLBuilder)
           (session_id msg_id target : string) (source : option string)
           (statuses : list StatusBuilder) (commands : list Element)
           (is_final : bool) : Element * SyncMLBuilder :=
  let b0 := reset_cmd_id b in
  let syncml := ET.set (new_element "SyncML") "xmlns" "SYNCML:SYNCML1.2" in
  let sync_hdr := _build_header b0 session_id msg_id target source in
  let '(sync_body, b1) := build_statuses statuses (new_element "SyncBody") b0 in
  let sync_body := fold_left append_child commands sync_body in
  let sync_body := if is_final then ET.SubElement sync_body "Final"
                   else sync_body in
  (append_child (append_child syncml sync_hdr) sync_body, b1).

(** [to_xml_string(root).encode('utf-8')] and [to_wbxml(root)] *)
Definition to_xml_string (root : Element) : string := ET.tostring root.

Definition to_wbxml (root : Element) : bytes := Codec.encode_wbxml root.

(** *** Reading the command identifiers of a response *)

(** The [CmdID] texts of the children of [SyncBody], in order. *)
Definition cmd_ids (response : Element) : list string :=
  match ET.find "SyncBody" response with
  | Some body =>
    omap (fun c => match ET.find "CmdID" c with
                   | Some i => text i
                   | None => None
                   end) (children body)
  | None => []
  end.

(** The strings ["1"], ..., [str(n)] *)
Definition one_to (n : nat) : list string :=
  map (fun i => Py.str (Z.of_nat i)) (seq 1 n).

End Builder.


(** ** syncml/auth.py *)

Module Auth.

Record HMACAuth := mkAuth {
  username : string;
  password : string;
  server_username : string;
  server_password : string;
  client_nonce : option bytes;
  server_nonce : option bytes
}.

(** [x or default] on an optional constructor argument *)
Definition arg_or (x : option string) (d : string) : string := or_else x d.

(** [HMACAuth(username, password, server_username, server_password)] *)
Definition new_auth (cfg : Config.Settings)
           (u pw su spw : option string) : HMACAuth :=
  mkAuth (arg_or u (Config.DEFAULT_USERNAME cfg))
         (arg_or pw (Config.DEFAULT_PASSWORD cfg))
         (arg_or su (Config.SERVER_USERNAME cfg))
         (arg_or spw (Config.SERVER_PASSWORD cfg))
         None None.

(** [parse_hmac_header]: the pairs [key=value] between commas. *)
Definition parse_hmac_header (py : Interpreter) (header : string)
  : gmap string string :=
  if truthy header then
    fold_left (fun result part =>
                 match split_once "=" (strip py part) with
                 | Some (key, value) =>
                   <[strip py key := strip py value]> result
                 | None => result
                 end)
              (split "," header) ∅
  else ∅.

Definition compute_hmac (username password : string) (nonce body : bytes)
  : string :=
  let cred_hash := Lib.md5 (encode (username +:+ ":" +:+ password)) in
  let cred_b64 := Lib.b64encode cred_hash in
  let body_hash := Lib.md5 body in
  let body_b64 := Lib.b64encode body_hash in
  let message := nonce ++ encode ":" ++ encode body_b64 in
  let mac := Lib.hmac_md5 (encode cred_b64) message in
  Lib.b64encode mac.

(** [x or b''] on an [Optional[bytes]] *)
Definition bytes_or_empty (x : option bytes) : bytes :=
  match x with
  | Some (b :: r) => b :: r
  | _ => []
  end.

Definition verify_client_auth (self : HMACAuth) (mac username : string)
           (body : bytes) (nonce : option bytes) : bool :=
  let nonce := match nonce with
               | None => bytes_or_empty (server_nonce self)
               | Some n => n
               end in
  let expected := compute_hmac username (password self) nonce body in
  if String.eqb mac expected then true
  else if negb (String.eqb username (Auth.username self)) then
    let expected := compute_hmac (Auth.username self) (password self)
                                 nonce body in
    if String.eqb mac expected then true else false
  else false.

Definition create_server_auth (self : HMACAuth) (body : bytes)
           (nonce : option bytes) : string :=
  let nonce := match nonce with
               | None => bytes_or_empty (client_nonce self)
               | Some n => n
               end in
  compute_hmac (server_username self) (server_password self) nonce body.

Section WithBase64Decode.

(** [base64.b64decode] of the standard library, on a [str]; it raises
    on a malformed input. *)
Variable b64decode : string -> Result bytes.

(** The [auth-basic] attempt inside [try]: the user name when the
    decoded credential is [user:password] with the configured password,
    [None] when it is not or when anything raises. *)
Definition basic_user (self : HMACAuth) (cred_data : string) : option string :=
  match (let* raw := b64decode cred_data in decode raw) with
  | inr decoded =>
    match split_once ":" decoded with
    | Some (user, pw) =>
      if String.eqb pw (password self) then Some user else None
    | None => None
    end
  | inl _ => None
  end.

Definition verify_from_cred (self : HMACAuth) (cred_data cred_type : string)
           (body : bytes) : bool * string :=
  if negb (truthy cred_type) || negb (contains "auth-MAC" cred_type) then
    match (if truthy cred_type && contains "auth-basic" cred_type
           then basic_user self cred_data else None) with
    | Some user => (true, user)
    | None => (true, "anonymous")
    end
  else (true, Auth.username self).

End WithBase64Decode.

(** *** The words of the specification *)

(** The five steps of the MAC construction. *)
Definition spec_mac (username password : string) (N B : bytes) : string :=
  let cred := Lib.md5 (encode username ++ encode ":" ++ encode password) in
  let K := encode (Lib.b64encode cred) in
  let H := encode (Lib.b64encode (Lib.md5 B)) in
  let M := N ++ encode ":" ++ H in
  Lib.b64encode (Lib.hmac_md5 K M).

End Auth.


(** ** server.py *)

Module Server.
Import Parser Builder SessionM.

(** [Response(content, media_type, headers)] *)
Record Response := mkResponse {
  content : bytes;
  media_type : string;
  headers : list (string * string)
}.

(** What the endpoint hands to the transport: the response, or the
    [HTTPException(status_code=500)] its [except Exception] raises. *)
Inductive HttpResult :=
| Http200 (r : Response)
| Http500 (e : PyError).

Section WithServer.

(** The interpreter that runs the server *)
Variable py : Interpreter.

Variable cfg : Config.Settings.

(** The module-level [update_manager] *)
Variable update_manager : Update.UpdateManager.

(** [base64.b64decode] of the standard library *)
Variable b64decode : string -> Result bytes.

(** [int(cmd.data) if cmd.data else 0] *)
Definition data_code (data : option string) : Result Z :=
  match data with
  | Some d => if truthy d then Py.int py d else ok 0
  | None => ok 0
  end.

Definition ok_status (message : SyncMLMessage) (cmd : SyncMLCommand)
           (name : string) : StatusBuilder :=
  mkStatus "" (Parser.msg_id (header message)) (Parser.cmd_id cmd) name
           Config.STATUS_OK None None [].

Definition handle_alert (session : Session) (cmd : SyncMLCommand)
           (message : SyncMLMessage) (builder : SyncMLBuilder)
  : Result (StatusBuilder * list Element * Session * SyncMLBuilder) :=
  let* alert_code := data_code (Parser.data cmd) in
  let status := ok_status message cmd "Alert" in
  if alert_code =? Config.ALERT_CLIENT_INITIATED then
    let session := set_state session AUTHENTICATED in
    let '(get_cmd, builder) :=
      build_get [ "./DevInfo/DevId"; "./DevInfo/Man"; "./DevInfo/Mod";
                  "./DevInfo/FwV"; "./DevInfo/SwV"; "./DevInfo/HwV";
                  "./Software/Build" ]%string builder in
    ok (status, [get_cmd], session, builder)
  else ok (status, [], session, builder).

Definition handle_status (session : Session) (cmd : SyncMLCommand)
  : Result Session :=
  let* status_code := data_code (Parser.data cmd) in
  let target_ref := or_else (Parser.target_ref cmd) "" in
  let key := format_opt (Parser.cmd_ref cmd) +:+ "_" +:+ target_ref in
  ok (set_command_results session
        (<[key := mkCommandResult (Parser.cmd cmd) status_code target_ref]>
           (command_results session))).

Definition handle_results (session : Session) (cmd : SyncMLCommand)
           (message : SyncMLMessage) : StatusBuilder * Session :=
  let session :=
    fold_left (fun s item =>
                 update_device_info (or_else (i_source item) "")
                                    (or_else (i_data item) "") s)
              (items cmd) session in
  let session :=
    match state session with
    | AUTHENTICATED => set_state session MANAGEMENT
    | _ => session
    end in
  (ok_status message cmd "Results", session).

Definition handle_replace (session : Session) (cmd : SyncMLCommand)
           (message : SyncMLMessage) : StatusBuilder :=
  ok_status message cmd "Replace".

(** The value [handle_get] finds for a target, when it finds one that
    is truthy; the update check may raise. *)
Definition get_value (session : Session) (target : string)
  : Result (option string) :=
  let build := current_build (device_info session) in
  let* value :=
    if contains "Build" target then
      ok (Some (if truthy build then build else "Nova-3.0.5-64"))
    else if contains "PkgURL" target then
      let* pkg := Update.check_update_available py update_manager build in
      ok (match pkg with
          | Some pkg => Some (Update.get_package_url cfg pkg)
          | None => None
          end)
    else ok None in
  ok (if otruthy value then value else None).

(** One iteration of [for item in cmd.items] in [handle_get]: the item
    appended to [results_items], if one is. *)
Definition get_item (session : Session) (item : SyncMLItem)
  : Result (option ItemBuilder) :=
  let target := or_else (i_target item) "" in
  let* value := get_value session target in
  ok (match value with
      | Some value => Some (mkItemBuilder None (Some target) (Some value) [])
      | None => None
      end).

Definition handle_get (session : Session) (cmd : SyncMLCommand)
           (message : SyncMLMessage) (builder : SyncMLBuilder)
  : Result (StatusBuilder * option Element * SyncMLBuilder) :=
  let* found := traverse (get_item session) (items cmd) in
  let results_items := omap id found in
  let status := ok_status message cmd "Get" in
  match results_items with
  | [] => ok (status, None, builder)
  | _ =>
    let '(results, builder) :=
      build_results (Parser.msg_id (header message)) (Parser.cmd_id cmd)
                    results_items builder in
    ok (status, Some results, builder)
  end.

(** [check_and_send_update]: the commands it returns and the builder
    after it, or the exception of the update check or of
    [str(pkg.size)]; the session is returned in both cases, the state
    being set before [str(pkg.size)] is computed. *)
Definition check_and_send_update (session : Session) (builder : SyncMLBuilder)
  : Session * Result (list Element * SyncMLBuilder) :=
  let info := device_info session in
  let device_build :=
    if truthy (current_build info) then current_build info
    else software_version info in
  if negb (truthy device_build) then (session, ok ([], builder)) else
  match Update.check_update_available py update_manager device_build with
  | inl e => (session, raise e)
  | inr None => (session, ok ([], builder))
  | inr (Some pkg) =>
    let session := set_state session UPDATE_AVAILABLE in
    let pkg_url := Update.get_package_url cfg pkg in
    let item t d := mkItemBuilder (Some t) None (Some d) [] in
    match str_of_int py (Update.size pkg) with
    | inl e => (session, raise e)
    | inr size =>
      let replace_items :=
        [ item "./Software/Package/PkgName" (Update.name pkg);
          item "./Software/Package/PkgVersion" (Update.version pkg);
          item "./Software/Package/PkgURL" pkg_url;
          item "./Software/Package/PkgSize" size;
          item "./Software/Package/PkgDesc" (Update.description pkg) ]%string
        ++ (if truthy (Update.install_notify_url pkg)
            then [item "./Software/Package/PkgInstallNotify"%string
                       (Update.install_notify_url pkg)]
            else []) in
      let '(replace, builder) := build_replace replace_items builder in
      let '(exec, builder) :=
        build_exec "./Software/Operations/DownloadAndInstall" None builder in
      (session, ok ([replace; exec], builder))
    end
  end.

(** The state the loop over [message.commands] carries. *)
Record Dispatch := mkDispatch {
  d_session : Session;
  d_builder : SyncMLBuilder;
  d_statuses : list StatusBuilder;
  d_commands : list Element
}.

(** One iteration of [for cmd in message.commands]. *)
Definition dispatch_command (message : SyncMLMessage) (d : Dispatch)
           (cmd : SyncMLCommand) : Result Dispatch :=
  let n := Parser.name cmd in
  if String.eqb n "Alert" then
    let* '(status, new_commands, session, builder) :=
      handle_alert (d_session d) cmd message (d_builder d) in
    ok (mkDispatch session builder (d_statuses d ++ [status])
                   (d_commands d ++ new_commands))
  else if String.eqb n "Status" then
    let* session := handle_status (d_session d) cmd in
    ok (mkDispatch session (d_builder d) (d_statuses d) (d_commands d))
  else if String.eqb n "Results" then
    let '(status, session) := handle_results (d_session d) cmd message in
    ok (mkDispatch session (d_builder d) (d_statuses d ++ [status])
                   (d_commands d))
  else if String.eqb n "Replace" then
    let status := handle_replace (d_session d) cmd message in
    ok (mkDispatch (d_session d) (d_builder d) (d_statuses d ++ [status])
                   (d_commands d))
  else if String.eqb n "Get" then
    let* '(status, results, builder) :=
      handle_get (d_session d) cmd message (d_builder d) in
    ok (mkDispatch (d_session d) builder (d_statuses d ++ [status])
                   (d_commands d ++ match results with
                                    | Some r => [r]
                                    | None => []
                                    end))
  else
    ok (mkDispatch (d_session d) (d_builder d)
                   (d_statuses d ++ [ok_status message cmd n])
                   (d_commands d)).

Fixpoint dispatch_commands (message : SyncMLMessage) (d : Dispatch)
         (cmds : list SyncMLCommand) : Dispatch * Result unit :=
  match cmds with
  | [] => (d, ok tt)
  | cmd :: r =>
    match dispatch_command message d cmd with
    | inr d' => dispatch_commands message d' r
    | inl e => (d, raise e)
    end
  end.

(** [process_dm_message(session, message, raw_body)]; [now] is the
    reading of the clock in [next_msg_id].  The session is returned
    also when a handler raises: it is mutated in place. *)
Definition process_dm_message (now : Z) (session : Session)
           (message : SyncMLMessage) (raw_body : bytes)
  : Session * Result Element :=
  let builder := new_builder cfg in
  let msg_ref := Parser.msg_id (header message) in
  let '(next_msg_id, session) := next_msg_id now session in
  let hdr_status :=
    mkStatus "" msg_ref "0" "SyncHdr"
             (if authenticated session then Config.STATUS_AUTH_ACCEPTED
              else Config.STATUS_CREDENTIALS_MISSING)
             (Some (Parser.target (header message)))
             (Some (Parser.source (header message))) [] in
  match dispatch_commands message
          (mkDispatch session builder [hdr_status] []) (commands message) with
  | (d, inl e) => (d_session d, raise e)
  | (d, inr _) =>
    let '(session, update) :=
      if String.eqb (state_value (state (d_session d))) "authenticated"
         || String.eqb (state_value (state (d_session d))) "management"
      then check_and_send_update (d_session d) (d_builder d)
      else (d_session d, ok ([], d_builder d)) in
    match update with
    | inl e => (session, raise e)
    | inr (update_commands, builder) =>
      let '(response, _) :=
        build_response builder (SessionM.session_id session) next_msg_id
                       (Parser.source (header message))
                       (Some (Config.SERVER_ID cfg))
                       (d_statuses d) (d_commands d ++ update_commands)
                       true in
      (session, ok response)
    end
  end.

(** The authentication block of [oma_dm_endpoint]
    ([if not session.authenticated: ...]). *)
Definition authenticate (hmac_header : string) (body : bytes)
           (message : SyncMLMessage) (session : Session) : Session :=
  if authenticated session then session else
  let session :=
    if truthy hmac_header then
      let hmac_parts := Auth.parse_hmac_header py hmac_header in
      let client_mac := default "" (hmac_parts !! "mac") in
      let client_username :=
        default (Config.DEFAULT_USERNAME cfg) (hmac_parts !! "username") in
      let verify_nonce := SessionM.server_nonce session in
      let expected_mac :=
        Auth.compute_hmac client_username (Config.DEFAULT_PASSWORD cfg)
                          verify_nonce body in
      if String.eqb client_mac expected_mac
      then set_authenticated session true
      else set_authenticated session true
    else set_authenticated session true in
  set_username session (or_else (cred_data (header message)) "guest").

(** The [NextNonce] block: a nonce that does not decode is ignored. *)
Definition take_client_nonce (message : SyncMLMessage) (session : Session)
  : Session :=
  match meta (header message) !! "NextNonce" with
  | Some n =>
    if truthy n then
      match b64decode n with
      | inr client_nonce => set_client_nonce session client_nonce
      | inl _ => session
      end
    else session
  | None => session
  end.

(** [oma_dm_endpoint] from the session lookup on: [message] is what
    [parser.parse(body, content_type)] returned and [session] what
    [get_or_create_session] returned. *)
Definition oma_dm_endpoint (now : Z) (content_type hmac_header : string)
           (body : bytes) (message : SyncMLMessage) (session : Session)
  : Session * HttpResult :=
  let session := take_client_nonce message session in
  let session := authenticate hmac_header body message session in
  match process_dm_message now session message body with
  | (session, inl e) => (session, Http500 e)
  | (session, inr response_xml) =>
    let '(response_body, response_content_type) :=
      if contains "wbxml" content_type
      then (to_wbxml response_xml, "application/vnd.syncml.dm+wbxml")
      else (encode (to_xml_string response_xml),
            "application/vnd.syncml.dm+xml") in
    let response_headers :=
      if truthy hmac_header then
        let mac := Auth.compute_hmac (Config.SERVER_USERNAME cfg)
                                     (Config.SERVER_PASSWORD cfg)
                                     (SessionM.client_nonce session)
                                     response_body in
        [("x-syncml-hmac",
          "algorithm=MD5, username=" +:+ Config.SERVER_USERNAME cfg
          +:+ ", mac=" +:+ mac)]
      else [] in
    (session,
     Http200 (mkResponse response_body response_content_type
                         response_headers))
  end.

End WithServer.

(** *** The words of the specification *)

(** A response is a full session response when it is a [SyncML]
    document with a header and a body that ends with [Final]. *)
Definition full_session_response (e : Element) : Prop :=
  tag e = "SyncML"
  /\ (exists h, ET.find "SyncHdr" e = Some h)
  /\ (exists b, ET.find "SyncBody" e = Some b
                /\ (exists f, last (children b) = Some f /\ tag f = "Final")).

(** The codes of the alerts and statuses of a message are numbers:
    [int(cmd.data)] does not raise on them. *)
Definition numeric_codes (py : Interpreter) (message : SyncMLMessage)
  : Prop :=
  Forall (fun c => Parser.name c = "Alert" \/ Parser.name c = "Status" ->
                   exists z, data_code py (Parser.data c) = ok z)
         (commands message).

(** The build strings of the catalog have versions and the size of
    every package has a text: no digit run and no size exceeds the limit
    of the interpreter. *)
Definition catalog_converts (py : Interpreter) (um : Update.UpdateManager)
  : Prop :=
  Forall (fun p => Update.package_converts py p
                   /\ exists t, str_of_int py (Update.size p) = ok t)
         (Update.values um).

(** The build and the software version of the session have versions. *)
Definition builds_convert (py : Interpreter) (session : Session) : Prop :=
  Update.converts py (current_build (device_info session))
  /\ Update.converts py (software_version (device_info session)).

(** The [Data] of the items of a list of commands have versions. *)
Definition items_convert (py : Interpreter) (cmds : list SyncMLCommand)
  : Prop :=
  Forall (fun c => Forall (fun i => Update.converts
                                      py (or_else (i_data i) ""))
                          (items c))
         cmds.

(** Every build string the update check may convert for a message has a
    version: those of the catalog, those of the session and the [Data]
    of the items of the message, which [handle_results] may store as
    build or software version. *)
Definition versions_convert (py : Interpreter) (um : Update.UpdateManager)
           (session : Session) (message : SyncMLMessage) : Prop :=
  catalog_converts py um
  /\ builds_convert py session
  /\ items_convert py (commands message).

(** The claim: whatever the request of an unauthenticated session, the
    endpoint answers with a session response and the session is
    authenticated afterwards. *)
Definition the_claimed_tolerance : Prop :=
  forall (py : Interpreter) (cfg : Config.Settings)
         (um : Update.UpdateManager)
         (b64decode : string -> Result bytes) (now : Z)
         (content_type hmac_header : string) (body : bytes)
         (message : SyncMLMessage) (session : Session),
    authenticated session = false ->
    exists session' r,
      oma_dm_endpoint py cfg um b64decode now content_type hmac_header body
                      message session
      = (session', Http200 r)
      /\ authenticated session' = true.

End Server.


(** ** The scenarios of the specification *)

Module Scenario.
Import Parser SessionM.

(** The interpreter of the scenarios *)
Definition interpreter : Interpreter := cpython_3_11.

Definition settings : Config.Settings :=
  Config.mkSettings "SERVER-ID" "http://updates.example:8080"
                    "guest" "guest" "server" "secret".

Definition empty_catalog : Update.UpdateManager := Update.mkUpdateManager [].

(** A session for [SessionID=42] of device [DEV-A], as
    [get_or_create_session] makes it (with the nonce [nonce]). *)
Definition session_42 (nonce : bytes) : Session :=
  mkSession "42" "DEV-A" INIT 0 0 0 empty_device_info false "" [] nonce ∅.

Definition header_42 (msg : string) : SyncMLHeader :=
  mkHeader "1.2" "DM/1.2" "42" msg "SERVER-ID" "DEV-A" None None None ∅.

Definition alert (code : string) : SyncMLCommand :=
  mkCommand "Alert" "1" None None None None None (Some code) [] ∅ false.

(** Scenario 1, client init:
    [SyncML{SessionID=42, MsgID=1, Source=DEV-A, Target=SERVER-ID,
    body=[Alert{cmd_id=1, data=1201}, Final]}] *)
Definition client_init : SyncMLMessage :=
  mkMessage (header_42 "1") [alert "1201"] true.

(** The same message with an alert whose [Data] is not a number. *)
Definition malformed_alert : SyncMLMessage :=
  mkMessage (header_42 "1") [alert "abc"] true.

(** A decoder that rejects everything; the scenarios carry no [NextNonce]
    and never call it. *)
Definition no_b64decode (s : string) : Result bytes := raise BinasciiError.

(** The response to scenario 1 in an authenticated session. *)
Definition client_init_response : Session * Result Element :=
  Server.process_dm_message interpreter settings empty_catalog 0
    (set_authenticated (session_42 []) true) client_init [].

(** A response with the header status only. *)
Definition plain_response : Element :=
  fst (Builder.build_response
         (Builder.new_builder settings) "42" "1" "DEV-A" (Some "SERVER-ID")
         [Builder.mkStatus "" "1" "0" "SyncHdr" 212 (Some "SERVER-ID")
                           (Some "DEV-A") []]
         [] true).

(** Scenario 2, device info reply, in the session scenario 1 left, with
    a catalog holding one package for build [Nova-3.0.5-86]. *)
Definition catalog_86 : Update.UpdateManager :=
  Update.mkUpdateManager
    [("webos-3.0.5-86",
      Update.mkUpdatePackage "webos-3.0.5-86" "3.0.5" "webos-3.0.5-86.ipk"
                             1024 "" "Update to 3.0.5 build 86" ""
                             "Nova-3.0.5-86" "")].



Definition device_info_reply : SyncMLMessage :=
  mkMessage
    (header_42 "2")
    [ mkCommand "Status" "1" (Some "1") (Some "3") (Some "Get") None None
                (Some "200") [] ∅ false;
      mkCommand "Results" "2" (Some "1") (Some "3") None None None None
                [ mkItem None (Some "./DevInfo/Mod") (Some "Topaz") ∅;
                  mkItem None (Some "./Software/Build")
                         (Some "Nova-3.0.5-64") ∅ ]
                ∅ false ]
    true.

Definition device_info_reply_response : Session * Result Element :=
  Server.process_dm_message interpreter settings catalog_86 0
    (fst client_init_response) device_info_reply [].

End Scenario.

(** ** Reading a response

    The words in which the properties of the responses are stated: what
    [process_dm_message] hands to [build_response], what
    [build_response] makes of it, and what the parser reads in the
    trees of the builder. *)

Module Reading.
Import Parser Builder SessionM.

(** The text of the [CmdID] child of a command element. *)
Definition own_cmd_id (c : Element) : option string :=
  match ET.find "CmdID" c with
  | Some i => text i
  | None => None
  end.

(** The status [process_dm_message] makes for [SyncHdr]. *)
Definition header_status (message : SyncMLMessage) (authenticated : bool)
  : StatusBuilder :=
  mkStatus "" (Parser.msg_id (header message)) "0" "SyncHdr"
           (if authenticated then Config.STATUS_AUTH_ACCEPTED
            else Config.STATUS_CREDENTIALS_MISSING)
           (Some (Parser.target (header message)))
           (Some (Parser.source (header message))) [].

(** One status [200] for every command that is not a [Status], in the
    order of the message, referring to the command by its [CmdID] and
    its name. *)
Definition command_statuses (message : SyncMLMessage) : list StatusBuilder :=
  map (fun c => Server.ok_status message c (Parser.name c))
      (List.filter (fun c => negb (String.eqb (Parser.name c) "Status"))
                   (commands message)).

(** The elements [build_statuses] appends for a list of statuses. *)
Fixpoint status_elements (statuses : list StatusBuilder) (b : SyncMLBuilder)
  : list Element :=
  match statuses with
  | [] => []
  | status :: r =>
    let '(e, b') := _build_status status b in e :: status_elements r b'
  end.

(** The strings [str(c+1)], ..., [str(c+n)] *)
Definition ids_from (c : Z) (n : nat) : list string :=
  map (fun i => Py.str (c + Z.of_nat i)) (seq 1 n).

(** What processing a message leaves alone in a session: everything but
    the state, the device information and the recorded statuses. *)
Definition same_identity (s s' : Session) : Prop :=
  session_id s' = session_id s
  /\ s_device_id s' = s_device_id s
  /\ msg_id s' = msg_id s
  /\ created_at s' = created_at s
  /\ last_activity s' = last_activity s
  /\ authenticated s' = authenticated s
  /\ username s' = username s
  /\ client_nonce s' = client_nonce s
  /\ server_nonce s' = server_nonce s.

(** The commands built so far carry the identifiers [1..n], [n] being
    the counter of the builder. *)
Definition numbered (b : SyncMLBuilder) (cs : list Element) : Prop :=
  map own_cmd_id cs = map Some (ids_from 0 (length cs))
  /\ cmd_id_counter b = Z.of_nat (length cs).

(** The commands the server sends. *)
Definition server_command (c : Element) : Prop :=
  tag c = "Get" \/ tag c = "Results" \/ tag c = "Replace" \/ tag c = "Exec".

(** The states the handlers and [check_and_send_update] assign. *)
Definition reached (before after : SessionState) : Prop :=
  after = before \/ after = AUTHENTICATED \/ after = MANAGEMENT
  \/ after = UPDATE_AVAILABLE.

(** [Some s] when [s] is not empty: what [_get_text] returns for an
    element whose text is [s]. *)
Definition nonempty (s : string) : option string :=
  if truthy s then Some s else None.

Definition nonempty_opt (s : option string) : option string :=
  match s with
  | Some t => nonempty t
  | None => None
  end.

(** What the parser reads from the [Item] a status carries. *)
Definition parsed_status_item (item_data : gmap string string) : SyncMLItem :=
  mkItem (item_data !! "target") None
         (nonempty_opt (item_data !! "data")) ∅.

(** What the parser reads from a built status whose identifier is [id]. *)
Definition parsed_status (id : string) (st : StatusBuilder) : SyncMLCommand :=
  mkCommand "Status" id (nonempty (sb_msg_ref st)) (nonempty (sb_cmd_ref st))
            (nonempty (sb_cmd st))
            (nonempty_opt (sb_target_ref st))
            (nonempty_opt (sb_source_ref st))
            (Some (Py.str (sb_data st)))
            (map parsed_status_item (sb_items st)) ∅ false.

(** The statuses of a response as the parser reads them: the [i]-th
    carries the identifier [str(c+i)]. *)
Fixpoint parsed_statuses (c : Z) (statuses : list StatusBuilder)
  : list SyncMLCommand :=
  match statuses with
  | [] => []
  | st :: r => parsed_status (Py.str (c + 1)) st :: parsed_statuses (c + 1) r
  end.

(** What the parser reads from the [Meta] the builder makes of a list of
    pairs: the pairs with a value, a later one replacing an earlier one
    of the same key. *)
Definition parsed_meta (meta : list (string * string)) : gmap string string :=
  fold_left (fun m kv => if truthy (snd kv) then <[fst kv := snd kv]> m else m)
            meta ∅.

(** What the parser reads from the [Item] of a [Replace]. *)
Definition parsed_item (i : ItemBuilder) : SyncMLItem :=
  mkItem (nonempty_opt (ib_target i)) (nonempty_opt (ib_source i))
         (nonempty_opt (ib_data i)) (parsed_meta (ib_meta i)).

(** What the parser reads from the [Item] of a [Results]: [build_results]
    writes no [Target]. *)
Definition parsed_result_item (i : ItemBuilder) : SyncMLItem :=
  mkItem None (nonempty_opt (ib_source i)) (nonempty_opt (ib_data i))
         (parsed_meta (ib_meta i)).

(** A command of the server as the parser reads it. *)
Definition parsed_command (n id : string) (msg_ref cmd_ref : option string)
           (its : list SyncMLItem) : SyncMLCommand :=
  mkCommand n id msg_ref cmd_ref None None None None its ∅ false.

(** The element of a result that is no exception. *)
Definition response_of (r : Session * Result Element) : Element :=
  match snd r with
  | inr e => e
  | inl _ => new_element ""
  end.

End Reading.


(** * Properties *)

(** ** The library functions on known values *)

(** The test suite of RFC 1321, a test case of RFC 2202, and values
    of the Python functions the embedding writes out. *)

Example md5_rfc1321 :
  Lib.hex (Lib.md5 []) = "d41d8cd98f00b204e9800998ecf8427e"
  /\ Lib.hex (Lib.md5 (encode "abc")) = "900150983cd24fb0d6963f7d28e17f72"
  /\ Lib.hex (Lib.md5 (encode "message digest"))
     = "f96b697d7cb7938d525a2f31aaf161d0".
Proof. repeat split; vm_compute; reflexivity. Qed.

Example hmac_md5_rfc2202 :
  Lib.hex (Lib.hmac_md5 (encode "Jefe")
                        (encode "what do ya want for nothing?"))
  = "750c783e6ab0b503eaa86e310a5db738".
Proof. vm_compute. reflexivity. Qed.

Example b64encode_values :
  Lib.b64encode (encode "fooba") = "Zm9vYmE="
  /\ Lib.b64encode (encode "foobar") = "Zm9vYmFy"
  /\ Lib.b64encode (encode "f") = "Zg==".
Proof. repeat split; reflexivity. Qed.

Example int_values (py : Interpreter) :
  Py.int py "1201" = ok 1201
  /\ Py.int py " -1_201 " = ok (-1201)
  /\ Py.int py "abc" = raise (InvalidLiteral "abc")
  /\ Py.int py "1__2" = raise (InvalidLiteral "1__2")
  /\ Py.int py (String "028" "1201")
     = raise (InvalidLiteral (String "028" "1201")).
Proof. repeat split; reflexivity. Qed.

(** On CPython 3.11: the Arabic-Indic digits 3 and 4 (U+0663, U+0664)
    between two no-break spaces (U+00A0), and the limit of 4300
    digits. *)
Example int_values_cpython :
  Py.int cpython_3_11
         (chars [0xC2; 0xA0; 0xD9; 0xA3; 0xD9; 0xA4; 0xC2; 0xA0]) = ok 34
  /\ re_findall_digits cpython_3_11 (chars [0x61; 0xD9; 0xA3; 0x39; 0x62])
     = [chars [0xD9; 0xA3; 0x39]]
  /\ (exists n, Py.int cpython_3_11
                       (string_of_list_ascii (repeat "1"%char 4300)) = ok n)
  /\ Py.int cpython_3_11 (string_of_list_ascii (repeat "1"%char 4301))
     = raise DigitLimit
  /\ Py.str_of_int cpython_3_11 (10 ^ 4300) = raise DigitLimit.
Proof.
  split; [vm_compute; reflexivity|]. split; [vm_compute; reflexivity|].
  split; [|split; vm_compute; reflexivity].
  assert (H : match Py.int cpython_3_11
                           (string_of_list_ascii (repeat "1"%char 4300)) with
              | inr _ => True
              | inl _ => False
              end) by (vm_compute; exact I).
  destruct (Py.int cpython_3_11
                   (string_of_list_ascii (repeat "1"%char 4300))) as [e|n];
    [destruct H|].
  exists n. reflexivity.
Qed.

Example str_values :
  Py.str 1201 = "1201" /\ Py.str 0 = "0" /\ Py.str (-5) = "-5".
Proof. repeat split; reflexivity. Qed.

Example string_method_values (py : Interpreter) :
  lower "./DevInfo/DevId" = "./devinfo/devid"
  /\ contains "devid" "./devinfo/devid" = true
  /\ contains "man" "./devinfo/mod" = false
  /\ re_findall_digits py "Nova-3.0.5-64" = ["3"; "0"; "5"; "64"]
  /\ strip py "  mac = x  " = "mac = x"
  /\ SessionM.final_segment "./DevInfo/Mod" = "Mod".
Proof. repeat split; reflexivity. Qed.

Example public_id_bytes : Codec.mb_uint32_bytes 0x1201 = [0xA4; 0x01].
Proof. reflexivity. Qed.


(** ** The update catalog *)

Section TupleOrder.
Import Update.

Lemma tuple_compare_refl (a : list Z) : tuple_compare a a = Eq.
Proof.
  induction a as [|x a IH]; [reflexivity|].
  cbn [tuple_compare]. rewrite Z.compare_refl. exact IH.
Qed.

Lemma tuple_compare_eq (a : list Z) :
  forall b, tuple_compare a b = Eq -> a = b.
Proof.
  induction a as [|x a IH]; intros [|y b] H; cbn [tuple_compare] in H;
    try discriminate; [reflexivity|].
  destruct (Z.compare_spec x y); try discriminate.
  subst. f_equal. apply IH. exact H.
Qed.

Lemma tuple_compare_antisym (a : list Z) :
  forall b, tuple_compare b a = CompOpp (tuple_compare a b).
Proof.
  induction a as [|x a IH]; intros [|y b]; cbn [tuple_compare];
    try reflexivity.
  rewrite (Z.compare_antisym x y).
  destruct (x ?= y); cbn [CompOpp]; [apply IH|reflexivity|reflexivity].
Qed.

Lemma tuple_compare_lt_trans (a : list Z) :
  forall b c,
    tuple_compare a b = Lt -> tuple_compare b c = Lt ->
    tuple_compare a c = Lt.
Proof.
  induction a as [|x a IH]; intros [|y b] [|z c] Hab Hbc;
    cbn [tuple_compare] in *; try discriminate; try reflexivity.
  destruct (Z.compare_spec x y) as [->|Hxy|Hxy]; try discriminate.
  - destruct (y ?= z); try discriminate; [|reflexivity].
    eapply IH; eassumption.
  - destruct (Z.compare_spec y z) as [->|Hyz|Hyz]; try discriminate.
    + rewrite (proj2 (Z.compare_lt_iff x z)) by lia. reflexivity.
    + rewrite (proj2 (Z.compare_lt_iff x z)) by lia. reflexivity.
Qed.

Lemma tuple_compare_lt_irrefl (a : list Z) : tuple_compare a a <> Lt.
Proof. rewrite tuple_compare_refl. discriminate. Qed.

Lemma tuple_compare_lt_asym (a b : list Z) :
  tuple_compare a b = Lt -> tuple_compare b a <> Lt.
Proof.
  intros H. rewrite tuple_compare_antisym, H. discriminate.
Qed.

(** [a < b] and not [c < b] give [a < c]. *)
Lemma tuple_compare_lt_le_trans (a b c : list Z) :
  tuple_compare a b = Lt -> tuple_compare c b <> Lt ->
  tuple_compare a c = Lt.
Proof.
  intros Hab Hcb.
  destruct (tuple_compare c b) eqn:E; [|congruence|].
  - apply tuple_compare_eq in E. subst. exact Hab.
  - eapply tuple_compare_lt_trans; [exact Hab|].
    rewrite tuple_compare_antisym, E. reflexivity.
Qed.

Lemma tuple_ltb_lt (a b : list Z) :
  tuple_ltb a b = true <-> tuple_compare a b = Lt.
Proof.
  unfold tuple_ltb. destruct (tuple_compare a b); split;
    congruence.
Qed.

Lemma tuple_geb_ge (a b : list Z) :
  tuple_geb a b = true <-> tuple_compare a b <> Lt.
Proof.
  unfold tuple_geb, tuple_ltb. destruct (tuple_compare a b); cbn;
    split; congruence.
Qed.

End TupleOrder.

Section Catalog.
Import Update.

Variable py : Interpreter.

Lemma truthy_empty (s : string) : truthy s = false <-> s = "".
Proof. destruct s; cbn; split; congruence. Qed.

Lemma int_zero : Py.int py "0" = ok 0.
Proof. reflexivity. Qed.

Lemma parse_build_version_refines (build : string) :
  _parse_build_version py build = version_spec py build.
Proof.
  unfold _parse_build_version, version_spec.
  destruct (re_findall_digits py build) as [|n1 [|n2 [|n3 [|n4 r]]]];
    cbn [pad_numbers length Nat.ltb Nat.leb app take traverse Py.bind];
    rewrite ?int_zero;
    repeat match goal with
           | |- context [Py.int py ?n] => destruct (Py.int py n)
           end; reflexivity.
Qed.

Lemma traverse_length {A B} (f : A -> Result B) (l : list A) :
  forall r, traverse f l = ok r -> length r = length l.
Proof.
  induction l as [|x l IH]; intros r H; cbn [traverse] in H.
  - injection H as <-. reflexivity.
  - destruct (f x) as [e|y]; [discriminate|].
    destruct (traverse f l) as [e|ys]; [discriminate|].
    injection H as <-. cbn [length]. rewrite (IH ys eq_refl). reflexivity.
Qed.



(** The filter of the loop is the applicability condition. *)
Lemma is_candidate_applicable (build : string) (d : list Z)
      (p : UpdatePackage) :
  version_spec py build = ok d ->
  is_candidate py d p = ok true <-> applicable py build p.
Proof.
  intros Hd. unfold is_candidate, applicable.
  rewrite !parse_build_version_refines.
  destruct (truthy (min_version p)) eqn:Hm;
    destruct (truthy (target_build p)) eqn:Ht;
    try apply truthy_empty in Hm; try apply truthy_empty in Ht;
    try (assert (Hm' : min_version p <> "") by
           (intros E; apply truthy_empty in E; congruence));
    try (assert (Ht' : target_build p <> "") by
           (intros E; apply truthy_empty in E; congruence)).
  - destruct (version_spec py (min_version p)) as [e|m]; cbn [Py.bind].
    { split; [discriminate|].
      intros (d' & _ & [?|(m & ? & _)] & _); [contradiction|discriminate]. }
    destruct (tuple_ltb d m) eqn:E1.
    { split; [discriminate|].
      intros (d' & Hd' & [?|(m' & Hm1 & Hm2)] & _); [contradiction|].
      rewrite Hd in Hd'. injection Hd' as <-. injection Hm1 as <-.
      apply tuple_ltb_lt in E1. contradiction. }
    destruct (version_spec py (target_build p)) as [e|t]; cbn [Py.bind].
    { split; [discriminate|].
      intros (d' & _ & _ & [?|(t & ? & _)]); [contradiction|discriminate]. }
    destruct (tuple_geb d t) eqn:E2; cbn [negb].
    { split; [discriminate|].
      intros (d' & Hd' & _ & [?|(t' & Ht1 & Ht2)]); [contradiction|].
      rewrite Hd in Hd'. injection Hd' as <-. injection Ht1 as <-.
      apply tuple_geb_ge in E2. contradiction. }
    split; [intros _|reflexivity].
    exists d. split; [exact Hd|]. split; right; eexists; (split; [reflexivity|]).
    + intros X. apply tuple_ltb_lt in X. congruence.
    + destruct (tuple_compare d t) eqn:X; try reflexivity;
        assert (tuple_geb d t = true) by (apply tuple_geb_ge; congruence);
        congruence.
  - destruct (version_spec py (min_version p)) as [e|m]; cbn [Py.bind].
    { split; [discriminate|].
      intros (d' & _ & [?|(m & ? & _)] & _); [contradiction|discriminate]. }
    destruct (tuple_ltb d m) eqn:E1.
    { split; [discriminate|].
      intros (d' & Hd' & [?|(m' & Hm1 & Hm2)] & _); [contradiction|].
      rewrite Hd in Hd'. injection Hd' as <-. injection Hm1 as <-.
      apply tuple_ltb_lt in E1. contradiction. }
    cbn [negb]. split; [intros _|reflexivity].
    exists d. split; [exact Hd|]. split; [right|left; exact Ht].
    eexists. split; [reflexivity|].
    intros X. apply tuple_ltb_lt in X. congruence.
  - cbn [Py.bind].
    destruct (version_spec py (target_build p)) as [e|t]; cbn [Py.bind].
    { split; [discriminate|].
      intros (d' & _ & _ & [?|(t & ? & _)]); [contradiction|discriminate]. }
    destruct (tuple_geb d t) eqn:E2; cbn [negb].
    { split; [discriminate|].
      intros (d' & Hd' & _ & [?|(t' & Ht1 & Ht2)]); [contradiction|].
      rewrite Hd in Hd'. injection Hd' as <-. injection Ht1 as <-.
      apply tuple_geb_ge in E2. contradiction. }
    split; [intros _|reflexivity].
    exists d. split; [exact Hd|]. split; [left; exact Hm|right].
    eexists. split; [reflexivity|].
    destruct (tuple_compare d t) eqn:X; try reflexivity;
      assert (tuple_geb d t = true) by (apply tuple_geb_ge; congruence);
      congruence.
  - cbn [Py.bind negb]. split; [intros _|reflexivity].
    exists d. split; [exact Hd|]. split; left; assumption.
Qed.

(** What the loop over the packages returns: the packages on which the
    filter answers [true], in order; it raises when the filter does. *)
Lemma candidates_of_filter (d : list Z) (pkgs : list UpdatePackage) :
  forall cs,
    candidates_of py d pkgs = ok cs ->
    Forall (fun p => exists b, is_candidate py d p = ok b) pkgs
    /\ cs = List.filter (fun p => match is_candidate py d p with
                                  | inr true => true
                                  | _ => false
                                  end) pkgs.
Proof.
  induction pkgs as [|p r IH]; intros cs H; cbn [candidates_of] in H.
  - injection H as <-. split; [constructor|reflexivity].
  - destruct (is_candidate py d p) as [e|keep] eqn:E; [discriminate|].
    cbn [Py.bind] in H.
    destruct (candidates_of py d r) as [e|rest]; [discriminate|].
    cbn [Py.bind] in H. injection H as <-.
    destruct (IH rest eq_refl) as [Hf ->].
    split; [constructor; [eexists; exact E|exact Hf]|].
    cbn [List.filter]. rewrite E. destruct keep; reflexivity.
Qed.

Lemma traverse_keyed (cs : list UpdatePackage) :
  forall keys,
    traverse (keyed py) cs = ok keys ->
    map snd keys = cs
    /\ Forall (fun kp => sort_key py (snd kp) = ok (fst kp)) keys.
Proof.
  induction cs as [|p r IH]; intros keys H; cbn [traverse] in H.
  - injection H as <-. split; [reflexivity|constructor].
  - unfold keyed at 1 in H.
    destruct (sort_key py p) as [e|k] eqn:E; [discriminate|].
    cbn [Py.bind] in H.
    destruct (traverse (keyed py) r) as [e|ks]; [discriminate|].
    injection H as <-. destruct (IH ks eq_refl) as [Hm Hf].
    split; [cbn [map snd]; rewrite Hm; reflexivity|].
    constructor; [exact E|exact Hf].
Qed.

Lemma head_insert_desc (x : list Z * UpdatePackage)
      (l : list (list Z * UpdatePackage)) :
  head (insert_desc x l)
  = match head l with
    | None => Some x
    | Some y => if tuple_ltb (fst x) (fst y) then Some y else Some x
    end.
Proof.
  destruct l as [|y r]; [reflexivity|].
  cbn [insert_desc head]. destruct (tuple_ltb _ _); reflexivity.
Qed.

(** The head of the sorted list is the first element of the original
    list whose key is maximal. *)
Lemma head_sort_desc (l : list (list Z * UpdatePackage)) :
  match head (sort_desc l) with
  | None => l = []
  | Some p =>
    exists pre post,
      l = pre ++ p :: post
      /\ (forall q, In q pre -> tuple_compare (fst q) (fst p) = Lt)
      /\ (forall q, In q post -> tuple_compare (fst p) (fst q) <> Lt)
  end.
Proof.
  induction l as [|x l IH]; [reflexivity|].
  cbn [sort_desc fold_right]. fold (sort_desc l).
  rewrite head_insert_desc.
  destruct (head (sort_desc l)) as [y|].
  - destruct IH as (pre & post & -> & Hpre & Hpost).
    destruct (tuple_ltb (fst x) (fst y)) eqn:E.
    + apply tuple_ltb_lt in E.
      exists (x :: pre), post. split; [reflexivity|]. split; [|exact Hpost].
      intros q [<-|Hq]; [exact E|apply Hpre; exact Hq].
    + assert (Hxy : tuple_compare (fst x) (fst y) <> Lt).
      { intros X. apply tuple_ltb_lt in X. congruence. }
      exists [], (pre ++ y :: post). split; [reflexivity|].
      split; [intros q []|].
      intros q Hq Hxq. apply Hxy.
      eapply tuple_compare_lt_le_trans; [exact Hxq|].
      apply in_app_or in Hq as [Hq|[<-|Hq]].
      * apply tuple_compare_lt_asym. apply Hpre. exact Hq.
      * apply tuple_compare_lt_irrefl.
      * apply Hpost. exact Hq.
  - subst. exists [], []. repeat split; intros q [].
Qed.

Lemma filter_split {A} (f : A -> bool) (l : list A) :
  forall a x b,
    List.filter f l = a ++ x :: b ->
    exists pre post,
      l = pre ++ x :: post /\ List.filter f pre = a
      /\ List.filter f post = b /\ f x = true.
Proof.
  induction l as [|y l IH]; intros a x b Hf.
  - destruct a; discriminate.
  - cbn [List.filter] in Hf. destruct (f y) eqn:Hy.
    + destruct a as [|a0 a].
      * cbn [app] in Hf. injection Hf as -> Hb.
        exists [], l. repeat split; [exact Hb|exact Hy].
      * cbn [app] in Hf. injection Hf as -> Ha.
        destruct (IH _ _ _ Ha) as (pre & post & -> & Hp & Hq & Hx).
        exists (a0 :: pre), post. repeat split; try assumption.
        cbn [List.filter]. rewrite Hy, Hp. reflexivity.
    + destruct (IH _ _ _ Hf) as (pre & post & -> & Hp & Hq & Hx).
      exists (y :: pre), post. repeat split; try assumption.
      cbn [List.filter]. rewrite Hy. exact Hp.
Qed.

Lemma head_map {A B} (g : A -> B) (l : list A) :
  head (map g l) = option_map g (head l).
Proof. destruct l; reflexivity. Qed.

Lemma map_snd_split (keys : list (list Z * UpdatePackage))
      (kp : list Z * UpdatePackage) (kpre kpost : list (list Z * UpdatePackage)) :
  keys = kpre ++ kp :: kpost ->
  map snd keys = map snd kpre ++ snd kp :: map snd kpost.
Proof. intros ->. rewrite map_app. reflexivity. Qed.

(** What [check_update_available] returns when it returns. *)
Lemma check_update_available_returns (um : UpdateManager) (build : string)
      (r : option UpdatePackage) :
  check_update_available py um build = ok r ->
  match r with
  | None => forall p, In p (values um) -> ~ applicable py build p
  | Some p =>
    exists pre post,
      values um = pre ++ p :: post
      /\ applicable py build p
      /\ (forall q, In q pre -> applicable py build q -> key_lt py q p)
      /\ (forall q, In q post -> applicable py build q ->
                    exists kp kq,
                      spec_key py p = ok kp /\ spec_key py q = ok kq
                      /\ tuple_compare kp kq <> Lt)
  end.
Proof.
  unfold check_update_available.
  destruct (packages um) as [|pk pks] eqn:Hpk.
  { intros [= <-]. unfold values. rewrite Hpk. intros p []. }
  rewrite parse_build_version_refines.
  destruct (version_spec py build) as [e|d] eqn:Hd; [discriminate|].
  cbn [Py.bind].
  destruct (candidates_of py d (values um)) as [e|cs] eqn:Hc; [discriminate|].
  cbn [Py.bind].
  destruct (candidates_of_filter d (values um) cs Hc) as [Hall Hcs].
  set (f := fun p => match is_candidate py d p with
                     | inr true => true
                     | _ => false
                     end) in Hcs.
  assert (Hf : forall p, f p = true <-> applicable py build p).
  { intros p. rewrite <- (is_candidate_applicable build d p Hd).
    unfold f, ok. destruct (is_candidate py d p) as [e|[|]];
      split; congruence. }
  destruct cs as [|c cs'].
  - intros [= <-]. intros p Hp Happ. apply Hf in Happ.
    assert (Hin : In p (List.filter f (values um))).
    { apply filter_In. split; assumption. }
    rewrite <- Hcs in Hin. destruct Hin.
  - set (cs := c :: cs') in *.
    destruct (traverse (keyed py) cs) as [e|keys] eqn:Hk; [discriminate|].
    cbn [Py.bind]. intros [= <-].
    destruct (traverse_keyed cs keys Hk) as [Hm Hkeys].
    pose proof (head_sort_desc keys) as Hs.
    rewrite head_map.
    destruct (head (sort_desc keys)) as [kp|] eqn:Eh;
      [|subst keys; discriminate Hm].
    destruct Hs as (kpre & kpost & Hsplit & Hlt & Hge). cbn [option_map].
    pose proof (map_snd_split keys kp kpre kpost Hsplit) as Hsnd.
    rewrite Hm, Hcs in Hsnd.
    destruct (filter_split f _ _ _ _ Hsnd)
      as (pre & post & Hv & Hfpre & Hfpost & Hp).
    assert (Hkey : forall kq, In kq keys ->
                              spec_key py (snd kq) = ok (fst kq)).
    { intros kq Hq. rewrite List.Forall_forall in Hkeys.
      specialize (Hkeys kq Hq). unfold sort_key in Hkeys.
      rewrite parse_build_version_refines in Hkeys. exact Hkeys. }
    assert (Hkp : In kp keys).
    { rewrite Hsplit. apply in_or_app. right. left. reflexivity. }
    exists pre, post. split; [exact Hv|].
    split; [apply Hf; exact Hp|]. split.
    + intros q Hq Happ.
      assert (Hin : In q (List.filter f pre)).
      { apply filter_In. split; [exact Hq|apply Hf; exact Happ]. }
      rewrite Hfpre in Hin. apply in_map_iff in Hin as (kq & <- & Hkq).
      exists (fst kq), (fst kp). split; [|split].
      * apply Hkey. rewrite Hsplit. apply in_or_app. left. exact Hkq.
      * apply Hkey. exact Hkp.
      * apply Hlt. exact Hkq.
    + intros q Hq Happ.
      assert (Hin : In q (List.filter f post)).
      { apply filter_In. split; [exact Hq|apply Hf; exact Happ]. }
      rewrite Hfpost in Hin. apply in_map_iff in Hin as (kq & <- & Hkq).
      exists (fst kp), (fst kq). split; [|split].
      * apply Hkey. exact Hkp.
      * apply Hkey. rewrite Hsplit. apply in_or_app. right. right. exact Hkq.
      * apply Hge. exact Hkq.
Qed.

(** [check_update_available] raises what a conversion of a build string
    raises. *)
Lemma is_candidate_raises (d : list Z) (p : UpdatePackage) (e : PyError) :
  is_candidate py d p = raise e ->
  version_spec py (min_version p) = raise e
  \/ version_spec py (target_build p) = raise e.
Proof.
  unfold is_candidate. rewrite !parse_build_version_refines.
  destruct (truthy (min_version p)).
  - destruct (version_spec py (min_version p)) as [e'|m]; cbn [Py.bind].
    { intros [= <-]. left. reflexivity. }
    destruct (tuple_ltb d m); [discriminate|].
    destruct (truthy (target_build p)); [|discriminate].
    destruct (version_spec py (target_build p)) as [e'|t]; cbn [Py.bind];
      [|discriminate].
    intros [= <-]. right. reflexivity.
  - cbn [Py.bind].
    destruct (truthy (target_build p)); [|discriminate].
    destruct (version_spec py (target_build p)) as [e'|t]; cbn [Py.bind];
      [|discriminate].
    intros [= <-]. right. reflexivity.
Qed.

Lemma candidates_of_raises (d : list Z) (pkgs : list UpdatePackage)
      (e : PyError) :
  candidates_of py d pkgs = raise e ->
  exists p, In p pkgs
            /\ (version_spec py (min_version p) = raise e
                \/ version_spec py (target_build p) = raise e).
Proof.
  induction pkgs as [|p r IH]; cbn [candidates_of]; [discriminate|].
  destruct (is_candidate py d p) as [e'|keep] eqn:E; cbn [Py.bind].
  - intros [= <-]. exists p. split; [left; reflexivity|].
    apply (is_candidate_raises d p e' E).
  - destruct (candidates_of py d r) as [e'|rest]; cbn [Py.bind];
      [|discriminate].
    intros [= <-]. destruct (IH eq_refl) as (q & Hq & H).
    exists q. split; [right; exact Hq|exact H].
Qed.

Lemma candidates_of_sublist (d : list Z) (pkgs : list UpdatePackage) :
  forall cs, candidates_of py d pkgs = ok cs ->
             forall p, In p cs -> In p pkgs.
Proof.
  intros cs H p Hp. destruct (candidates_of_filter d pkgs cs H) as [_ ->].
  apply filter_In in Hp. apply Hp.
Qed.

Lemma traverse_keyed_raises (cs : list UpdatePackage) (e : PyError) :
  traverse (keyed py) cs = raise e ->
  exists p, In p cs /\ spec_key py p = raise e.
Proof.
  induction cs as [|p r IH]; cbn [traverse]; [discriminate|].
  unfold keyed at 1. unfold sort_key at 1.
  rewrite parse_build_version_refines. fold (spec_key py p).
  destruct (spec_key py p) as [e'|k] eqn:E; cbn [Py.bind].
  - intros [= <-]. exists p. split; [left; reflexivity|exact E].
  - destruct (traverse (keyed py) r) as [e'|ks]; [|discriminate].
    intros [= <-]. destruct (IH eq_refl) as (q & Hq & H).
    exists q. split; [right; exact Hq|exact H].
Qed.

Lemma check_update_available_raises (um : UpdateManager) (build : string)
      (e : PyError) :
  check_update_available py um build = raise e ->
  version_spec py build = raise e
  \/ exists p, In p (values um)
               /\ (version_spec py (min_version p) = raise e
                   \/ version_spec py (target_build p) = raise e
                   \/ spec_key py p = raise e).
Proof.
  unfold check_update_available.
  destruct (packages um) as [|pk pks]; [discriminate|].
  rewrite parse_build_version_refines.
  destruct (version_spec py build) as [e'|d]; cbn [Py.bind].
  { intros [= <-]. left. reflexivity. }
  destruct (candidates_of py d (values um)) as [e'|cs] eqn:Hc; cbn [Py.bind].
  { intros [= <-]. right.
    destruct (candidates_of_raises d (values um) e' Hc) as (p & Hp & H).
    exists p. split; [exact Hp|]. destruct H; [left|right; left]; assumption. }
  destruct cs as [|c cs']; [discriminate|].
  destruct (traverse (keyed py) (c :: cs')) as [e'|keys] eqn:Hk;
    cbn [Py.bind]; [|discriminate].
  intros [= <-]. right.
  destruct (traverse_keyed_raises _ _ Hk) as (p & Hp & H).
  exists p. split; [|right; right; exact H].
  eapply candidates_of_sublist; eassumption.
Qed.

(** With versions for the device build and the packages, the check
    returns. *)
Lemma spec_key_converts (p : UpdatePackage) :
  package_converts py p -> exists k, spec_key py p = ok k.
Proof.
  intros (_ & Ht & Hv). unfold spec_key.
  destruct (truthy (target_build p)); assumption.
Qed.

Lemma check_update_available_total (um : UpdateManager) (build : string) :
  converts py build ->
  Forall (package_converts py) (values um) ->
  exists r, check_update_available py um build = ok r.
Proof.
  intros Hb Hp.
  destruct (check_update_available py um build) as [e|r] eqn:E;
    [|exists r; reflexivity].
  exfalso. rewrite List.Forall_forall in Hp.
  destruct (check_update_available_raises um build e E)
    as [H|(p & Hin & H)].
  - destruct Hb as [v Hv]. rewrite Hv in H. discriminate.
  - destruct (Hp p Hin) as (Hm & Ht & Hv).
    destruct (spec_key_converts p (Hp p Hin)) as [k Hk].
    destruct Hm as [m Hm]. destruct Ht as [t Ht].
    unfold raise, ok in *. destruct H as [H|[H|H]]; congruence.
Qed.

End Catalog.





(** ** Device information *)

Section DeviceInformation.
Import SessionM.

Lemma update_info_selected (path value : string) (d : DeviceInfo) (f : Field) :
  get_field f (update_info path value d)
  = match selected_by_path path with
    | Some g => if Field_eqb f g then value else get_field f d
    | None => get_field f d
    end.
Proof.
  unfold update_info, selected_by_path.
  cbn [select code_table existsb negb orb andb].
  generalize (contains "devid" (lower path)) (contains "man" (lower path))
             (contains "command" (lower path)) (contains "mod" (lower path))
             (contains "fwv" (lower path)) (contains "fmv" (lower path))
             (contains "swv" (lower path)) (contains "hwv" (lower path))
             (contains "build" (lower path)) (contains "dmv" (lower path))
             (contains "lang" (lower path)).
  intros b1 b2 b3 b4 b5 b6 b7 b8 b9 b10 b11.
  destruct b1; [destruct f; reflexivity|].
  destruct b2, b3; try (destruct f; reflexivity);
    (destruct b4; [destruct f; reflexivity|];
     destruct b5; [destruct f; reflexivity|];
     destruct b6; [destruct f; reflexivity|];
     destruct b7; [destruct f; reflexivity|];
     destruct b8; [destruct f; reflexivity|];
     destruct b9; [destruct f; reflexivity|];
     destruct b10; [destruct f; reflexivity|];
     destruct b11; destruct f; reflexivity).
Qed.

End DeviceInformation.

(** C6, as the code has it.  [update_device_info] looks for the keys in
    the whole lower-cased path, in the order of its [elif] chain: devid,
    man (when the path does not contain command), mod, fwv or fmv, swv,
    hwv, build, dmv, lang.  The field of the first key found is set to
    the value and every other field, and the rest of the session, is
    unchanged; when no key is found nothing changes. *)
Theorem update_device_info_by_path
        (path value : string) (s : SessionM.Session) :
  let s' := SessionM.update_device_info path value s in
  (forall f,
      SessionM.get_field f (SessionM.device_info s')
      = match SessionM.selected_by_path path with
        | Some g => if SessionM.Field_eqb f g then value
                    else SessionM.get_field f (SessionM.device_info s)
        | None => SessionM.get_field f (SessionM.device_info s)
        end)
  /\ SessionM.set_device_info s' (SessionM.device_info s) = s.
Proof.
  cbv zeta. split.
  - intros f. apply update_info_selected.
  - destruct s. reflexivity.
Qed.

(** C6, as claimed, fails: for the path [./Management/Build] the final
    segment selects [current_build], but the code finds [man] in the
    whole path and sets [manufacturer]. *)
Lemma update_device_info_not_by_final_segment :
  SessionM.selected_by_final_segment "./Management/Build"
  = Some SessionM.F_current_build
  /\ SessionM.update_info "./Management/Build" "Nova-3.0.5-64"
                          SessionM.empty_device_info
     = SessionM.mkDeviceInfo "" "Nova-3.0.5-64" "" "" "" "" "" "" ""
  /\ ~ SessionM.the_claimed_selection.
Proof.
  split; [reflexivity|]. split; [reflexivity|].
  intros H.
  specialize (H "./Management/Build" "Nova-3.0.5-64"
                SessionM.empty_device_info SessionM.F_current_build).
  vm_compute in H. discriminate H.
Qed.

(** ** Authentication *)

Section Authentication.
Import Auth.

Lemma encode_app (a b : string) : encode (a +:+ b) = encode a ++ encode b.
Proof.
  unfold encode. induction a as [|c a IH]; [reflexivity|].
  simpl. f_equal. exact IH.
Qed.

Lemma compute_hmac_refines (u pw : string) (n b : bytes) :
  compute_hmac u pw n b = spec_mac u pw n b.
Proof.
  unfold compute_hmac, spec_mac. rewrite !encode_app. reflexivity.
Qed.

Lemma contains_nonempty (needle hay : string) :
  needle <> "" -> contains needle hay = true -> truthy hay = true.
Proof.
  intros Hn H. destruct hay; [|reflexivity].
  destruct needle; [congruence|]. discriminate H.
Qed.

End Authentication.

(** C3. [compute_hmac(username, password, nonce, body)] is
    [base64(HMAC-MD5(base64(md5(username:password)), nonce ++ ":" ++
    base64(md5(body))))], the five steps of the specification; it is a
    function of its four arguments, and [verify_client_auth] accepts the
    MAC computed with the configured password for the same user name,
    nonce and body. *)
Theorem compute_hmac_spec (u pw : string) (n b : bytes) :
  Auth.compute_hmac u pw n b = Auth.spec_mac u pw n b
  /\ Auth.compute_hmac u pw n b
     = Lib.b64encode
         (Lib.hmac_md5
            (encode (Lib.b64encode (Lib.md5 (encode (u +:+ ":" +:+ pw)))))
            (n ++ encode ":" ++ encode (Lib.b64encode (Lib.md5 b))))
  /\ forall self : Auth.HMACAuth,
      Auth.verify_client_auth
        self (Auth.compute_hmac u (Auth.password self) n b) u b (Some n)
      = true.
Proof.
  split; [apply compute_hmac_refines|]. split; [reflexivity|].
  intros self. unfold Auth.verify_client_auth.
  rewrite String.eqb_refl. reflexivity.
Qed.

(** C10. When the credential type contains [auth-MAC],
    [verify_from_cred] returns [(True, self.username)] whatever the
    credential data and the body are: the MAC of the [Cred] element is
    not looked at.  For a handler made with the defaults the user name is
    the configured one. *)
Theorem verify_from_cred_ignores_mac
        (b64decode : string -> Result bytes) (self : Auth.HMACAuth)
        (cred_type : string) :
  contains "auth-MAC" cred_type = true ->
  (forall (cred_data : string) (body : bytes),
      Auth.verify_from_cred b64decode self cred_data cred_type body
      = (true, Auth.username self))
  /\ (forall (cfg : Config.Settings) (cred_data : string) (body : bytes),
         Auth.verify_from_cred b64decode (Auth.new_auth cfg None None None None)
                               cred_data cred_type body
         = (true, Config.DEFAULT_USERNAME cfg)).
Proof.
  intros H.
  assert (Ht : truthy cred_type = true)
    by (eapply contains_nonempty; [|exact H]; discriminate).
  split; intros; unfold Auth.verify_from_cred; rewrite Ht, H; reflexivity.
Qed.

Lemma verify_from_cred_ignores_mac_witness :
  Auth.verify_from_cred (fun _ => raise BinasciiError)
    (Auth.mkAuth "guest" "guest" "server" "secret" None None)
    "bm90IGEgbWFj" "syncml:auth-MAC" (encode "<SyncML/>")
  = (true, "guest").
Proof.
  apply (verify_from_cred_ignores_mac
           (fun _ => raise BinasciiError)
           (Auth.mkAuth "guest" "guest" "server" "secret" None None)
           "syncml:auth-MAC").
  reflexivity.
Defined.

(** ** The WBXML decoder on the test vector *)

(** C8, as the code has it.  On the bytes [03 01 6A 00 00 2D 00 01] the
    decoder reads version 3, public identifier 1, character set 106 and
    an empty string table; it then takes [00 2D] and [00 01] as two
    [SWITCH_PAGE] tokens with their page bytes and finds no byte left for
    the tag: [read_byte] raises at position 8, whatever the bound on the
    loops is.  The bytes [03 01 6A 00 2D] decode to [<SyncML/>]. *)
Theorem decode_test_vector :
  Codec.decode_wbxml [0x03; 0x01; 0x6A; 0x00; 0x00; 0x2D; 0x00; 0x01]
  = raise (EndOfData 8)
  /\ (forall fuel : nat,
         Codec.decode_with
           (3 + fuel)
           (Codec.init_decoder [0x03; 0x01; 0x6A; 0x00; 0x00; 0x2D; 0x00; 0x01])
         = raise (EndOfData 8))
  /\ Codec.decode_wbxml [0x03; 0x01; 0x6A; 0x00; 0x2D]
     = ok (Some (new_element "SyncML"))
  /\ (forall fuel : nat,
         Codec.decode_with
           (1 + fuel) (Codec.init_decoder [0x03; 0x01; 0x6A; 0x00; 0x2D])
         = ok (Some (new_element "SyncML"))).
Proof.
  split; [reflexivity|]. split; [intros fuel; reflexivity|].
  split; [reflexivity|intros [|fuel]; reflexivity].
Qed.

(** C8, as claimed, fails: the decoder does not return [<SyncML/>] on
    the eight bytes, it raises. *)
Lemma decode_test_vector_raises :
  Codec.decode_wbxml [0x03; 0x01; 0x6A; 0x00; 0x00; 0x2D; 0x00; 0x01]
  <> ok (Some (new_element "SyncML")).
Proof. vm_compute. discriminate. Qed.

(** ** Command identifiers *)

(** C1, on the first two scenarios of the specification.  The handlers
    number the commands they build while the message is processed,
    starting at 1; [build_response] then resets the counter and numbers
    the statuses from 1 again.  The response to the client init message
    carries the identifiers 1, 2, 1: the [Get] repeats the identifier of
    the first [Status] instead of carrying 3.  The response to the device
    info reply carries 1, 2, 1, 2: [Replace] and [Exec] repeat the
    identifiers of the two statuses. *)
Theorem client_init_cmd_ids :
  (exists response : Element,
      snd Scenario.client_init_response = ok response
      /\ Builder.cmd_ids response = ["1"; "2"; "1"]
      /\ Builder.cmd_ids response <> Builder.one_to 3)
  /\ (exists response : Element,
         snd Scenario.device_info_reply_response = ok response
         /\ Builder.cmd_ids response = ["1"; "2"; "1"; "2"]
         /\ Builder.cmd_ids response <> Builder.one_to 4).
Proof.
  split; eexists; (split; [vm_compute; reflexivity|]);
    (split; [reflexivity|discriminate]).
Qed.

(** ** The two serialisations *)

Section Reparse.

Lemma Element_induction (P : Element -> Prop) :
  (forall t a x cs tl, Forall P cs -> P (mkElement t a x cs tl)) ->
  forall e, P e.
Proof.
  intros H. fix IH 1. intros [t a x cs tl]. apply H.
  induction cs as [|c r IHr]; constructor; [apply IH|exact IHr].
Qed.

Lemma qualified_tag_differs (uri t name : string) :
  (forall r, name <> String "{" r) ->
  String.eqb (ET.qualify (Some uri) t) name = false.
Proof.
  intros H. destruct name as [|c name]; [reflexivity|].
  unfold ET.qualify.
  change ("{" +:+ uri +:+ "}" +:+ t) with (String "{" (uri +:+ "}" +:+ t)).
  cbn [String.eqb].
  destruct (Ascii.eqb_spec "{"%char c) as [<-|Hne]; [|reflexivity].
  exfalso. eapply H. reflexivity.
Qed.

Lemma plain_parts (e : Element) :
  ET.plain e = true ->
  attrib e = [] /\ Forall (fun c => ET.plain c = true) (children e).
Proof.
  destruct e as [t a x cs tl]. cbn [ET.plain attrib children tag text tail].
  intros H. apply andb_prop in H as [H Hcs].
  apply andb_prop in H as [H _]. apply andb_prop in H as [H _].
  apply andb_prop in H as [Ha _].
  split; [destruct a; [reflexivity|discriminate]|].
  induction cs as [|c r IH]; [constructor|].
  apply andb_prop in Hcs as [Hc Hr]. constructor; [exact Hc|apply IH; exact Hr].
Qed.

Lemma reread_children (ns : option string) (e : Element) :
  ET.plain e = true ->
  tag (ET.reread_in ns e) = ET.qualify ns (tag e)
  /\ children (ET.reread_in ns e) = map (ET.reread_in ns) (children e).
Proof.
  intros H. destruct (plain_parts e H) as [Ha _].
  destruct e as [t a x cs tl]. cbn [attrib] in Ha. subst a.
  cbn [ET.reread_in tag children attrib List.find].
  split; [reflexivity|]. clear H.
  induction cs as [|c r IH]; [reflexivity|]. cbn [map]. rewrite <- IH.
  reflexivity.
Qed.

Lemma find_descendant_children (t : string) (e : Element) :
  ET.find_descendant t e
  = fold_right (fun c rest =>
                  if String.eqb (tag c) t then Some c
                  else match ET.find_descendant t c with
                       | Some d => Some d
                       | None => rest
                       end) None (children e).
Proof.
  destruct e as [tg a x cs tl]. cbn [ET.find_descendant children].
  induction cs as [|c r IH]; [reflexivity|].
  cbn [fold_right]. rewrite <- IH. reflexivity.
Qed.

Lemma reread_tag_differs (t uri : string) (e : Element) :
  (forall r, t <> String "{" r) -> ET.plain e = true ->
  String.eqb (tag (ET.reread_in (Some uri) e)) t = false.
Proof.
  intros Ht He.
  destruct (reread_children (Some uri) e He) as [-> _].
  apply qualified_tag_differs. exact Ht.
Qed.

Lemma find_descendant_reread (t uri : string) :
  (forall r, t <> String "{" r) ->
  forall e, ET.plain e = true ->
            ET.find_descendant t (ET.reread_in (Some uri) e) = None.
Proof.
  intros Ht. induction e as [tg a x cs tl IH] using Element_induction.
  intros He. rewrite find_descendant_children.
  destruct (reread_children (Some uri) _ He) as [_ ->].
  destruct (plain_parts _ He) as [_ Hcs]. cbn [children] in *. clear He.
  induction cs as [|c r IHr]; [reflexivity|].
  apply Forall_cons_iff in IH as [Hc Hr].
  apply Forall_cons_iff in Hcs as [Pc Pr]. cbn [map fold_right].
  rewrite (reread_tag_differs t uri c Ht Pc).
  rewrite (Hc Pc). apply IHr; assumption.
Qed.

Lemma parse_xml_of_namespaced (uri : string) (hdr body : Element) :
  truthy uri = true -> ET.plain hdr = true -> ET.plain body = true ->
  Parser.parse_xml_of
    (append_child (append_child (ET.set (new_element "SyncML") "xmlns" uri) hdr) body)
  = Parser.default_message.
Proof.
  intros Hu Hh Hb.
  unfold Parser.parse_xml_of, ET.fromstring_tostring, Parser._parse_syncml, Parser.find_part.
  set (root := append_child _ body).
  assert (H : forall t, (forall r, t <> String "{" r) ->
     ET.find_descendant t (ET.reread_in None root) = None /\ ET.find t (ET.reread_in None root) = None).
  { intros t Ht. rewrite find_descendant_children. unfold ET.find.
    cbn [ET.reread_in root append_child ET.set new_element attrib app List.find fst snd String.eqb Ascii.eqb Bool.eqb children tag].
    rewrite Hu. cbn [fold_right List.find].
    rewrite !reread_tag_differs by assumption.
    rewrite !find_descendant_reread by assumption.
    split; reflexivity. }
  destruct (H "SyncHdr") as [-> ->]; [discriminate|].
  destruct (H "SyncBody") as [-> ->]; [discriminate|].
  reflexivity.
Qed.

Lemma readable_response (root : Element) (uri : string) (hdr body : Element) :
  root = append_child (append_child (ET.set (new_element "SyncML") "xmlns" uri)
                                    hdr) body ->
  ET.readable root = true ->
  ET.plain hdr = true /\ ET.plain body = true.
Proof.
  intros -> H. unfold ET.readable in H.
  apply andb_prop in H as [_ H].
  cbn [append_child ET.set new_element children app forallb] in H.
  apply andb_prop in H as [Hh H]. apply andb_prop in H as [Hb _].
  split; assumption.
Qed.

End Reparse.

(** C5, on the code.  The builder declares the namespace
    [SYNCML:SYNCML1.2] on the root, so in the XML serialisation read back
    every tag is qualified with it and the parser, which looks for
    [SyncHdr] and [SyncBody] by their plain names, finds neither: for
    every response of the builder whose serialisation is read back
    (plain names, no attribute below the root, texts XML carries) the
    XML branch of [parse] returns the default message (empty header, no
    command, not final).  The response with the header status is such a
    tree; on it the WBXML branch, which has no namespace to resolve,
    returns the header and the status of the response, so the two parses
    differ. *)
Theorem builder_xml_parse_is_empty :
  (forall (b : Builder.SyncMLBuilder) (session_id msg_id target : string)
          (source : option string) (statuses : list Builder.StatusBuilder)
          (commands : list Element) (is_final : bool),
      ET.readable
        (fst (Builder.build_response b session_id msg_id target source
                                     statuses commands is_final)) = true ->
      Parser.parse_xml_of
        (fst (Builder.build_response b session_id msg_id target source
                                     statuses commands is_final))
      = Parser.default_message)
  /\ ET.readable Scenario.plain_response = true
  /\ Parser.parse_wbxml (Builder.to_wbxml Scenario.plain_response)
     = ok (Parser.mkMessage
             (Parser.mkHeader "1.2" "DM/1.2" "42" "1" "DEV-A" "SERVER-ID"
                              None None None ∅)
             [Parser.mkCommand "Status" "1" (Some "1") (Some "0")
                               (Some "SyncHdr") (Some "SERVER-ID")
                               (Some "DEV-A") (Some "212") [] ∅ false]
             true)
  /\ Parser.parse_wbxml (Builder.to_wbxml Scenario.plain_response)
     <> ok (Parser.parse_xml_of Scenario.plain_response).
Proof.
  split; [|split; [|split]].
  - intros b session_id msg_id target source statuses commands is_final.
    unfold Builder.build_response.
    destruct (Builder.build_statuses _ _ _) as [sync_body b1].
    cbn [fst]. intros H.
    destruct (readable_response _ _ _ _ eq_refl H) as [Hh Hb].
    apply parse_xml_of_namespaced; [reflexivity|exact Hh|exact Hb].
  - vm_compute. reflexivity.
  - vm_compute. reflexivity.
  - vm_compute. discriminate.
Qed.


(** ** The endpoint *)

Section Endpoint.
Import Parser Builder SessionM Server.

Variable py : Interpreter.
Variable cfg : Config.Settings.
Variable um : Update.UpdateManager.
Variable b64decode : string -> Result bytes.

Lemma update_items_authenticated (its : list SyncMLItem) (s : Session) :
  authenticated
    (fold_left (fun s item =>
                  update_device_info (or_else (i_source item) "")
                                     (or_else (i_data item) "") s) its s)
  = authenticated s.
Proof.
  revert s. induction its as [|it r IH]; intros s; [reflexivity|].
  cbn [fold_left]. rewrite IH. reflexivity.
Qed.

Lemma dispatch_command_authenticated (message : SyncMLMessage) (d d' : Dispatch)
      (cmd : SyncMLCommand) :
  dispatch_command py cfg um message d cmd = ok d' ->
  authenticated (d_session d') = authenticated (d_session d).
Proof.
  unfold dispatch_command.
  destruct (String.eqb (name cmd) "Alert").
  { unfold handle_alert.
    destruct (data_code py (data cmd)) as [e|z]; [discriminate|].
    cbn [Py.bind]. destruct (z =? Config.ALERT_CLIENT_INITIATED).
    - destruct (build_get _ _) as [g b]. cbn [Py.bind]. intros [= <-]. reflexivity.
    - cbn [Py.bind]. intros [= <-]. reflexivity. }
  destruct (String.eqb (name cmd) "Status").
  { unfold handle_status.
    destruct (data_code py (data cmd)) as [e|z]; [discriminate|].
    cbn [Py.bind]. intros [= <-]. reflexivity. }
  destruct (String.eqb (name cmd) "Results").
  { unfold handle_results. intros [= <-]. cbn [d_session].
    match goal with |- authenticated (match ?x with _ => _ end) = _ =>
      destruct x end; cbn [set_state authenticated];
      apply update_items_authenticated. }
  destruct (String.eqb (name cmd) "Replace"); [intros [= <-]; reflexivity|].
  destruct (String.eqb (name cmd) "Get").
  { destruct (handle_get _ _ _ _ _ _ _) as [e|[[st res] b]]; [discriminate|].
    cbn [Py.bind]. intros [= <-]. reflexivity. }
  intros [= <-]. reflexivity.
Qed.

Lemma dispatch_commands_authenticated (message : SyncMLMessage)
      (cmds : list SyncMLCommand) :
  forall d,
    authenticated
      (d_session (fst (dispatch_commands py cfg um message d cmds)))
    = authenticated (d_session d).
Proof.
  induction cmds as [|cmd r IH]; intros d; [reflexivity|].
  cbn [dispatch_commands].
  destruct (dispatch_command py cfg um message d cmd) as [e|d'] eqn:E;
    [reflexivity|].
  rewrite IH. eapply dispatch_command_authenticated. exact E.
Qed.

(** *** The conversions of the update check *)

Lemma converts_empty : Update.converts py "".
Proof. exists [0; 0; 0; 0]. reflexivity. Qed.

Lemma update_device_info_builds (path value : string) (s : Session) :
  Update.converts py value -> builds_convert py s ->
  builds_convert py (update_device_info path value s).
Proof.
  intros Hv [Hb Hs]. unfold builds_convert, update_device_info, update_info.
  cbn [device_info set_device_info].
  repeat match goal with
         | |- context [if ?c then _ else _] => destruct c
         end; cbn [current_build software_version]; split; assumption.
Qed.

Lemma update_items_builds (its : list SyncMLItem) :
  Forall (fun i => Update.converts py (or_else (i_data i) "")) its ->
  forall s,
    builds_convert py s ->
    builds_convert py
      (fold_left (fun s item =>
                    update_device_info (or_else (i_source item) "")
                                       (or_else (i_data item) "") s) its s).
Proof.
  induction 1 as [|it r Hi _ IH]; intros s Hs; [exact Hs|].
  cbn [fold_left]. apply IH. apply update_device_info_builds; assumption.
Qed.

Lemma check_converts (build : string) :
  catalog_converts py um -> Update.converts py build ->
  exists r, Update.check_update_available py um build = ok r.
Proof.
  intros Hc Hb. apply check_update_available_total; [exact Hb|].
  eapply List.Forall_impl; [|exact Hc]. intros p [H _]. exact H.
Qed.

Lemma get_value_converts (s : Session) (target : string) :
  catalog_converts py um -> builds_convert py s ->
  exists v, get_value py cfg um s target = ok v.
Proof.
  intros Hc [Hb _]. unfold get_value.
  destruct (contains "Build" target); [eexists; reflexivity|].
  destruct (contains "PkgURL" target); [|eexists; reflexivity].
  destruct (check_converts _ Hc Hb) as [r ->]. eexists. reflexivity.
Qed.

Lemma traverse_total {A B} (f : A -> Result B) (l : list A) :
  (forall x, exists y, f x = ok y) -> exists r, traverse f l = ok r.
Proof.
  intros H. induction l as [|x l [r IH]]; [eexists; reflexivity|].
  cbn [traverse]. destruct (H x) as [y ->]. rewrite IH.
  eexists. reflexivity.
Qed.

Lemma handle_get_converts (s : Session) (cmd : SyncMLCommand)
      (message : SyncMLMessage) (b : SyncMLBuilder) :
  catalog_converts py um -> builds_convert py s ->
  exists r, handle_get py cfg um s cmd message b = ok r.
Proof.
  intros Hc Hb. unfold handle_get.
  destruct (traverse_total (get_item py cfg um s) (items cmd)) as [r ->].
  { intros item. unfold get_item.
    destruct (get_value_converts s (or_else (i_target item) "") Hc Hb)
      as [v ->].
    eexists. reflexivity. }
  unfold Py.bind, Py.ok. cbv beta iota.
  destruct (omap id r); [eexists; reflexivity|].
  destruct (build_results _ _ _ _). eexists. reflexivity.
Qed.

Lemma dispatch_command_builds (message : SyncMLMessage) (d d' : Dispatch)
      (cmd : SyncMLCommand) :
  Forall (fun i => Update.converts py (or_else (i_data i) "")) (items cmd) ->
  builds_convert py (d_session d) ->
  dispatch_command py cfg um message d cmd = ok d' ->
  builds_convert py (d_session d').
Proof.
  intros Hi Hb. unfold dispatch_command.
  destruct (String.eqb (name cmd) "Alert").
  { unfold handle_alert.
    destruct (data_code py (data cmd)) as [e|z]; [discriminate|].
    cbn [Py.bind]. destruct (z =? Config.ALERT_CLIENT_INITIATED).
    - destruct (build_get _ _) as [g b]. cbn [Py.bind]. intros [= <-].
      exact Hb.
    - cbn [Py.bind]. intros [= <-]. exact Hb. }
  destruct (String.eqb (name cmd) "Status").
  { unfold handle_status.
    destruct (data_code py (data cmd)) as [e|z]; [discriminate|].
    cbn [Py.bind]. intros [= <-]. exact Hb. }
  destruct (String.eqb (name cmd) "Results").
  { unfold handle_results. intros [= <-]. cbn [d_session].
    pose proof (update_items_builds (items cmd) Hi (d_session d) Hb) as H.
    match goal with |- builds_convert py (match ?x with _ => _ end) =>
      destruct x end; exact H. }
  destruct (String.eqb (name cmd) "Replace"); [intros [= <-]; exact Hb|].
  destruct (String.eqb (name cmd) "Get").
  { destruct (handle_get _ _ _ _ _ _ _) as [e|[[st res] b]]; [discriminate|].
    cbn [Py.bind]. intros [= <-]. exact Hb. }
  intros [= <-]. exact Hb.
Qed.

Lemma dispatch_command_numeric (message : SyncMLMessage) (d : Dispatch)
      (cmd : SyncMLCommand) :
  (name cmd = "Alert" \/ name cmd = "Status" ->
   exists z, data_code py (data cmd) = ok z) ->
  catalog_converts py um -> builds_convert py (d_session d) ->
  exists d', dispatch_command py cfg um message d cmd = ok d'.
Proof.
  intros H Hc Hb. unfold dispatch_command.
  destruct (String.eqb_spec (name cmd) "Alert") as [Ha|_].
  { destruct (H (or_introl Ha)) as [z Hz]. unfold handle_alert. rewrite Hz.
    cbn [Py.bind Py.ok]. destruct (z =? Config.ALERT_CLIENT_INITIATED).
    - destruct (build_get _ _) as [g b]. eexists. reflexivity.
    - eexists. reflexivity. }
  destruct (String.eqb_spec (name cmd) "Status") as [Hs|_].
  { destruct (H (or_intror Hs)) as [z Hz]. unfold handle_status. rewrite Hz.
    cbn [Py.bind Py.ok]. eexists. reflexivity. }
  destruct (String.eqb (name cmd) "Results").
  { destruct (handle_results _ _ _) as [st s]. eexists. reflexivity. }
  destruct (String.eqb (name cmd) "Replace"); [eexists; reflexivity|].
  destruct (String.eqb (name cmd) "Get").
  { destruct (handle_get_converts (d_session d) cmd message (d_builder d)
                                  Hc Hb) as [[[st res] b] ->].
    eexists. reflexivity. }
  eexists. reflexivity.
Qed.

Lemma dispatch_commands_numeric (message : SyncMLMessage)
      (cmds : list SyncMLCommand) :
  Forall (fun c => name c = "Alert" \/ name c = "Status" ->
                   exists z, data_code py (data c) = ok z) cmds ->
  catalog_converts py um -> items_convert py cmds ->
  forall d,
    builds_convert py (d_session d) ->
    snd (dispatch_commands py cfg um message d cmds) = ok tt
    /\ builds_convert
         py (d_session (fst (dispatch_commands py cfg um message d cmds))).
Proof.
  intros Hn Hc Hi. unfold items_convert in Hi.
  induction Hn as [|cmd r Hcmd Hr IH]; intros d Hb;
    [split; [reflexivity|exact Hb]|].
  inversion Hi as [|? ? Hi1 Hi2]; subst.
  cbn [dispatch_commands].
  destruct (dispatch_command_numeric message d cmd Hcmd Hc Hb) as [d' E].
  rewrite E. apply (IH Hi2).
  eapply dispatch_command_builds; eassumption.
Qed.

Lemma check_and_send_update_converts (s : Session) (b : SyncMLBuilder) :
  catalog_converts py um -> builds_convert py s ->
  exists r, snd (check_and_send_update py cfg um s b) = ok r.
Proof.
  intros Hc [Hb Hs]. unfold check_and_send_update.
  destruct (negb _); [eexists; reflexivity|].
  match goal with
  | |- context [Update.check_update_available py um ?build] =>
    assert (Hbuild : Update.converts py build)
      by (destruct (truthy (current_build (device_info s))); assumption);
    destruct (check_converts build Hc Hbuild) as [r E]; rewrite E
  end.
  destruct r as [pkg|]; [|eexists; reflexivity].
  pose proof (check_update_available_returns py um _ _ E)
    as (pre & post & Hv & _).
  unfold catalog_converts in Hc. rewrite List.Forall_forall in Hc.
  destruct (Hc pkg) as [_ [t Ht]].
  { rewrite Hv. apply in_or_app. right. left. reflexivity. }
  unfold Py.ok. cbv beta iota. unfold Py.ok in Ht. rewrite Ht.
  destruct (build_replace _ _) as [rep b1].
  destruct (build_exec _ _ _) as [ex b2]. eexists. reflexivity.
Qed.

Lemma build_statuses_tag (statuses : list StatusBuilder) :
  forall (body : Element) (b : SyncMLBuilder),
    tag (fst (build_statuses statuses body b)) = tag body.
Proof.
  induction statuses as [|st r IH]; intros body b; [reflexivity|].
  cbn [build_statuses]. destruct (_build_status st b) as [e b'].
  rewrite IH. reflexivity.
Qed.

Lemma fold_append_child_tag (cs : list Element) :
  forall e, tag (fold_left append_child cs e) = tag e.
Proof.
  induction cs as [|c r IH]; intros e; [reflexivity|].
  cbn [fold_left]. rewrite IH. reflexivity.
Qed.

Lemma build_response_full (b : SyncMLBuilder) (sid mid tgt : string)
      (src : option string) (statuses : list StatusBuilder)
      (commands : list Element) :
  full_session_response
    (fst (build_response b sid mid tgt src statuses commands true)).
Proof.
  unfold build_response.
  pose proof (build_statuses_tag statuses (new_element "SyncBody")
                                 (reset_cmd_id b)) as Ht.
  destruct (build_statuses _ _ _) as [sync_body b1].
  cbn [fst] in Ht |- *. unfold full_session_response.
  split; [reflexivity|]. split; [eexists; reflexivity|].
  exists (ET.SubElement (fold_left append_child commands sync_body) "Final").
  split.
  - unfold ET.find.
    cbn [children append_child ET.set new_element app List.find tag
         _build_header add_loc_uri ET.SubElement_text ET.SubElement].
    rewrite fold_append_child_tag, Ht. reflexivity.
  - exists (new_element "Final"). split; [|reflexivity].
    cbn [ET.SubElement append_child children]. apply last_snoc.
Qed.

Lemma authenticate_sets (hmac_header : string) (body : bytes)
      (message : SyncMLMessage) (session : Session) :
  authenticated (authenticate py cfg hmac_header body message session) = true.
Proof.
  unfold authenticate. destruct (authenticated session) eqn:E; [exact E|].
  destruct (truthy hmac_header); [|reflexivity].
  destruct (String.eqb _ _); reflexivity.
Qed.

Lemma authenticate_device_info (hmac_header : string) (body : bytes)
      (message : SyncMLMessage) (session : Session) :
  device_info (authenticate py cfg hmac_header body message
                            (take_client_nonce b64decode message session))
  = device_info session.
Proof.
  unfold authenticate, take_client_nonce.
  destruct (meta (header message) !! "NextNonce") as [n|];
    [destruct (truthy n); [destruct (b64decode n)|]|];
    cbn [authenticated set_client_nonce];
    (destruct (authenticated session); [reflexivity|]);
    (destruct (truthy hmac_header); [destruct (String.eqb _ _)|]);
    reflexivity.
Qed.

Lemma check_and_send_update_authenticated (s : Session) (b : SyncMLBuilder) :
  authenticated (fst (check_and_send_update py cfg um s b)) = authenticated s.
Proof.
  unfold check_and_send_update.
  destruct (negb _); [reflexivity|].
  destruct (Update.check_update_available _ _ _) as [e|[pkg|]];
    [reflexivity| |reflexivity].
  destruct (str_of_int _ _); [reflexivity|].
  destruct (build_replace _ _) as [rep b2].
  destruct (build_exec _ _ _) as [ex b3]. reflexivity.
Qed.

Lemma process_dm_message_authenticated (now : Z) (session : Session)
      (message : SyncMLMessage) (raw_body : bytes) :
  authenticated
    (fst (process_dm_message py cfg um now session message raw_body))
  = authenticated session.
Proof.
  unfold process_dm_message. cbn [SessionM.next_msg_id].
  match goal with
  | |- context [dispatch_commands py cfg um message ?d ?c] =>
    pose proof (dispatch_commands_authenticated message c d) as Ha;
      destruct (dispatch_commands py cfg um message d c) as [d' [e|[]]]
  end; cbn [fst d_session authenticated] in Ha |- *; [exact Ha|].
  match goal with
  | |- context [if ?c then _ else _] => destruct c
  end.
  - pose proof (check_and_send_update_authenticated
                  (d_session d') (d_builder d')) as Hu.
    destruct (check_and_send_update _ _ _ _ _) as [s2 [e|[uc b2]]];
      cbn [fst] in Hu |- *; [congruence|].
    destruct (build_response _ _ _ _ _ _ _ _). cbn [fst]. congruence.
  - unfold Py.ok. cbv beta iota.
    destruct (build_response _ _ _ _ _ _ _ _). exact Ha.
Qed.

Lemma process_dm_message_numeric (now : Z) (session : Session)
      (message : SyncMLMessage) (raw_body : bytes) :
  numeric_codes py message ->
  versions_convert py um session message ->
  exists response,
    snd (process_dm_message py cfg um now session message raw_body)
    = ok response
    /\ full_session_response response.
Proof.
  intros Hn (Hc & Hb & Hi). unfold process_dm_message.
  cbn [SessionM.next_msg_id].
  match goal with
  | |- context [dispatch_commands py cfg um message ?d ?c] =>
    destruct (dispatch_commands_numeric message c Hn Hc Hi d) as [Hd Hb'];
      [exact Hb|];
      destruct (dispatch_commands py cfg um message d c) as [d' [e|[]]]
  end; [discriminate Hd|]. cbn [fst] in Hb'.
  match goal with
  | |- context [if ?c then check_and_send_update py cfg um ?a ?b else ?e] =>
    assert (Hu : exists r,
               snd (if c then check_and_send_update py cfg um a b else e)
               = ok r)
      by (destruct c;
          [apply check_and_send_update_converts; assumption
          |eexists; reflexivity]);
    destruct (if c then check_and_send_update py cfg um a b else e)
      as [s' upd]
  end.
  destruct Hu as [[uc b'] Hu]. cbn [snd] in Hu. subst upd.
  unfold Py.ok. cbv beta iota.
  match goal with
  | |- context [build_response ?b ?a1 ?a2 ?a3 ?a4 ?a5 ?a6 true] =>
    pose proof (build_response_full b a1 a2 a3 a4 a5 a6) as Hf;
      destruct (build_response b a1 a2 a3 a4 a5 a6 true) as [resp bb]
  end.
  exists resp. split; [reflexivity|exact Hf].
Qed.

End Endpoint.

(** C2, as the code has it.  In an unauthenticated session the
    authentication block sets [session.authenticated] whether the MAC of
    the [x-syncml-hmac] header matches, does not match, or no header is
    present, and nothing later clears it, also when a handler raises.
    When no conversion raises, that is when the [Data] of every [Alert]
    and [Status] of the message is a literal [int] accepts (or empty)
    and the build strings and sizes the update check converts are within
    the limit of the interpreter, the endpoint answers with a full
    session response: a [SyncML] document with [SyncHdr] and a
    [SyncBody] ending with [Final], serialised as the content type
    asks. *)
Theorem endpoint_tolerates_authentication
        (py : Interpreter) (cfg : Config.Settings)
        (um : Update.UpdateManager)
        (b64decode : string -> Result bytes) (now : Z)
        (content_type hmac_header : string) (body : bytes)
        (message : Parser.SyncMLMessage) (session : SessionM.Session) :
  SessionM.authenticated session = false ->
  let r := Server.oma_dm_endpoint py cfg um b64decode now content_type
                                  hmac_header body message session in
  SessionM.authenticated (fst r) = true
  /\ (Server.numeric_codes py message ->
      Server.versions_convert py um session message ->
      exists (response : Element) (resp : Server.Response),
        snd (Server.process_dm_message
               py cfg um now
               (Server.authenticate
                  py cfg hmac_header body message
                  (Server.take_client_nonce b64decode message session))
               message body)
        = ok response
        /\ Server.full_session_response response
        /\ snd r = Server.Http200 resp
        /\ Server.content resp
           = if contains "wbxml" content_type
             then Builder.to_wbxml response
             else encode (Builder.to_xml_string response)).
Proof.
  intros _. cbv zeta. unfold Server.oma_dm_endpoint.
  set (s1 := Server.authenticate py cfg hmac_header body message _).
  pose proof (authenticate_sets py cfg hmac_header body message
                (Server.take_client_nonce b64decode message session)) as Ha.
  fold s1 in Ha.
  pose proof (process_dm_message_authenticated py cfg um now s1 message body)
    as Hp.
  pose proof (process_dm_message_numeric py cfg um now s1 message body) as Hn.
  assert (Hv : Server.versions_convert py um session message ->
               Server.versions_convert py um s1 message).
  { intros (Hc & Hb & Hi). split; [exact Hc|]. split; [|exact Hi].
    unfold Server.builds_convert, s1.
    rewrite authenticate_device_info. exact Hb. }
  destruct (Server.process_dm_message py cfg um now s1 message body)
    as [s2 [e|response]]; cbn [fst snd] in Hp, Hn |- *.
  - split; [congruence|]. intros H H'.
    destruct (Hn H (Hv H')) as (r & Hr & _). discriminate Hr.
  - destruct (contains "wbxml" content_type); cbn [fst snd].
    + split; [congruence|]. intros H H'.
      destruct (Hn H (Hv H')) as (r & [= <-] & Hf).
      eexists _, _. repeat split; try reflexivity; apply Hf.
    + split; [congruence|]. intros H H'.
      destruct (Hn H (Hv H')) as (r & [= <-] & Hf).
      eexists _, _. repeat split; try reflexivity; apply Hf.
Qed.

Lemma endpoint_tolerates_authentication_witness :
  SessionM.authenticated
    (fst (Server.oma_dm_endpoint
            Scenario.interpreter Scenario.settings Scenario.empty_catalog
            Scenario.no_b64decode 0
            "application/vnd.syncml.dm+xml"
            "algorithm=MD5, username=guest, mac=AAAA"
            (encode "<SyncML/>") Scenario.client_init (Scenario.session_42 [])))
  = true
  /\ exists resp : Server.Response,
      snd (Server.oma_dm_endpoint
             Scenario.interpreter Scenario.settings Scenario.empty_catalog
             Scenario.no_b64decode 0
             "application/vnd.syncml.dm+xml"
             "algorithm=MD5, username=guest, mac=AAAA"
             (encode "<SyncML/>") Scenario.client_init
             (Scenario.session_42 []))
      = Server.Http200 resp.
Proof.
  destruct (endpoint_tolerates_authentication
              Scenario.interpreter Scenario.settings Scenario.empty_catalog
              Scenario.no_b64decode 0
              "application/vnd.syncml.dm+xml"
              "algorithm=MD5, username=guest, mac=AAAA"
              (encode "<SyncML/>") Scenario.client_init
              (Scenario.session_42 []) eq_refl) as [Ha Hr].
  split; [exact Ha|].
  destruct Hr as (response & resp & _ & _ & Hresp & _).
  - constructor; [|constructor]. intros _. exists 1201. reflexivity.
  - split; [constructor|]. split.
    + split; exists [0; 0; 0; 0]; reflexivity.
    + constructor; [constructor|constructor].
  - exists resp. exact Hresp.
Defined.

(** C2, as claimed, fails: a request whose [Alert] carries a [Data] that
    is not a number makes [int(cmd.data)] raise in [handle_alert]; the
    endpoint answers with the HTTP error 500 and no session response
    (the session has been marked authenticated all the same). *)
Lemma endpoint_rejects_malformed_alert :
  Server.oma_dm_endpoint
    Scenario.interpreter Scenario.settings Scenario.empty_catalog
    Scenario.no_b64decode 0
    "application/vnd.syncml.dm+xml" "" [] Scenario.malformed_alert
    (Scenario.session_42 [])
  = (SessionM.mkSession "42" "DEV-A" SessionM.INIT 1 0 0
                        SessionM.empty_device_info true "guest" [] [] ∅,
     Server.Http500 (InvalidLiteral "abc"))
  /\ ~ Server.the_claimed_tolerance.
Proof.
  split; [vm_compute; reflexivity|].
  intros H.
  destruct (H Scenario.interpreter Scenario.settings Scenario.empty_catalog
              Scenario.no_b64decode 0
              "application/vnd.syncml.dm+xml" "" [] Scenario.malformed_alert
              (Scenario.session_42 []) eq_refl) as (s' & r & E & _).
  vm_compute in E. discriminate E.
Qed.


(** ** MB-uint32 *)

Section MBUint32.
Import Codec.

Lemma group_low (d : Z) : 0 <= d < 128 -> Z.land d 0x7F = d.
Proof.
  intros H. change 0x7F with (Z.ones 7).
  rewrite Z.land_ones by lia. apply Z.mod_small. lia.
Qed.

Lemma group_high (d : Z) : 0 <= d < 128 -> Z.land d 0x80 = 0.
Proof.
  intros H. apply Z.bits_inj'. intros n Hn.
  rewrite Z.land_spec, Z.bits_0.
  destruct (Z.eq_dec n 7) as [->|Hne].
  - replace (Z.testbit d 7) with false; [reflexivity|].
    symmetry. apply Z.testbit_false; [lia|].
    rewrite Z.div_small by lia. reflexivity.
  - change 0x80 with (2 ^ 7). rewrite Z.pow2_bits_false by lia.
    apply andb_false_r.
Qed.

Lemma flagged_low (d : Z) : 0 <= d < 128 -> Z.land (Z.lor d 0x80) 0x7F = d.
Proof.
  intros H. rewrite Z.land_lor_distr_l, group_low by lia.
  change (Z.land 0x80 0x7F) with 0. apply Z.lor_0_r.
Qed.

Lemma flagged_high (d : Z) : 0 <= d < 128 -> Z.land (Z.lor d 0x80) 0x80 = 0x80.
Proof.
  intros H. rewrite Z.land_lor_distr_l, group_high by lia. reflexivity.
Qed.

Lemma mb_flag_cons (b : Z) (r : list Z) :
  mb_flag (b :: r)
  = (match r with [] => b | _ => Z.lor b 0x80 end) :: mb_flag r.
Proof.
  unfold mb_flag. rewrite imap_cons. f_equal.
  - destruct r; reflexivity.
  - apply imap_ext. intros i x Hi. apply lookup_lt_Some in Hi.
    cbn [compose length].
    destruct (Nat.ltb_spec (S i) (S (length r) - 1));
      destruct (Nat.ltb_spec i (length r - 1)); try reflexivity; lia.
Qed.

Lemma mb_flag_length (l : list Z) : length (mb_flag l) = length l.
Proof. apply length_imap. Qed.

Lemma read_byte_at (pre post tbl : bytes) (b pg : Z) :
  read_byte (mkDecoder (pre ++ b :: post) (length pre) tbl pg)
  = ok (b, mkDecoder (pre ++ b :: post) (S (length pre)) tbl pg).
Proof.
  unfold read_byte. cbn [data pos].
  rewrite list_lookup_middle by reflexivity. reflexivity.
Qed.

(** Reading back a flagged list of groups. *)
Lemma read_mb_loop_flagged (l : list Z) :
  l <> [] ->
  Forall (fun d => 0 <= d < 128) l ->
  forall (fuel : nat) (result : Z) (pre post tbl : bytes) (pg : Z),
    (length l <= fuel)%nat ->
    read_mb_loop fuel result
      (mkDecoder (pre ++ mb_flag l ++ post) (length pre) tbl pg)
    = ok (mb_value result l,
          mkDecoder (pre ++ mb_flag l ++ post) (length pre + length l) tbl pg).
Proof.
  induction l as [|d r IH]; [congruence|].
  intros _ Hall fuel result pre post tbl pg Hfuel.
  inversion Hall as [|? ? Hd Hr]; subst.
  destruct fuel as [|fuel]; [simpl in Hfuel; lia|].
  rewrite mb_flag_cons. cbn [read_mb_loop app].
  rewrite read_byte_at. cbn [Py.bind ok].
  destruct r as [|d' r'].
  - rewrite group_high, group_low by lia. cbn.
    unfold ok. do 3 f_equal. lia.
  - rewrite flagged_high, flagged_low by lia.
    change (0x80 =? 0) with false. cbn iota.
    pose proof (IH ltac:(congruence) Hr fuel (Z.lor (Z.shiftl result 7) d)
                   (pre ++ [Z.lor d 0x80]) post tbl pg) as IH'.
    rewrite length_app in IH'. cbn [length] in IH'.
    rewrite <- app_assoc in IH'. cbn [app] in IH'.
    replace (S (length pre)) with (length pre + 1)%nat by lia.
    rewrite IH' by (cbn [length] in Hfuel |- *; lia).
    unfold ok. do 3 f_equal. cbn [length]. lia.
Qed.

Lemma mb_step_split (v : Z) :
  Z.lor (Z.shiftl (Z.shiftr v 7) 7) (Z.land v 0x7F) = v.
Proof.
  change 0x7F with (Z.ones 7).
  rewrite <- Z.ldiff_ones_r by lia. apply Z.lor_ldiff_and.
Qed.

(** The groups [mb_split] produces denote the value split. *)
Lemma mb_split_value (fuel : nat) :
  forall (v : Z) (acc : list Z),
    0 <= v < 2 ^ (7 * Z.of_nat fuel) ->
    mb_value 0 (mb_split fuel v acc) = mb_value v acc.
Proof.
  induction fuel as [|fuel IH]; intros v acc Hv.
  - assert (v = 0) by (change (2 ^ (7 * Z.of_nat 0)) with 1 in Hv; lia).
    subst. reflexivity.
  - cbn [mb_split]. destruct (Z.ltb_spec 0 v) as [Hpos|Hz].
    + rewrite IH.
      * unfold mb_value. cbn [fold_left]. rewrite mb_step_split. reflexivity.
      * rewrite Z.shiftr_div_pow2 by lia. split.
        -- apply Z.div_pos; lia.
        -- apply Z.div_lt_upper_bound; [lia|].
           rewrite <- Z.pow_add_r by lia.
           replace (7 + 7 * Z.of_nat fuel) with (7 * Z.of_nat (S fuel)) by lia.
           lia.
    + assert (v = 0) by lia. subst. reflexivity.
Qed.

Lemma mb_split_groups (fuel : nat) :
  forall (v : Z) (acc : list Z),
    Forall (fun d => 0 <= d < 128) acc ->
    Forall (fun d => 0 <= d < 128) (mb_split fuel v acc).
Proof.
  induction fuel as [|fuel IH]; intros v acc Hacc; cbn [mb_split];
    destruct (0 <? v); try assumption.
  apply IH. constructor; [|assumption].
  change 0x7F with (Z.ones 7). rewrite Z.land_ones by lia.
  apply Z.mod_pos_bound. lia.
Qed.

Lemma mb_split_nonempty (fuel : nat) (v : Z) (acc : list Z) :
  acc <> [] -> mb_split fuel v acc <> [].
Proof.
  revert v acc. induction fuel as [|fuel IH]; intros v acc Hacc;
    cbn [mb_split]; destruct (0 <? v); try assumption.
  apply IH. congruence.
Qed.

Lemma mb_fuel_enough (v : Z) :
  0 < v -> v < 2 ^ (7 * Z.of_nat (S (Z.to_nat (Z.log2 v)))).
Proof.
  intros Hv. pose proof (Z.log2_nonneg v) as Hl.
  destruct (Z.log2_spec v Hv) as [_ Hup].
  eapply Z.lt_le_trans; [exact Hup|].
  apply Z.pow_le_mono_r; lia.
Qed.

(** More fuel than [mb_uint32_bytes] provides changes nothing: the loop
    has ended by then. *)
Lemma mb_split_fuel_irrelevant (fuel : nat) :
  forall (k : nat) (v : Z) (acc : list Z),
    0 <= v < 2 ^ (7 * Z.of_nat fuel) ->
    mb_split (fuel + k) v acc = mb_split fuel v acc.
Proof.
  induction fuel as [|fuel IH]; intros k v acc Hv.
  - assert (v = 0) by (change (2 ^ (7 * Z.of_nat 0)) with 1 in Hv; lia).
    subst. destruct k; reflexivity.
  - cbn [Nat.add mb_split]. destruct (Z.ltb_spec 0 v) as [Hpos|Hz];
      [|reflexivity].
    apply IH. rewrite Z.shiftr_div_pow2 by lia. split.
    + apply Z.div_pos; lia.
    + apply Z.div_lt_upper_bound; [lia|].
      rewrite <- Z.pow_add_r by lia.
      replace (7 + 7 * Z.of_nat fuel) with (7 * Z.of_nat (S fuel)) by lia.
      lia.
Qed.

Lemma mb_uint32_groups (v : Z) :
  0 <= v ->
  exists l : list Z,
    mb_uint32_bytes v = mb_flag l /\ l <> []
    /\ Forall (fun d => 0 <= d < 128) l /\ mb_value 0 l = v.
Proof.
  intros Hv. unfold mb_uint32_bytes.
  destruct (Z.eqb_spec v 0) as [->|Hne].
  - exists [0]. repeat split; try reflexivity; try congruence.
    constructor; [lia|constructor].
  - exists (mb_split (S (Z.to_nat (Z.log2 v))) v []).
    split; [reflexivity|]. split; [|split].
    + cbn [mb_split]. destruct (Z.ltb_spec 0 v); [|lia].
      apply mb_split_nonempty. congruence.
    + apply mb_split_groups. constructor.
    + rewrite mb_split_value; [reflexivity|].
      split; [lia|]. apply mb_fuel_enough. lia.
Qed.

Lemma mb_flag_lookup (l : list Z) (i : nat) (b : Z) :
  Forall (fun d => 0 <= d < 128) l ->
  mb_flag l !! i = Some b ->
  0 <= b < 256
  /\ Z.land b 0x80 = (if (S i <? length l)%nat then 0x80 else 0)
  /\ l !! i = Some (Z.land b 0x7F).
Proof.
  intros Hall Hb. unfold mb_flag in Hb.
  apply list_lookup_imap_Some in Hb as (d & Hd & ->).
  pose proof (proj1 (Forall_lookup _ l) Hall i d Hd) as Hr. cbn beta in Hr.
  apply lookup_lt_Some in Hd as Hlt.
  destruct (Nat.ltb_spec i (length l - 1));
    destruct (Nat.ltb_spec (S i) (length l)); try lia.
  - rewrite flagged_high, flagged_low by lia. repeat split; try assumption.
    + pose proof (Z.lor_nonneg d 0x80). lia.
    + rewrite <- Z.add_nocarry_lor by (apply group_high; lia). lia.
  - rewrite group_high, group_low by lia. repeat split; try assumption; lia.
Qed.

End MBUint32.

(** C9. For every [v] in [[0, 2^28)], [read_mb_uint32] run on the bytes
    [write_mb_uint32(v)] emits (wherever they sit in the input) returns
    [v] and leaves the cursor just behind them.  The emitted bytes carry
    seven bits each, most significant group first, with bit 7 set on all
    but the last byte; the value 0 is the single byte 0x00. *)
Theorem mb_uint32_roundtrip (v : Z) (pre post tbl : bytes) (pg : Z) :
  0 <= v < 2 ^ 28 ->
  let enc := Codec.mb_uint32_bytes v in
  Codec.read_mb_uint32
    (Codec.mkDecoder (pre ++ enc ++ post) (length pre) tbl pg)
  = ok (v, Codec.mkDecoder (pre ++ enc ++ post)
                           (length pre + length enc) tbl pg)
  /\ Codec.output (Codec.write_mb_uint32 v Codec.init_encoder) = enc
  /\ Codec.mb_uint32_bytes 0 = [0]
  /\ Codec.mb_value 0 (map (fun b => Z.land b 0x7F) enc) = v
  /\ forall (i : nat) (b : Z),
       enc !! i = Some b ->
       0 <= b < 256
       /\ Z.land b 0x80 = (if (S i <? length enc)%nat then 0x80 else 0).
Proof.
  intros Hv enc.
  destruct (mb_uint32_groups v ltac:(lia)) as (l & Henc & Hne & Hall & Hval).
  fold enc in Henc.
  split; [|split; [reflexivity|split; [reflexivity|split]]].
  - unfold Codec.read_mb_uint32. cbn [Codec.data Codec.pos].
    rewrite Henc, read_mb_loop_flagged; try assumption.
    + rewrite Hval, mb_flag_length. reflexivity.
    + rewrite !length_app, mb_flag_length. lia.
  - transitivity (Codec.mb_value 0 l); [|exact Hval]. f_equal. rewrite Henc.
    apply list_eq. intros i. rewrite list_lookup_fmap.
    destruct (Codec.mb_flag l !! i) as [b|] eqn:Hb.
    + apply mb_flag_lookup in Hb as (_ & _ & ->); [reflexivity|assumption].
    + symmetry. apply lookup_ge_None.
      apply lookup_ge_None in Hb. rewrite mb_flag_length in Hb. exact Hb.
  - intros i b Hb. rewrite Henc in Hb |- *. rewrite mb_flag_length.
    apply mb_flag_lookup in Hb as (? & ? & _); [split|]; assumption.
Qed.


Lemma mb_uint32_roundtrip_witness :
  Codec.read_mb_uint32
    (Codec.mkDecoder ([0x03] ++ Codec.mb_uint32_bytes 0x1201 ++ [0x6A; 0x00])
                     1 [] 0)
  = ok (0x1201,
        Codec.mkDecoder ([0x03] ++ Codec.mb_uint32_bytes 0x1201 ++ [0x6A; 0x00])
                        (1 + length (Codec.mb_uint32_bytes 0x1201)) [] 0).
Proof.
  apply (mb_uint32_roundtrip 0x1201 [0x03] [0x6A; 0x00] [] 0). lia.
Defined.

(** * Further properties

    Properties of the code around the claims: the handlers of
    [process_dm_message], the builder and the parser together, the
    codec, the authentication helpers and the session manager. *)

(** ** The statuses of the handlers *)

Section Dispatch.
Import Parser Builder SessionM Server Reading.
Variable py : Interpreter.
Variable cfg : Config.Settings.
Variable um : Update.UpdateManager.

Lemma dispatch_command_statuses (message : SyncMLMessage) (d d' : Dispatch)
      (cmd : SyncMLCommand) :
  dispatch_command py cfg um message d cmd = ok d' ->
  d_statuses d'
  = d_statuses d
    ++ (if String.eqb (Parser.name cmd) "Status" then []
        else [ok_status message cmd (Parser.name cmd)]).
Proof.
  unfold dispatch_command.
  destruct (String.eqb_spec (name cmd) "Alert") as [Ha|_].
  { rewrite Ha. cbn [String.eqb Ascii.eqb Bool.eqb].
    unfold handle_alert. destruct (data_code py (data cmd)) as [e|z]; [discriminate|].
    cbn [Py.bind]. destruct (z =? Config.ALERT_CLIENT_INITIATED).
    - destruct (build_get _ _) as [g b]. cbn [Py.bind]. intros [= <-]. reflexivity.
    - cbn [Py.bind]. intros [= <-]. reflexivity. }
  destruct (String.eqb_spec (name cmd) "Status") as [Hs|_].
  { unfold handle_status. destruct (data_code py (data cmd)) as [e|z]; [discriminate|].
    cbn [Py.bind]. intros [= <-]. cbn [d_statuses]. rewrite app_nil_r. reflexivity. }
  destruct (String.eqb_spec (name cmd) "Results") as [Hr|_].
  { unfold handle_results. intros [= <-]. cbn [d_statuses]. rewrite Hr. reflexivity. }
  destruct (String.eqb_spec (name cmd) "Replace") as [Hr|_].
  { intros [= <-]. cbn [d_statuses]. unfold handle_replace. rewrite Hr. reflexivity. }
  destruct (String.eqb_spec (name cmd) "Get") as [Hg|_].
  { unfold handle_get.
    destruct (traverse _ (items cmd)) as [e|found]; [discriminate|].
    unfold Py.bind at 2. unfold Py.ok at 1. cbv beta iota.
    destruct (omap id found).
    - cbn [Py.bind Py.ok]. intros [= <-]. cbn [d_statuses].
      rewrite Hg. reflexivity.
    - destruct (build_results _ _ _ _) as [r b]. cbn [Py.bind Py.ok].
      intros [= <-]. cbn [d_statuses]. rewrite Hg. reflexivity. }
  intros [= <-]. reflexivity.
Qed.

Lemma dispatch_commands_statuses (message : SyncMLMessage)
      (cmds : list SyncMLCommand) :
  forall d d',
    dispatch_commands py cfg um message d cmds = (d', ok tt) ->
    d_statuses d'
    = d_statuses d
      ++ map (fun c => ok_status message c (Parser.name c))
             (List.filter (fun c => negb (String.eqb (Parser.name c) "Status"))
                          cmds).
Proof.
  induction cmds as [|cmd r IH]; intros d d' H.
  - cbn in H. injection H as <-. cbn. rewrite app_nil_r. reflexivity.
  - cbn [dispatch_commands] in H.
    destruct (dispatch_command py cfg um message d cmd) as [e|d1] eqn:E;
      [discriminate H|].
    rewrite (IH _ _ H), (dispatch_command_statuses _ _ _ _ E).
    cbn [List.filter]. destruct (String.eqb (name cmd) "Status"); cbn [negb].
    + rewrite app_nil_r. reflexivity.
    + rewrite <- app_assoc. reflexivity.
Qed.

End Dispatch.

(** ** The trees of the builder *)

Section BuilderFacts.
Import Parser Builder Reading.

Lemma children_fold_append (cs : list Element) :
  forall e, children (fold_left append_child cs e) = children e ++ cs.
Proof.
  induction cs as [|c r IH]; intros e; cbn [fold_left].
  - rewrite app_nil_r. reflexivity.
  - rewrite IH. cbn [append_child children]. rewrite <- app_assoc. reflexivity.
Qed.

Lemma children_fold_map {A} (f : A -> Element) (l : list A) :
  forall e,
    children (fold_left (fun e x => append_child e (f x)) l e)
    = children e ++ map f l.
Proof.
  induction l as [|x r IH]; intros e; cbn [fold_left map].
  - rewrite app_nil_r. reflexivity.
  - rewrite IH. cbn [append_child children]. rewrite <- app_assoc. reflexivity.
Qed.

Lemma tag_fold_map {A} (f : A -> Element) (l : list A) :
  forall e, tag (fold_left (fun e x => append_child e (f x)) l e) = tag e.
Proof.
  induction l as [|x r IH]; intros e; cbn [fold_left]; [reflexivity|].
  rewrite IH. reflexivity.
Qed.

Lemma children_add_text_if (e : Element) (t : string) (s : option string) :
  children (add_text_if e t s)
  = children e ++ (if otruthy s then [text_element t (default "" s)] else []).
Proof.
  unfold add_text_if. destruct s as [u|]; cbn [otruthy].
  - destruct (truthy u); cbn; [reflexivity|rewrite app_nil_r; reflexivity].
  - rewrite app_nil_r. reflexivity.
Qed.

Lemma tag_add_text_if (e : Element) (t : string) (s : option string) :
  tag (add_text_if e t s) = tag e.
Proof.
  unfold add_text_if. destruct s as [u|]; [destruct (truthy u)|]; reflexivity.
Qed.

(** The children of a built status. *)
Lemma build_status_children (st : StatusBuilder) (b : SyncMLBuilder) :
  children (fst (_build_status st b))
  = [ text_element "CmdID" (Py.str (cmd_id_counter b + 1));
      text_element "MsgRef" (sb_msg_ref st);
      text_element "CmdRef" (sb_cmd_ref st);
      text_element "Cmd" (sb_cmd st);
      text_element "Data" (Py.str (sb_data st)) ]
    ++ (if otruthy (sb_target_ref st)
        then [text_element "TargetRef" (default "" (sb_target_ref st))] else [])
    ++ (if otruthy (sb_source_ref st)
        then [text_element "SourceRef" (default "" (sb_source_ref st))] else [])
    ++ map status_item (sb_items st).
Proof.
  unfold _build_status, next_cmd_id. cbn [fst].
  rewrite children_fold_map, !children_add_text_if.
  cbn [ET.SubElement_text append_child children new_element app].
  rewrite <- !app_assoc. reflexivity.
Qed.

Lemma build_status_tag (st : StatusBuilder) (b : SyncMLBuilder) :
  tag (fst (_build_status st b)) = "Status".
Proof.
  unfold _build_status, next_cmd_id. cbn [fst].
  rewrite tag_fold_map, !tag_add_text_if. reflexivity.
Qed.

Lemma build_status_counter (st : StatusBuilder) (b : SyncMLBuilder) :
  snd (_build_status st b) = mkBuilder (server_id b) (cmd_id_counter b + 1).
Proof. reflexivity. Qed.

Lemma build_status_own_id (st : StatusBuilder) (b : SyncMLBuilder) :
  own_cmd_id (fst (_build_status st b)) = Some (Py.str (cmd_id_counter b + 1)).
Proof.
  unfold own_cmd_id, ET.find. rewrite build_status_children. reflexivity.
Qed.

Lemma build_statuses_children (statuses : list StatusBuilder) :
  forall (body : Element) (b : SyncMLBuilder),
    children (fst (build_statuses statuses body b))
    = children body ++ status_elements statuses b
    /\ tag (fst (build_statuses statuses body b)) = tag body
    /\ snd (build_statuses statuses body b)
       = mkBuilder (server_id b)
                   (cmd_id_counter b + Z.of_nat (length statuses)).
Proof.
  induction statuses as [|st r IH]; intros body b.
  - cbn. rewrite app_nil_r, Z.add_0_r. destruct b. repeat split.
  - cbn [build_statuses status_elements].
    pose proof (build_status_counter st b) as Hb.
    destruct (_build_status st b) as [e b'] eqn:E. cbn [snd] in Hb. subst b'.
    destruct (IH (append_child body e)
                 (mkBuilder (server_id b) (cmd_id_counter b + 1)))
      as (Hc & Ht & Hs).
    rewrite Hc, Ht, Hs. cbn [append_child children tag server_id cmd_id_counter length].
    rewrite <- app_assoc. repeat split. f_equal. lia.
Qed.

Lemma status_elements_ids (statuses : list StatusBuilder) :
  forall b : SyncMLBuilder,
    omap own_cmd_id (status_elements statuses b)
    = ids_from (cmd_id_counter b) (length statuses).
Proof.
  induction statuses as [|st r IH]; intros b; [reflexivity|].
  cbn [status_elements].
  pose proof (build_status_own_id st b) as Ho.
  pose proof (build_status_counter st b) as Hb.
  destruct (_build_status st b) as [e b'] eqn:E. cbn [fst snd] in Ho, Hb. subst b'.
  cbn [omap list_omap]. rewrite Ho. rewrite IH.
  unfold ids_from. cbn [length seq map cmd_id_counter].
  f_equal.
  rewrite <- (seq_shift (length r) 1), map_map. apply map_ext. intros i. f_equal. lia.
Qed.


Lemma ids_from_zero (n : nat) : ids_from 0 n = one_to n.
Proof. reflexivity. Qed.

Lemma ids_from_snoc (c : Z) (n : nat) :
  ids_from c (S n) = ids_from c n ++ [Py.str (c + Z.of_nat (S n))].
Proof.
  unfold ids_from. rewrite seq_S, map_app. reflexivity.
Qed.

(** A response: the root with its namespace, the header, and the body
    holding the statuses, the commands and [Final]. *)
Lemma build_response_tree
      (b : SyncMLBuilder) (sid mid tgt : string) (src : option string)
      (statuses : list StatusBuilder) (commands : list Element) (fin : bool) :
  exists body,
    fst (build_response b sid mid tgt src statuses commands fin)
    = mkElement "SyncML" [("xmlns", "SYNCML:SYNCML1.2")] None
                [_build_header (reset_cmd_id b) sid mid tgt src; body] None
    /\ tag body = "SyncBody"
    /\ children body
       = status_elements statuses (reset_cmd_id b) ++ commands
         ++ (if fin then [new_element "Final"] else []).
Proof.
  unfold build_response.
  destruct (build_statuses_children statuses (new_element "SyncBody")
                                    (reset_cmd_id b)) as (Hc & Ht & _).
  destruct (build_statuses _ _ _) as [sync_body b1]. cbn [fst] in *.
  destruct fin; eexists; (split; [reflexivity|split]).
  - cbn [tag append_child ET.SubElement].
    rewrite fold_append_child_tag, Ht. reflexivity.
  - cbn [ET.SubElement append_child children].
    rewrite children_fold_append, Hc. cbn [new_element children app].
    rewrite <- app_assoc. reflexivity.
  - rewrite fold_append_child_tag, Ht. reflexivity.
  - rewrite children_fold_append, Hc. cbn [new_element children app].
    rewrite app_nil_r. reflexivity.
Qed.

Lemma build_response_body
      (b : SyncMLBuilder) (sid mid tgt : string) (src : option string)
      (statuses : list StatusBuilder) (commands : list Element) (fin : bool) :
  exists body,
    ET.find "SyncBody" (fst (build_response b sid mid tgt src statuses
                                            commands fin))
    = Some body
    /\ tag body = "SyncBody"
    /\ children body
       = status_elements statuses (reset_cmd_id b) ++ commands
         ++ (if fin then [new_element "Final"] else []).
Proof.
  destruct (build_response_tree b sid mid tgt src statuses commands fin)
    as (body & -> & Ht & Hc).
  exists body. split; [|split; assumption].
  unfold ET.find. cbn [children List.find]. rewrite Ht. reflexivity.
Qed.

Lemma build_response_ids
      (b : SyncMLBuilder) (sid mid tgt : string) (src : option string)
      (statuses : list StatusBuilder) (commands : list Element) (fin : bool) :
  cmd_ids (fst (build_response b sid mid tgt src statuses commands fin))
  = one_to (length statuses) ++ omap own_cmd_id commands.
Proof.
  destruct (build_response_body b sid mid tgt src statuses commands fin)
    as (body & Hf & _ & Hc).
  unfold cmd_ids. rewrite Hf. fold own_cmd_id. rewrite Hc.
  rewrite !omap_app, status_elements_ids. cbn [reset_cmd_id cmd_id_counter].
  rewrite ids_from_zero. f_equal.
  destruct fin; cbn; rewrite app_nil_r; reflexivity.
Qed.

Lemma build_get_id (targets : list string) (b : SyncMLBuilder) :
  own_cmd_id (fst (build_get targets b)) = Some (Py.str (cmd_id_counter b + 1))
  /\ snd (build_get targets b) = mkBuilder (server_id b) (cmd_id_counter b + 1).
Proof.
  unfold build_get, next_cmd_id. cbn [fst snd]. split; [|reflexivity].
  unfold own_cmd_id, ET.find. rewrite children_fold_map. reflexivity.
Qed.

Lemma build_replace_id (items : list ItemBuilder) (b : SyncMLBuilder) :
  own_cmd_id (fst (build_replace items b))
  = Some (Py.str (cmd_id_counter b + 1))
  /\ snd (build_replace items b)
     = mkBuilder (server_id b) (cmd_id_counter b + 1).
Proof.
  unfold build_replace, next_cmd_id. cbn [fst snd]. split; [|reflexivity].
  unfold own_cmd_id, ET.find. rewrite children_fold_map. reflexivity.
Qed.

Lemma build_results_id (m c : string) (items : list ItemBuilder)
      (b : SyncMLBuilder) :
  own_cmd_id (fst (build_results m c items b))
  = Some (Py.str (cmd_id_counter b + 1))
  /\ snd (build_results m c items b)
     = mkBuilder (server_id b) (cmd_id_counter b + 1).
Proof.
  unfold build_results, next_cmd_id. cbn [fst snd]. split; [|reflexivity].
  unfold own_cmd_id, ET.find. rewrite children_fold_map. reflexivity.
Qed.

Lemma build_exec_id (t : string) (d : option string) (b : SyncMLBuilder) :
  own_cmd_id (fst (build_exec t d b)) = Some (Py.str (cmd_id_counter b + 1))
  /\ snd (build_exec t d b) = mkBuilder (server_id b) (cmd_id_counter b + 1).
Proof. split; reflexivity. Qed.

End BuilderFacts.

(** ** What the handlers keep *)

Section HandlerInvariants.
Import Parser Builder SessionM Server Reading.
Variable py : Interpreter.
Variable cfg : Config.Settings.
Variable um : Update.UpdateManager.

Lemma same_identity_refl (s : Session) : same_identity s s.
Proof. repeat split. Qed.

Lemma same_identity_trans (s1 s2 s3 : Session) :
  same_identity s1 s2 -> same_identity s2 s3 -> same_identity s1 s3.
Proof.
  unfold same_identity. intros H1 H2.
  decompose [and] H1. decompose [and] H2. repeat split; congruence.
Qed.

Lemma reached_trans (a b c : SessionState) :
  reached a b -> reached b c -> reached a c.
Proof. unfold reached. intros H1 H2. intuition congruence. Qed.

Lemma update_items_identity (its : list SyncMLItem) (s : Session) :
  let s' := fold_left (fun s item =>
                         update_device_info (or_else (i_source item) "")
                                            (or_else (i_data item) "") s)
                      its s in
  same_identity s s' /\ state s' = state s.
Proof.
  cbv zeta. revert s. induction its as [|it r IH]; intros s.
  - split; [apply same_identity_refl|reflexivity].
  - cbn [fold_left]. destruct (IH (update_device_info (or_else (i_source it) "")
                                     (or_else (i_data it) "") s)) as [H1 H2].
    split; [|rewrite H2; reflexivity].
    eapply same_identity_trans; [|exact H1]. repeat split.
Qed.

Lemma numbered_snoc (b : SyncMLBuilder) (cs : list Element) (c : Element)
      (b' : SyncMLBuilder) :
  numbered b cs ->
  own_cmd_id c = Some (Py.str (cmd_id_counter b + 1)) ->
  b' = mkBuilder (server_id b) (cmd_id_counter b + 1) ->
  numbered b' (cs ++ [c]).
Proof.
  intros [Hm Hc] Ho ->. unfold numbered.
  rewrite length_app, map_app, Hm. cbn [length map cmd_id_counter].
  replace (length cs + 1)%nat with (S (length cs)) by lia.
  rewrite ids_from_snoc, map_app. cbn [map]. rewrite Ho, Hc.
  split; [|lia]. do 4 f_equal. lia.
Qed.

Lemma dispatch_command_invariants (message : SyncMLMessage) (d d' : Dispatch)
      (cmd : SyncMLCommand) :
  dispatch_command py cfg um message d cmd = ok d' ->
  same_identity (d_session d) (d_session d')
  /\ reached (state (d_session d)) (state (d_session d'))
  /\ (numbered (d_builder d) (d_commands d) ->
      numbered (d_builder d') (d_commands d'))
  /\ (Forall server_command (d_commands d) ->
      Forall server_command (d_commands d'))
  /\ server_id (d_builder d') = server_id (d_builder d).
Proof.
  unfold dispatch_command.
  destruct (String.eqb (name cmd) "Alert").
  { unfold handle_alert. destruct (data_code py (data cmd)) as [e|z]; [discriminate|].
    cbn [Py.bind]. destruct (z =? Config.ALERT_CLIENT_INITIATED).
    - pose proof (build_get_id
                    [ "./DevInfo/DevId"; "./DevInfo/Man"; "./DevInfo/Mod";
                      "./DevInfo/FwV"; "./DevInfo/SwV"; "./DevInfo/HwV";
                      "./Software/Build" ] (d_builder d)) as [Ho Hb].
      assert (Ht : tag (fst (build_get
                    [ "./DevInfo/DevId"; "./DevInfo/Man"; "./DevInfo/Mod";
                      "./DevInfo/FwV"; "./DevInfo/SwV"; "./DevInfo/HwV";
                      "./Software/Build" ] (d_builder d))) = "Get")
        by reflexivity.
      destruct (build_get _ _) as [g b]. cbn [fst snd] in Ho, Hb, Ht.
      cbn [Py.bind]. intros [= <-]. cbn [d_session d_builder d_commands].
      split; [repeat split|]. split; [right; left; reflexivity|].
      split; [intros Hn; eapply numbered_snoc; eassumption|].
      split; [|subst b; reflexivity].
      intros Hf. apply Forall_app. split; [exact Hf|].
      constructor; [left; exact Ht|constructor].
    - cbn [Py.bind]. intros [= <-]. cbn [d_session d_builder d_commands].
      rewrite app_nil_r.
      split; [repeat split|]. split; [left; reflexivity|]. tauto. }
  destruct (String.eqb (name cmd) "Status").
  { unfold handle_status. destruct (data_code py (data cmd)) as [e|z]; [discriminate|].
    cbn [Py.bind]. intros [= <-]. cbn [d_session d_builder d_commands].
    split; [repeat split|]. split; [left; reflexivity|]. tauto. }
  destruct (String.eqb (name cmd) "Results").
  { unfold handle_results. intros [= <-]. cbn [d_session d_builder d_commands].
    destruct (update_items_identity (items cmd) (d_session d)) as [Hi Hs].
    cbv zeta in Hi, Hs.
    match goal with |- context [match state ?x with _ => _ end] =>
      set (s1 := x) in * end.
    split; [|split; [|tauto]].
    - eapply same_identity_trans; [exact Hi|].
      destruct (state s1); repeat split.
    - rewrite <- Hs. destruct (state s1) eqn:E; cbn [set_state state];
        unfold reached; rewrite ?E; tauto. }
  destruct (String.eqb (name cmd) "Replace").
  { intros [= <-]. cbn [d_session d_builder d_commands].
    split; [repeat split|]. split; [left; reflexivity|]. tauto. }
  destruct (String.eqb (name cmd) "Get").
  { unfold handle_get.
    destruct (traverse _ (items cmd)) as [e|found]; [discriminate|].
    unfold Py.bind at 2. unfold Py.ok at 1. cbv beta iota.
    destruct (omap id found) as [|i0 il].
    - cbn [Py.bind Py.ok]. intros [= <-].
      cbn [d_session d_builder d_commands]. rewrite app_nil_r.
      split; [repeat split|]. split; [left; reflexivity|]. tauto.
    - match goal with |- context [build_results ?m ?c ?l ?b] =>
        pose proof (build_results_id m c l b) as [Ho Hb];
        assert (Ht : tag (fst (build_results m c l b)) = "Results")
          by (unfold build_results, next_cmd_id; cbn [fst];
              rewrite tag_fold_map; reflexivity);
        destruct (build_results m c l b) as [r b']
      end.
      cbn [fst snd] in Ho, Hb, Ht. cbn [Py.bind Py.ok].
      intros [= <-]. cbn [d_session d_builder d_commands].
      split; [repeat split|]. split; [left; reflexivity|].
      split; [intros Hn; eapply numbered_snoc; eassumption|].
      split; [|subst b'; reflexivity].
      intros Hf. apply Forall_app. split; [exact Hf|].
      constructor; [right; left; exact Ht|constructor]. }
  intros [= <-]. cbn [d_session d_builder d_commands].
  split; [repeat split|]. split; [left; reflexivity|]. tauto.
Qed.

Lemma dispatch_commands_invariants (message : SyncMLMessage)
      (cmds : list SyncMLCommand) :
  forall d d' r,
    dispatch_commands py cfg um message d cmds = (d', r) ->
    same_identity (d_session d) (d_session d')
    /\ reached (state (d_session d)) (state (d_session d'))
    /\ (numbered (d_builder d) (d_commands d) ->
        numbered (d_builder d') (d_commands d'))
    /\ (Forall server_command (d_commands d) ->
        Forall server_command (d_commands d'))
    /\ server_id (d_builder d') = server_id (d_builder d).
Proof.
  induction cmds as [|cmd rest IH]; intros d d' r H.
  - cbn in H. injection H as <- _.
    split; [apply same_identity_refl|]. split; [left; reflexivity|]. tauto.
  - cbn [dispatch_commands] in H.
    destruct (dispatch_command py cfg um message d cmd) as [e|d1] eqn:E.
    + injection H as <- _.
      split; [apply same_identity_refl|]. split; [left; reflexivity|]. tauto.
    + destruct (dispatch_command_invariants _ _ _ _ E) as (A1 & A2 & A3 & A4 & A5).
      destruct (IH _ _ _ H) as (B1 & B2 & B3 & B4 & B5).
      split; [eapply same_identity_trans; eassumption|].
      split; [eapply reached_trans; eassumption|].
      split; [tauto|]. split; [tauto|congruence].
Qed.

End HandlerInvariants.

Section Process.
Import Parser Builder SessionM Server Reading.
Variable py : Interpreter.
Variable cfg : Config.Settings.
Variable um : Update.UpdateManager.

Lemma check_and_send_update_invariants (s : Session) (b : SyncMLBuilder)
      (cs : list Element) :
  let '(s', r) := check_and_send_update py cfg um s b in
  same_identity s s'
  /\ reached (state s) (state s')
  /\ device_info s' = device_info s
  /\ match r with
     | inr (upd, b') =>
       (numbered b cs -> numbered b' (cs ++ upd))
       /\ Forall server_command upd
       /\ server_id b' = server_id b
     | inl _ => True
     end.
Proof.
  unfold check_and_send_update, Py.ok, Py.raise.
  destruct (negb _).
  { rewrite app_nil_r. split; [apply same_identity_refl|].
    split; [left; reflexivity|]. split; [reflexivity|].
    split; [tauto|]. split; [constructor|reflexivity]. }
  destruct (Update.check_update_available _ _ _) as [e|[pkg|]].
  { split; [apply same_identity_refl|].
    split; [left; reflexivity|]. split; [reflexivity|exact I]. }
  2:{ rewrite app_nil_r. split; [apply same_identity_refl|].
      split; [left; reflexivity|]. split; [reflexivity|].
      split; [tauto|]. split; [constructor|reflexivity]. }
  destruct (str_of_int py (Update.size pkg)) as [e|size].
  { split; [repeat split|]. split; [right; right; right; reflexivity|].
    split; [reflexivity|exact I]. }
  match goal with |- context [build_replace ?l ?b0] =>
    pose proof (build_replace_id l b0) as [Ho Hb];
    assert (Ht : tag (fst (build_replace l b0)) = "Replace")
      by (unfold build_replace, next_cmd_id; cbn [fst];
          rewrite tag_fold_map; reflexivity);
    destruct (build_replace l b0) as [rep b1]
  end.
  cbn [fst snd] in Ho, Hb, Ht.
  pose proof (build_exec_id "./Software/Operations/DownloadAndInstall" None b1)
    as [Ho2 Hb2].
  assert (Ht2 : tag (fst (build_exec "./Software/Operations/DownloadAndInstall"
                                     None b1)) = "Exec") by reflexivity.
  destruct (build_exec _ _ b1) as [ex b2]. cbn [fst snd] in Ho2, Hb2, Ht2.
  split; [repeat split|]. split; [right; right; right; reflexivity|].
  split; [reflexivity|]. split; [|split].
  - intros Hn. change [rep; ex] with ([rep] ++ [ex]). rewrite app_assoc.
    eapply numbered_snoc; [eapply numbered_snoc; eassumption|exact Ho2|].
    rewrite Hb2. subst b1. reflexivity.
  - constructor; [right; right; left; exact Ht|].
    constructor; [right; right; right; exact Ht2|constructor].
  - rewrite Hb2, Hb. reflexivity.
Qed.

(** What [process_dm_message] returns when nothing raises. *)
Lemma process_dm_message_shape (now : Z) (session : Session)
      (message : SyncMLMessage) (raw_body : bytes) (s' : Session)
      (response : Element) :
  process_dm_message py cfg um now session message raw_body
  = (s', ok response) ->
  exists (b : SyncMLBuilder) (commands : list Element),
    response
    = fst (build_response
             b (SessionM.session_id session) (Py.str (msg_id session + 1))
             (Parser.source (header message)) (Some (Config.SERVER_ID cfg))
             (header_status message (authenticated session)
              :: command_statuses message)
             commands true)
    /\ server_id b = Config.SERVER_ID cfg
    /\ numbered b commands
    /\ Forall server_command commands.
Proof.
  unfold process_dm_message. cbn [SessionM.next_msg_id].
  match goal with
  | |- context [dispatch_commands py cfg um message ?d ?c] =>
    pose proof (dispatch_commands_invariants py cfg um message c d) as Hi;
    pose proof (dispatch_commands_statuses py cfg um message c d) as Hs;
    destruct (dispatch_commands py cfg um message d c) as [d' [e|[]]]
  end; [discriminate|].
  specialize (Hi _ _ eq_refl) as (I1 & I2 & I3 & I4 & I5).
  specialize (Hs _ eq_refl).
  cbn [d_session d_builder d_commands d_statuses state] in I1, I2, I3, I4, I5, Hs.
  assert (Hn0 : numbered (new_builder cfg) []) by (split; reflexivity).
  specialize (I3 Hn0). specialize (I4 (List.Forall_nil _)).
  destruct I1 as (J1 & J2 & J3 & J4 & J5 & J6 & J7 & J8 & J9).
  cbn [SessionM.session_id msg_id last_activity authenticated] in *.
  match goal with
  | |- context [if ?c then check_and_send_update py cfg um ?a3 ?a4 else ?e] =>
    pose proof (check_and_send_update_invariants a3 a4 (d_commands d')) as Hu;
    destruct c
  end.
  - destruct (check_and_send_update py cfg um (d_session d') (d_builder d'))
      as [s2 [e|[upd b2]]]; [discriminate|].
    destruct Hu as (U1 & _ & _ & U3 & U4 & U6).
    destruct U1 as (K1 & _).
    destruct (build_response _ _ _ _ _ _ _ _) as [resp bb] eqn:E.
    intros [= <- <-].
    exists b2, (d_commands d' ++ upd).
    split.
    { apply (f_equal fst) in E. cbn [fst] in E. rewrite <- E, Hs.
      cbn [app authenticated]. rewrite K1, J1. reflexivity. }
    split; [rewrite U6; exact I5|].
    split; [tauto|apply Forall_app; tauto].
  - unfold Py.ok. cbv beta iota.
    destruct (build_response _ _ _ _ _ _ _ _) as [resp bb] eqn:E.
    intros [= <- <-].
    exists (d_builder d'), (d_commands d').
    split.
    { apply (f_equal fst) in E. cbn [fst] in E. rewrite <- E, Hs, app_nil_r.
      cbn [app authenticated]. rewrite J1. reflexivity. }
    split; [exact I5|]. split; tauto.
Qed.

End Process.

(** ** The parser on the trees of the builder *)

Section BuildParse.
Import Parser Builder Reading.

Lemma find_app {A} (f : A -> bool) (l1 l2 : list A) :
  List.find f (l1 ++ l2)
  = match List.find f l1 with
    | Some x => Some x
    | None => List.find f l2
    end.
Proof.
  induction l1 as [|x l1 IH]; [reflexivity|].
  cbn [app List.find]. destruct (f x); [reflexivity|exact IH].
Qed.

Lemma find_app_r {A} (f : A -> bool) (l1 l2 : list A) :
  List.find f l1 = None -> List.find f (l1 ++ l2) = List.find f l2.
Proof. intros H. rewrite find_app, H. reflexivity. Qed.

Lemma get_text_or_empty (t s : string) (pre post : list Element) (e : Element) :
  children e = pre ++ text_element t s :: post ->
  List.find (fun c => String.eqb (tag c) t) pre = None ->
  _get_text_or e t "" = s.
Proof.
  intros Hc Hp. unfold _get_text_or, _get_text, ET.find. rewrite Hc.
  rewrite find_app_r by exact Hp. cbn [List.find tag text_element].
  rewrite String.eqb_refl. cbn [text otruthy]. destruct s; reflexivity.
Qed.

Lemma status_elements_tags (statuses : list StatusBuilder) :
  forall b, Forall (fun e => tag e = "Status") (status_elements statuses b).
Proof.
  induction statuses as [|st r IH]; intros b; [constructor|].
  cbn [status_elements]. pose proof (build_status_tag st b) as Ht.
  destruct (_build_status st b) as [e b']. constructor; [exact Ht|apply IH].
Qed.

Lemma find_no_tag (t : string) (l : list Element) (u : string) :
  Forall (fun e => tag e = u) l -> String.eqb u t = false ->
  List.find (fun c => String.eqb (tag c) t) l = None.
Proof.
  intros Hf Hu. induction Hf as [|e l He _ IH]; [reflexivity|].
  cbn [List.find]. rewrite He, Hu. exact IH.
Qed.

Lemma find_existsb (t : string) (l : list Element) :
  match List.find (fun c => String.eqb (tag c) t) l with
  | Some _ => true
  | None => false
  end = existsb (fun c => String.eqb (tag c) t) l.
Proof.
  induction l as [|e l IH]; [reflexivity|].
  cbn [List.find existsb]. destruct (String.eqb (tag e) t); [reflexivity|exact IH].
Qed.

Lemma parse_build_header (b : SyncMLBuilder) (sid mid tgt : string)
      (src : option string) :
  _parse_header (_build_header b sid mid tgt src)
  = mkHeader "1.2" "DM/1.2" sid mid tgt (or_else src (server_id b))
             None None None ∅.
Proof.
  unfold _build_header. generalize (or_else src (server_id b)). intros s.
  destruct sid, mid, tgt, s; reflexivity.
Qed.

Lemma find_part_header_body (root hdr body : Element) :
  children root = [hdr; body] ->
  tag hdr = "SyncHdr" -> tag body = "SyncBody" ->
  ET.find_descendant "SyncBody" hdr = None ->
  find_part "SyncHdr" root = Some hdr /\ find_part "SyncBody" root = Some body.
Proof.
  intros Hc Hh Hb Hn. unfold find_part.
  rewrite !find_descendant_children, Hc. cbn [fold_right].
  rewrite Hh, Hb, Hn. split; reflexivity.
Qed.

Lemma parse_build_response
      (b : SyncMLBuilder) (sid mid tgt : string) (src : option string)
      (statuses : list StatusBuilder) (commands : list Element) (fin : bool) :
  let m := _parse_syncml (fst (build_response b sid mid tgt src statuses
                                              commands fin)) in
  header m = mkHeader "1.2" "DM/1.2" sid mid tgt (or_else src (server_id b))
                      None None None ∅
  /\ is_final m = fin || existsb (fun c => String.eqb (tag c) "Final") commands.
Proof.
  cbv zeta.
  destruct (build_response_tree b sid mid tgt src statuses commands fin)
    as (body & -> & Ht & Hc).
  unfold _parse_syncml.
  match goal with
  | |- context [find_part "SyncHdr" ?r] =>
    destruct (find_part_header_body
                r (_build_header (reset_cmd_id b) sid mid tgt src) body
                eq_refl eq_refl Ht eq_refl) as [-> ->]
  end.
  split; [rewrite parse_build_header; reflexivity|].
  unfold ET.find. rewrite Hc, find_app_r.
  - rewrite find_existsb, existsb_app. destruct fin; cbn;
      rewrite ?orb_true_r, ?orb_false_r; reflexivity.
  - eapply find_no_tag; [apply status_elements_tags|reflexivity].
Qed.

End BuildParse.

Section StatusParse.
Import Parser Builder Reading.

Lemma str_truthy (z : Z) : truthy (Py.str z) = true.
Proof.
  unfold Py.str. destruct (Z.to_int z) as [u|u]; cbn.
  - destruct u; reflexivity.
  - reflexivity.
Qed.

Lemma parse_status_item (d : gmap string string) :
  _parse_item (status_item d) = parsed_status_item d
  /\ tag (status_item d) = "Item".
Proof.
  unfold status_item, parsed_status_item, nonempty_opt, nonempty.
  destruct (d !! "target") as [t|]; destruct (d !! "data") as [x|];
    (split; [|reflexivity]); unfold _parse_item, _get_text_or, _get_text;
    cbn [ET.find children List.find tag text_element new_element append_child
         add_loc_uri ET.SubElement_text app String.eqb Ascii.eqb Bool.eqb text
         otruthy];
    repeat match goal with
           | |- context [truthy ?s] => destruct (truthy s) eqn:?
           end; try reflexivity;
    repeat match goal with
           | H : truthy ?s = false |- _ => apply truthy_empty in H; subst
           end; reflexivity.
Qed.

Lemma status_items_no (t : string) (items : list (gmap string string)) :
  String.eqb "Item" t = false ->
  List.find (fun c => String.eqb (tag c) t) (map status_item items) = None.
Proof.
  intros H. induction items as [|d r IH]; [reflexivity|].
  cbn [map List.find]. rewrite (proj2 (parse_status_item d)), H. exact IH.
Qed.

Lemma status_items_all (items : list (gmap string string)) :
  List.filter (fun c => String.eqb (tag c) "Item") (map status_item items)
  = map status_item items.
Proof.
  induction items as [|d r IH]; [reflexivity|].
  cbn [map List.filter]. rewrite (proj2 (parse_status_item d)).
  cbn. rewrite IH. reflexivity.
Qed.

Lemma parse_build_status (st : StatusBuilder) (b : SyncMLBuilder) :
  _parse_command (fst (_build_status st b))
  = parsed_status (Py.str (cmd_id_counter b + 1)) st.
Proof.
  unfold _parse_command, parsed_status, _get_text_or, _get_text, ET.find,
    ET.findall.
  rewrite build_status_tag, build_status_children.
  pose proof (str_truthy (cmd_id_counter b + 1)) as H1.
  pose proof (str_truthy (sb_data st)) as H2.
  unfold nonempty_opt, nonempty.
  destruct (sb_target_ref st) as [tr|], (sb_source_ref st) as [sr|];
    cbn [otruthy default from_option id];
    repeat match goal with
           | |- context [truthy ?s] =>
             lazymatch s with
             | Py.str _ => fail
             | _ => destruct (truthy s) eqn:?
             end
           end;
    cbn [app List.find List.filter tag text_element text otruthy
         String.eqb Ascii.eqb Bool.eqb];
    rewrite ?H1, ?H2, ?status_items_all, ?map_map;
    rewrite ?status_items_no by reflexivity;
    cbn [otruthy];
    repeat match goal with
           | H : truthy ?s = _ |- _ => rewrite H
           end;
    (f_equal; try reflexivity; apply map_ext; intros d;
     apply parse_status_item).
Qed.

End StatusParse.

(** ** The responses of [process_dm_message] *)

Section ResponseFacts.
Import Parser Builder SessionM Server Reading.


Lemma status_elements_length (statuses : list StatusBuilder) :
  forall b : SyncMLBuilder,
    length (status_elements statuses b) = length statuses.
Proof.
  induction statuses as [|st r IH]; intros b; [reflexivity|].
  cbn [status_elements]. destruct (_build_status st b) as [e b'].
  cbn [length]. rewrite IH. reflexivity.
Qed.

Lemma numbered_ids (b : SyncMLBuilder) (cs : list Element) :
  numbered b cs -> omap own_cmd_id cs = one_to (length cs).
Proof.
  intros [H _]. rewrite <- ids_from_zero.
  revert H. generalize (ids_from 0 (length cs)). intros l.
  revert l. induction cs as [|c r IH]; intros [|x l] H; try discriminate;
    [reflexivity|].
  cbn [map] in H. injection H as Hc Hr.
  cbn [omap list_omap]. rewrite Hc. f_equal. apply IH. exact Hr.
Qed.

Lemma parse_status_elements (statuses : list StatusBuilder) :
  forall b : SyncMLBuilder,
    map _parse_command (status_elements statuses b)
    = parsed_statuses (cmd_id_counter b) statuses.
Proof.
  induction statuses as [|st r IH]; intros b; [reflexivity|].
  cbn [status_elements parsed_statuses].
  pose proof (parse_build_status st b) as Hp.
  pose proof (build_status_counter st b) as Hb.
  destruct (_build_status st b) as [e b']. cbn [fst snd] in Hp, Hb. subst b'.
  cbn [map]. rewrite Hp, IH. reflexivity.
Qed.

Lemma filter_all {A} (f : A -> bool) (l : list A) :
  Forall (fun x => f x = true) l -> List.filter f l = l.
Proof.
  induction 1 as [|x l Hx _ IH]; [reflexivity|].
  cbn [List.filter]. rewrite Hx, IH. reflexivity.
Qed.

Lemma status_elements_not_final (statuses : list StatusBuilder)
      (b : SyncMLBuilder) :
  List.filter (fun child => negb (String.eqb (tag child) "Final"))
              (status_elements statuses b)
  = status_elements statuses b.
Proof.
  apply filter_all.
  eapply List.Forall_impl; [|apply status_elements_tags].
  intros e ->. reflexivity.
Qed.

End ResponseFacts.



(** X2.  In every response of [process_dm_message] the statuses carry
    the command identifiers 1..k, k being one more than the number of
    commands of the message that are not a [Status], and the commands of
    the server carry 1..m again, m being their number: an identifier is
    repeated as soon as the response holds a command of the server. *)
Theorem response_cmd_ids
        (py : Interpreter) (cfg : Config.Settings)
        (um : Update.UpdateManager) (now : Z)
        (session : SessionM.Session) (message : Parser.SyncMLMessage)
        (raw_body : bytes) (s' : SessionM.Session) (response : Element) :
  Server.process_dm_message py cfg um now session message raw_body
  = (s', ok response) ->
  let k := S (length (Reading.command_statuses message)) in
  exists (body : Element) (m : nat),
    ET.find "SyncBody" response = Some body
    /\ length (children body) = (k + m + 1)%nat
    /\ Builder.cmd_ids response = Builder.one_to k ++ Builder.one_to m.
Proof.
  intros H k.
  destruct (process_dm_message_shape py cfg um now session message raw_body
                                     s' response H)
    as (b & commands & -> & _ & Hn & _).
  destruct (build_response_body
              b (SessionM.session_id session)
              (Py.str (SessionM.msg_id session + 1))
              (Parser.source (Parser.header message))
              (Some (Config.SERVER_ID cfg))
              (Reading.header_status message (SessionM.authenticated session)
               :: Reading.command_statuses message) commands true)
    as (body & Hb & _ & Hc).
  exists body, (length commands). split; [exact Hb|]. split.
  - rewrite Hc, !length_app, status_elements_length. cbn [length].
    subst k. lia.
  - rewrite build_response_ids. cbn [length]. fold k.
    rewrite (numbered_ids b commands Hn). reflexivity.
Qed.

Lemma response_cmd_ids_witness :
  exists (body : Element) (m : nat),
    ET.find "SyncBody" (Reading.response_of Scenario.device_info_reply_response)
    = Some body
    /\ length (children body) = (2 + m + 1)%nat
    /\ Builder.cmd_ids (Reading.response_of
                          Scenario.device_info_reply_response)
       = Builder.one_to 2 ++ Builder.one_to m.
Proof.
  apply (response_cmd_ids
           Scenario.interpreter Scenario.settings Scenario.catalog_86 0
           (fst Scenario.client_init_response) Scenario.device_info_reply []
           (fst Scenario.device_info_reply_response)
           (Reading.response_of Scenario.device_info_reply_response)).
  vm_compute. reflexivity.
Defined.

(** X3.  Whatever the message, and also when a handler raises,
    [process_dm_message] advances the message counter of the session by
    exactly one and stamps the activity time; it keeps the session
    identifier, the authentication flag and the user name; and the
    state it leaves is the state it found or one of [AUTHENTICATED],
    [MANAGEMENT] and [UPDATE_AVAILABLE]: no message moves a session to
    [DOWNLOADING], [COMPLETE] or [ERROR]. *)
Theorem process_dm_message_session
        (py : Interpreter) (cfg : Config.Settings)
        (um : Update.UpdateManager) (now : Z)
        (session : SessionM.Session) (message : Parser.SyncMLMessage)
        (raw_body : bytes) :
  let s' := fst (Server.process_dm_message py cfg um now session message
                                           raw_body) in
  SessionM.msg_id s' = SessionM.msg_id session + 1
  /\ SessionM.last_activity s' = now
  /\ SessionM.session_id s' = SessionM.session_id session
  /\ SessionM.authenticated s' = SessionM.authenticated session
  /\ SessionM.username s' = SessionM.username session
  /\ Reading.reached (SessionM.state session) (SessionM.state s').
Proof.
  cbv zeta. unfold Server.process_dm_message. cbn [SessionM.next_msg_id].
  match goal with
  | |- context [Server.dispatch_commands py cfg um message ?d ?c] =>
    pose proof (dispatch_commands_invariants py cfg um message c d) as Hi;
    destruct (Server.dispatch_commands py cfg um message d c) as [d' r]
  end.
  specialize (Hi _ _ eq_refl) as (I1 & I2 & _).
  destruct I1 as (J1 & J2 & J3 & J4 & J5 & J6 & J7 & J8 & J9).
  cbn [Server.d_session SessionM.session_id SessionM.msg_id
       SessionM.last_activity SessionM.authenticated SessionM.username
       SessionM.state] in *.
  destruct r as [e|[]]; cbn [fst]; [repeat split; assumption|].
  match goal with
  | |- context [if ?c then Server.check_and_send_update py cfg um ?a3 ?a4
                else ?e] =>
    pose proof (check_and_send_update_invariants py cfg um a3 a4 []) as Hu;
    destruct c
  end.
  - destruct (Server.check_and_send_update
                py cfg um (Server.d_session d') (Server.d_builder d'))
      as [s2 upd].
    destruct Hu as (U1 & U2 & _).
    destruct U1 as (K1 & K2 & K3 & K4 & K5 & K6 & K7 & K8 & K9).
    assert (Hs2 : SessionM.msg_id s2 = SessionM.msg_id session + 1
                  /\ SessionM.last_activity s2 = now
                  /\ SessionM.session_id s2 = SessionM.session_id session
                  /\ SessionM.authenticated s2
                     = SessionM.authenticated session
                  /\ SessionM.username s2 = SessionM.username session
                  /\ Reading.reached (SessionM.state session)
                                     (SessionM.state s2)).
    { repeat split; try congruence. eapply reached_trans; eassumption. }
    destruct upd as [e|[uc b2]]; [exact Hs2|].
    destruct (Builder.build_response _ _ _ _ _ _ _ _) as [resp bb].
    exact Hs2.
  - unfold Py.ok. cbv beta iota.
    destruct (Builder.build_response _ _ _ _ _ _ _ _) as [resp bb].
    cbn [fst]. repeat split; assumption.
Qed.

(** X4.  The parser reads in a tree of [build_response] what the
    builder was given: the header with its protocol versions, session
    and message identifiers, target and source (the identifier of the
    server when no source is given); the statuses, numbered from 1, each
    with its references, command name, code and items; then what it
    reads in the commands that were appended; and the final flag. *)
Theorem build_response_parses_back
        (b : Builder.SyncMLBuilder) (session_id msg_id target : string)
        (source : option string) (statuses : list Builder.StatusBuilder)
        (commands : list Element) (is_final : bool) :
  let m := Parser._parse_syncml
             (fst (Builder.build_response b session_id msg_id target source
                                          statuses commands is_final)) in
  Parser.header m
  = Parser.mkHeader "1.2" "DM/1.2" session_id msg_id target
                    (or_else source (Builder.server_id b)) None None None ∅
  /\ Parser.commands m
     = Reading.parsed_statuses 0 statuses
       ++ map Parser._parse_command
              (List.filter (fun c => negb (String.eqb (tag c) "Final"))
                           commands)
  /\ Parser.is_final m
     = is_final || existsb (fun c => String.eqb (tag c) "Final") commands.
Proof.
  cbv zeta.
  destruct (build_response_tree b session_id msg_id target source statuses
                                commands is_final)
    as (body & -> & Ht & Hc).
  unfold Parser._parse_syncml.
  match goal with
  | |- context [Parser.find_part "SyncHdr" ?r] =>
    destruct (find_part_header_body
                r (Builder._build_header (Builder.reset_cmd_id b) session_id
                                         msg_id target source) body
                eq_refl eq_refl Ht eq_refl) as [-> ->]
  end.
  cbn [Parser.header Parser.commands Parser.is_final].
  split; [rewrite parse_build_header; reflexivity|]. split.
  - unfold Parser._parse_body. rewrite Hc, !List.filter_app, !map_app.
    rewrite status_elements_not_final, parse_status_elements.
    cbn [Builder.reset_cmd_id Builder.cmd_id_counter]. f_equal.
    destruct is_final; cbn; rewrite app_nil_r; reflexivity.
  - unfold ET.find. rewrite Hc, find_app_r.
    + rewrite find_existsb, existsb_app. destruct is_final; cbn;
        rewrite ?orb_true_r, ?orb_false_r; reflexivity.
    + eapply find_no_tag; [apply status_elements_tags|reflexivity].
Qed.

(** ** The codec beyond the claims *)

Section CodecFacts.
Import Tokens Codec.

Lemma rev_get_in (tags : list (Z * string)) (name : string) (t : Z) :
  rev_get tags name = Some t -> In (t, name) tags.
Proof.
  induction tags as [|[k v] r IH]; cbn [rev_get]; [discriminate|].
  destruct (rev_get r name) as [k'|].
  - intros [= <-]. right. apply IH. reflexivity.
  - destruct (String.eqb_spec v name) as [->|_]; [|discriminate].
    intros [= <-]. left. reflexivity.
Qed.

Lemma code_pages_cases (page : Z) :
  CODE_PAGES_get page = SYNCML_TAGS \/ CODE_PAGES_get page = METINF_TAGS.
Proof.
  unfold CODE_PAGES_get. destruct (page =? 0); [left; reflexivity|].
  destruct (page =? 1); [right|left]; reflexivity.
Qed.

End CodecFacts.

(** X5.  The multi-byte integers are not bound to 32 bits: for every
    value that is not negative, [read_mb_uint32] run on the bytes
    [write_mb_uint32] emits, wherever they sit in the input, returns
    the value and leaves the cursor just behind them; Python integers
    do not wrap and neither side cuts a value of more than five
    groups. *)
Theorem mb_uint32_unbounded (v : Z) (pre post tbl : bytes) (pg : Z) :
  0 <= v ->
  Codec.read_mb_uint32
    (Codec.mkDecoder (pre ++ Codec.mb_uint32_bytes v ++ post)
                     (length pre) tbl pg)
  = ok (v, Codec.mkDecoder (pre ++ Codec.mb_uint32_bytes v ++ post)
                           (length pre + length (Codec.mb_uint32_bytes v))
                           tbl pg).
Proof.
  intros Hv.
  destruct (mb_uint32_groups v Hv) as (l & Henc & Hne & Hall & Hval).
  unfold Codec.read_mb_uint32. cbn [Codec.data Codec.pos].
  rewrite Henc, read_mb_loop_flagged; try assumption.
  - rewrite Hval, mb_flag_length. reflexivity.
  - rewrite !length_app, mb_flag_length. lia.
Qed.

Lemma mb_uint32_unbounded_witness :
  Codec.read_mb_uint32
    (Codec.mkDecoder ([0x03] ++ Codec.mb_uint32_bytes (2 ^ 40 + 5) ++ [0x6A])
                     1 [] 0)
  = ok (2 ^ 40 + 5,
        Codec.mkDecoder
          ([0x03] ++ Codec.mb_uint32_bytes (2 ^ 40 + 5) ++ [0x6A])
          (1 + length (Codec.mb_uint32_bytes (2 ^ 40 + 5))) [] 0).
Proof.
  apply (mb_uint32_unbounded (2 ^ 40 + 5) [0x03] [0x6A] [] 0). lia.
Defined.

(** X6.  The token the encoder finds for a tag name on a code page is
    read back by the decoder on that page as the same name, with and
    without the content flag; it is none of the global tokens
    ([SWITCH_PAGE], [END], [ENTITY], [STR_I], [LITERAL], [STR_T],
    [OPAQUE]), also with the content flag, and it carries no attribute
    flag, so the decoder takes it for a tag and skips no attributes. *)
Theorem tag_tokens_read_back
        (name : string) (page t : Z) (st : Codec.WBXMLDecoder) :
  Codec.get_tag_token name page = Some t ->
  Codec.current_page st = page ->
  Codec.get_tag_name st t = name
  /\ Codec.get_tag_name st (Z.lor t Tokens.TAG_HAS_CONTENT) = name
  /\ Z.land t Tokens.TAG_HAS_CONTENT = 0
  /\ Z.land (Z.lor t Tokens.TAG_HAS_CONTENT) Tokens.TAG_HAS_CONTENT
     = Tokens.TAG_HAS_CONTENT
  /\ Z.land t Tokens.TAG_HAS_ATTRS = 0
  /\ Z.land (Z.lor t Tokens.TAG_HAS_CONTENT) Tokens.TAG_HAS_ATTRS = 0
  /\ Z.land t 0x3F <> Tokens.LITERAL
  /\ ~ In t [Tokens.SWITCH_PAGE; Tokens.END; Tokens.ENTITY; Tokens.STR_I;
             Tokens.LITERAL; Tokens.STR_T; Tokens.OPAQUE]
  /\ ~ In (Z.lor t Tokens.TAG_HAS_CONTENT)
          [Tokens.SWITCH_PAGE; Tokens.END; Tokens.ENTITY; Tokens.STR_I;
           Tokens.LITERAL; Tokens.STR_T; Tokens.OPAQUE].
Proof.
  unfold Codec.get_tag_token, Codec.get_tag_name. intros H ->.
  apply rev_get_in in H.
  destruct (code_pages_cases page) as [E|E]; rewrite E in *; clear E;
    cbn [Tokens.SYNCML_TAGS Tokens.METINF_TAGS In] in H;
    repeat (destruct H as [H|H];
            [injection H as <- <-;
             repeat split; try reflexivity; try (vm_compute; discriminate);
             (cbn; intros X; intuition discriminate)|]);
    destruct H.
Qed.

Lemma tag_tokens_read_back_witness :
  Codec.get_tag_name (Codec.mkDecoder [] 0 [] 1) 0x10 = "NextNonce"
  /\ Codec.get_tag_name (Codec.mkDecoder [] 0 [] 1) 0x50 = "NextNonce".
Proof.
  destruct (tag_tokens_read_back "NextNonce" 1 0x10
                                 (Codec.mkDecoder [] 0 [] 1)
                                 eq_refl eq_refl) as (H1 & H2 & _).
  split; [exact H1|exact H2].
Defined.

(** ** Authentication beyond the claims *)

(** X7.  [verify_client_auth] accepts a MAC exactly when it is the MAC
    of the body under the nonce (the nonce given, or the server nonce of
    the object, or the empty nonce), the configured password, and the
    user name presented or the configured user name: the password is
    never the client's, and a MAC made for the configured user name is
    accepted under any user name. *)
Theorem verify_client_auth_accepts
        (self : Auth.HMACAuth) (mac username : string) (body : bytes)
        (nonce : option bytes) :
  let n := match nonce with
           | Some n => n
           | None => Auth.bytes_or_empty (Auth.server_nonce self)
           end in
  Auth.verify_client_auth self mac username body nonce = true
  <-> mac = Auth.compute_hmac username (Auth.password self) n body
      \/ mac = Auth.compute_hmac (Auth.username self) (Auth.password self)
                                 n body.
Proof.
  cbv zeta. unfold Auth.verify_client_auth.
  set (n := match nonce with
            | Some n => n
            | None => Auth.bytes_or_empty (Auth.server_nonce self)
            end).
  destruct (String.eqb_spec
              mac (Auth.compute_hmac username (Auth.password self) n body))
    as [E1|E1]; [split; [left; exact E1|reflexivity]|].
  destruct (String.eqb_spec username (Auth.username self)) as [E2|E2];
    cbn [negb].
  - split; [discriminate|]. intros [H|H]; [contradiction|].
    rewrite <- E2 in H. contradiction.
  - destruct (String.eqb_spec
                mac (Auth.compute_hmac (Auth.username self)
                                       (Auth.password self) n body))
      as [E3|E3]; [split; [right; exact E3|reflexivity]|].
    split; [discriminate|]. intros [H|H]; contradiction.
Qed.

Section StringFacts.
Import Tokens Codec.

Lemma find_nul_app (l post : bytes) :
  ~ In 0 l -> forall i, find_nul (l ++ 0 :: post) i = Some (i + length l)%nat.
Proof.
  induction l as [|b r IH]; intros Hn i.
  - cbn. f_equal. lia.
  - cbn [app find_nul length].
    destruct (Z.eqb_spec b 0) as [->|_]; [exfalso; apply Hn; left; reflexivity|].
    rewrite IH by (intros X; apply Hn; right; exact X). f_equal. lia.
Qed.

Lemma ascii_of_byte_of_ascii (c : ascii) : ascii_of_byte (byte_of_ascii c) = c.
Proof.
  unfold ascii_of_byte, byte_of_ascii. rewrite N2Z.id.
  apply ascii_N_embedding.
Qed.

Lemma chars_encode (s : string) : chars (encode s) = s.
Proof.
  unfold chars, encode. rewrite map_map.
  rewrite (map_ext _ (fun c => c)) by apply ascii_of_byte_of_ascii.
  rewrite map_id. apply string_of_list_ascii_of_string.
Qed.

Lemma read_string_at (l pre post tbl : bytes) (pg : Z) :
  ~ In 0 l ->
  read_string (mkDecoder (pre ++ (l ++ [0]) ++ post) (length pre) tbl pg)
  = let* s := decode l in
    ok (s, mkDecoder (pre ++ (l ++ [0]) ++ post)
                     (length pre + length (l ++ [0])) tbl pg).
Proof.
  intros Hn. unfold read_string. cbn [data pos].
  rewrite drop_app_length, <- app_assoc. cbn [app].
  rewrite find_nul_app by exact Hn.
  unfold slice. rewrite drop_app_length.
  replace (length pre + length l - length pre)%nat with (length l) by lia.
  rewrite take_app_length.
  destruct (decode l) as [e|s]; [reflexivity|].
  cbn [Py.bind]. unfold set_pos. cbn [data string_table current_page].
  rewrite length_app. cbn [length]. do 3 f_equal. lia.
Qed.

End StringFacts.

(** X8.  An inline string is read back as it was written: for a text
    without the character NUL (and well-formed as UTF-8),
    [write_string] emits [STR_I], the bytes of the text and a zero
    byte, and [read_string], placed behind the token, returns the text
    and leaves the cursor behind the zero byte.  A text that holds a NUL
    is cut there: the decoder returns the part before it and goes on
    reading in the rest of the text. *)
Theorem string_read_back (s : string) (pre post tbl : bytes) (pg : Z) :
  ~ In 0 (encode s) ->
  utf8_valid (encode s) = true ->
  let enc := encode s ++ [0] in
  Codec.output (Codec.write_string s Codec.init_encoder)
  = Tokens.STR_I :: enc
  /\ Codec.read_string
       (Codec.mkDecoder (pre ++ enc ++ post) (length pre) tbl pg)
     = ok (s, Codec.mkDecoder (pre ++ enc ++ post)
                              (length pre + length enc) tbl pg)
  /\ forall rest : string,
       Codec.read_string
         (Codec.mkDecoder
            (pre ++ encode (s +:+ String "000" rest) ++ [0] ++ post)
            (length pre) tbl pg)
       = ok (s, Codec.mkDecoder
                  (pre ++ encode (s +:+ String "000" rest) ++ [0] ++ post)
                  (length pre + length enc) tbl pg).
Proof.
  intros Hn Hv enc. split; [reflexivity|]. split.
  - unfold enc. rewrite read_string_at by exact Hn.
    unfold decode. rewrite Hv. cbn [Py.bind]. rewrite chars_encode.
    reflexivity.
  - intros rest.
    assert (E : encode (s +:+ String "000" rest) ++ [0] ++ post
                = (encode s ++ [0]) ++ (encode rest ++ [0] ++ post)).
    { rewrite encode_app.
      change (encode (String "000" rest)) with (0 :: encode rest).
      rewrite <- !app_assoc. reflexivity. }
    rewrite E. rewrite read_string_at by exact Hn.
    unfold decode. rewrite Hv. cbn [Py.bind]. rewrite chars_encode.
    reflexivity.
Qed.

Lemma string_read_back_witness :
  Codec.read_string
    (Codec.mkDecoder ([0x03] ++ (encode "DEV-A" ++ [0]) ++ [0x01]) 1 [] 0)
  = ok ("DEV-A",
        Codec.mkDecoder ([0x03] ++ (encode "DEV-A" ++ [0]) ++ [0x01])
                        (1 + length (encode "DEV-A" ++ [0])) [] 0).
Proof.
  assert (H : ~ In 0 (encode "DEV-A")) by (vm_compute; intuition discriminate).
  exact (proj1 (proj2 (string_read_back "DEV-A" [0x03] [0x01] [] 0 H
                                        eq_refl))).
Defined.

(** ** The parser on the commands of the builder *)

Section CommandParse.
Import Parser Builder Reading.

Lemma children_fold_meta (meta : list (string * string)) :
  forall m : Element,
    children (fold_left (fun m kv => ET.SubElement_text m (fst kv) (snd kv))
                        meta m)
    = children m ++ map (fun kv => text_element (fst kv) (snd kv)) meta
    /\ tag (fold_left (fun m kv => ET.SubElement_text m (fst kv) (snd kv))
                      meta m) = tag m.
Proof.
  induction meta as [|kv r IH]; intros m; cbn [fold_left map].
  - rewrite app_nil_r. split; reflexivity.
  - destruct (IH (ET.SubElement_text m (fst kv) (snd kv))) as [-> ->].
    cbn [ET.SubElement_text append_child children tag].
    rewrite <- app_assoc. split; reflexivity.
Qed.

Lemma parse_meta_fold (meta : list (string * string)) :
  forall acc : gmap string string,
    fold_left (fun result child =>
                 match text child with
                 | Some s => if truthy s then <[tag child := s]> result
                             else result
                 | None => result
                 end)
              (map (fun kv => text_element (fst kv) (snd kv)) meta) acc
    = fold_left (fun m kv => if truthy (snd kv) then <[fst kv := snd kv]> m
                             else m) meta acc.
Proof.
  induction meta as [|kv r IH]; intros acc; [reflexivity|].
  cbn [map fold_left text_element text tag]. apply IH.
Qed.

(** The [Meta] element of an item and what the parser reads in it. *)
Lemma parse_built_meta (meta : list (string * string)) :
  let m := fold_left (fun m kv => ET.SubElement_text m (fst kv) (snd kv))
                     meta (new_element "Meta") in
  tag m = "Meta" /\ _parse_meta m = parsed_meta meta.
Proof.
  cbv zeta. destruct (children_fold_meta meta (new_element "Meta")) as [Hc Ht].
  split; [exact Ht|]. unfold _parse_meta, parsed_meta. rewrite Hc.
  cbn [new_element children app]. apply parse_meta_fold.
Qed.

Ltac parse_item_cases :=
  unfold _parse_item, _get_text_or, _get_text, ET.find;
  cbn [children List.find tag text_element new_element append_child
       add_loc_uri ET.SubElement_text app String.eqb Ascii.eqb Bool.eqb text
       otruthy];
  repeat match goal with
         | H : tag ?m = "Meta" |- context [tag ?m] => rewrite H
         end;
  cbn [children List.find tag text_element new_element append_child
       add_loc_uri ET.SubElement_text app String.eqb Ascii.eqb Bool.eqb text
       otruthy];
  repeat match goal with
         | H : truthy ?s = _ |- context [truthy ?s] => rewrite H
         end;
  try reflexivity.

Lemma parse_replace_item (i : ItemBuilder) :
  let e := add_text_if_some
             (add_meta (add_loc_uri_if
                          (add_loc_uri_if (new_element "Item") "Target"
                                          (ib_target i))
                          "Source" (ib_source i))
                       (ib_meta i))
             "Data" (ib_data i) in
  _parse_item e = parsed_item i /\ tag e = "Item".
Proof.
  cbv zeta. unfold parsed_item, nonempty_opt, nonempty.
  destruct (parse_built_meta (ib_meta i)) as [Hmt Hmp]. cbv zeta in Hmt, Hmp.
  unfold add_meta, add_loc_uri_if, add_text_if_some.
  destruct (ib_meta i) as [|kv meta] eqn:Em.
  - destruct (ib_target i) as [t|]; [destruct (truthy t) eqn:Tt|];
      (destruct (ib_source i) as [s|]; [destruct (truthy s) eqn:Ts|]);
      (destruct (ib_data i) as [d|]; [destruct (truthy d) eqn:Td|]);
      (split; [|reflexivity]); parse_item_cases.
  - set (m := fold_left _ (kv :: meta) (new_element "Meta")) in *.
    rewrite <- Hmp. clearbody m.
    destruct (ib_target i) as [t|]; [destruct (truthy t) eqn:Tt|];
      (destruct (ib_source i) as [s|]; [destruct (truthy s) eqn:Ts|]);
      (destruct (ib_data i) as [d|]; [destruct (truthy d) eqn:Td|]);
      (split; [|reflexivity]); parse_item_cases.
Qed.

Lemma parse_results_item (i : ItemBuilder) :
  let e := add_text_if_some
             (add_meta (add_loc_uri_if (new_element "Item") "Source"
                                       (ib_source i))
                       (ib_meta i))
             "Data" (ib_data i) in
  _parse_item e = parsed_result_item i /\ tag e = "Item".
Proof.
  cbv zeta. unfold parsed_result_item, nonempty_opt, nonempty.
  destruct (parse_built_meta (ib_meta i)) as [Hmt Hmp]. cbv zeta in Hmt, Hmp.
  unfold add_meta, add_loc_uri_if, add_text_if_some.
  destruct (ib_meta i) as [|kv meta] eqn:Em.
  - destruct (ib_source i) as [s|]; [destruct (truthy s) eqn:Ts|];
      (destruct (ib_data i) as [d|]; [destruct (truthy d) eqn:Td|]);
      (split; [|reflexivity]); parse_item_cases.
  - set (m := fold_left _ (kv :: meta) (new_element "Meta")) in *.
    rewrite <- Hmp. clearbody m.
    destruct (ib_source i) as [s|]; [destruct (truthy s) eqn:Ts|];
      (destruct (ib_data i) as [d|]; [destruct (truthy d) eqn:Td|]);
      (split; [|reflexivity]); parse_item_cases.
Qed.

Lemma parse_get_item (t : string) :
  let e := add_loc_uri (new_element "Item") "Target" t in
  _parse_item e = mkItem (Some t) None None ∅ /\ tag e = "Item".
Proof.
  cbv zeta. split; [|reflexivity].
  destruct (truthy t) eqn:Tt; parse_item_cases.
  apply truthy_empty in Tt. subst. reflexivity.
Qed.

Lemma parse_exec_item (target : string) (data : option string) :
  _parse_item (add_text_if (add_loc_uri (new_element "Item") "Target" target)
                           "Data" data)
  = mkItem (Some target) None (nonempty_opt data) ∅.
Proof.
  unfold add_text_if, nonempty_opt, nonempty.
  destruct data as [d|]; [destruct (truthy d) eqn:Td|];
    destruct (truthy target) eqn:Tt; parse_item_cases;
    apply truthy_empty in Tt; subst; reflexivity.
Qed.

(** The items of a command and the children the parser looks for. *)
Lemma items_only {A} (f : A -> Element) (g : A -> SyncMLItem)
      (l : list A) (t : string) :
  (forall x, _parse_item (f x) = g x /\ tag (f x) = "Item") ->
  map _parse_item (List.filter (fun c => String.eqb (tag c) "Item") (map f l))
  = map g l
  /\ (String.eqb "Item" t = false ->
      List.find (fun c => String.eqb (tag c) t) (map f l) = None).
Proof.
  intros H. split.
  - induction l as [|x r IH]; [reflexivity|].
    cbn [map List.filter]. rewrite (proj2 (H x)). cbn [String.eqb Ascii.eqb Bool.eqb map].
    rewrite (proj1 (H x)), IH. reflexivity.
  - intros Ht. induction l as [|x r IH]; [reflexivity|].
    cbn [map List.find]. rewrite (proj2 (H x)), Ht. exact IH.
Qed.

End CommandParse.

(** X9.  The parser reads in a command of the builder what the builder
    was given.  A [Get] is read with its identifier and one item per
    target; an [Exec] with its target and its data; a [Replace] with the
    target, the source, the data and the meta information of every item
    (an empty target, source or data being read as none); a [Results]
    with its references and, for every item, the source, the data and
    the meta information: [build_results] writes no [Target]. *)
Theorem server_commands_parse_back (b : Builder.SyncMLBuilder) :
  let id := Py.str (Builder.cmd_id_counter b + 1) in
  (forall targets : list string,
      Parser._parse_command (fst (Builder.build_get targets b))
      = Reading.parsed_command
          "Get" id None None
          (map (fun t => Parser.mkItem (Some t) None None ∅) targets))
  /\ (forall (target : string) (data : option string),
         Parser._parse_command (fst (Builder.build_exec target data b))
         = Reading.parsed_command
             "Exec" id None None
             [Parser.mkItem (Some target) None (Reading.nonempty_opt data) ∅])
  /\ (forall items : list Builder.ItemBuilder,
         Parser._parse_command (fst (Builder.build_replace items b))
         = Reading.parsed_command "Replace" id None None
                                  (map Reading.parsed_item items))
  /\ (forall (msg_ref cmd_ref : string) (items : list Builder.ItemBuilder),
         Parser._parse_command
           (fst (Builder.build_results msg_ref cmd_ref items b))
         = Reading.parsed_command
             "Results" id (Reading.nonempty msg_ref)
             (Reading.nonempty cmd_ref)
             (map Reading.parsed_result_item items)).
Proof.
  cbv zeta. pose proof (str_truthy (Builder.cmd_id_counter b + 1)) as Hid.
  split; [|split; [|split]].
  - intros targets.
    unfold Builder.build_get, Builder.next_cmd_id, Parser._parse_command,
      Parser._get_text_or, Parser._get_text, ET.find, ET.findall,
      Reading.parsed_command.
    cbn [fst]. rewrite tag_fold_map, children_fold_map.
    destruct (items_only
                (Builder.add_loc_uri (new_element "Item") "Target")
                (fun t => Parser.mkItem (Some t) None None ∅)
                targets "x" parse_get_item) as [Hi _].
    cbn [ET.SubElement_text append_child children new_element app tag
         List.find List.filter text_element String.eqb Ascii.eqb Bool.eqb
         text otruthy].
    rewrite Hid, Hi.
    rewrite !(proj2 (items_only
                       (Builder.add_loc_uri (new_element "Item") "Target")
                       _ targets _ parse_get_item))
      by reflexivity.
    reflexivity.
  - intros target data.
    unfold Builder.build_exec, Builder.next_cmd_id, Parser._parse_command,
      Parser._get_text_or, Parser._get_text, ET.find, ET.findall,
      Reading.parsed_command.
    cbn [fst].
    pose proof (parse_exec_item target data) as Hi.
    assert (Ht : tag (Builder.add_text_if
                        (Builder.add_loc_uri (new_element "Item") "Target"
                                             target) "Data" data) = "Item")
      by (unfold Builder.add_text_if; destruct data as [d|];
          [destruct (truthy d)|]; reflexivity).
    set (item := Builder.add_text_if _ "Data" data) in *. clearbody item.
    cbn [ET.SubElement_text append_child children new_element app tag
         List.find List.filter text_element String.eqb Ascii.eqb Bool.eqb
         text otruthy].
    rewrite Hid, Ht.
    cbn [List.find List.filter String.eqb Ascii.eqb Bool.eqb map].
    rewrite Hi. reflexivity.
  - intros items.
    unfold Builder.build_replace, Builder.next_cmd_id, Parser._parse_command,
      Parser._get_text_or, Parser._get_text, ET.find, ET.findall,
      Reading.parsed_command.
    cbn [fst].
    rewrite (tag_fold_map
               (fun i => Builder.add_text_if_some
                           (Builder.add_meta
                              (Builder.add_loc_uri_if
                                 (Builder.add_loc_uri_if
                                    (new_element "Item") "Target"
                                    (Builder.ib_target i))
                                 "Source" (Builder.ib_source i))
                              (Builder.ib_meta i))
                           "Data" (Builder.ib_data i))),
            (children_fold_map
               (fun i => Builder.add_text_if_some
                           (Builder.add_meta
                              (Builder.add_loc_uri_if
                                 (Builder.add_loc_uri_if
                                    (new_element "Item") "Target"
                                    (Builder.ib_target i))
                                 "Source" (Builder.ib_source i))
                              (Builder.ib_meta i))
                           "Data" (Builder.ib_data i))).
    cbn [ET.SubElement_text append_child children new_element app tag
         List.find List.filter text_element String.eqb Ascii.eqb Bool.eqb
         text otruthy].
    rewrite Hid.
    rewrite (proj1 (items_only _ _ items "x" parse_replace_item)).
    rewrite !(proj2 (items_only _ _ items _ parse_replace_item))
      by reflexivity.
    reflexivity.
  - intros msg_ref cmd_ref items.
    unfold Builder.build_results, Builder.next_cmd_id, Parser._parse_command,
      Parser._get_text_or, Parser._get_text, ET.find, ET.findall,
      Reading.parsed_command, Reading.nonempty.
    cbn [fst].
    rewrite (tag_fold_map
               (fun i => Builder.add_text_if_some
                           (Builder.add_meta
                              (Builder.add_loc_uri_if
                                 (new_element "Item") "Source"
                                 (Builder.ib_source i))
                              (Builder.ib_meta i))
                           "Data" (Builder.ib_data i))),
            (children_fold_map
               (fun i => Builder.add_text_if_some
                           (Builder.add_meta
                              (Builder.add_loc_uri_if
                                 (new_element "Item") "Source"
                                 (Builder.ib_source i))
                              (Builder.ib_meta i))
                           "Data" (Builder.ib_data i))).
    cbn [ET.SubElement_text append_child children new_element app tag
         List.find List.filter text_element String.eqb Ascii.eqb Bool.eqb
         text otruthy].
    rewrite Hid.
    rewrite (proj1 (items_only _ _ items "x" parse_results_item)).
    rewrite !(proj2 (items_only _ _ items _ parse_results_item))
      by reflexivity.
    destruct (truthy msg_ref), (truthy cmd_ref); reflexivity.
Qed.
